(** * nodejs-info: a shallow embedding of [nodeinfo()] (src/nodejs-info.js)

    [nodeinfo(req, options)] collects facts about the host, the Node process
    and the request, formats them, and renders them through a Handlebars
    template into one HTML page.  The embedding follows the JavaScript text:

    - JavaScript values are an inductive type; objects are property lists in
      insertion order, read in the order JavaScript enumerates own keys;
    - numbers are IEEE 754 binary64 values ([spec_float] with precision 53);
    - property reads that throw a [TypeError] in JavaScript return [Throw];
    - the two objects the function mutates and that outlive the call, the
      request and the global [process], are threaded through a state monad;
    - the template is transcribed block by block under the rendering rules
      of Handlebars (escaping, [#if], [#each], standalone block lines). *)

From Stdlib Require Import ZArith NArith Arith Bool List String Ascii Lia.
From Stdlib Require Import DecimalString DecimalN DecimalNat Permutation Sorted.
From Stdlib Require Import Floats.SpecFloat.
Import ListNotations.

Local Open Scope list_scope.
Local Open Scope string_scope.

(* ================================================================== *)
(** * Text *)
(* ================================================================== *)

Module Text.

(** The double quote and the line feed, for template text. *)
Definition dq : string := String (ascii_of_nat 34) EmptyString.
Definition nl : string := String (ascii_of_nat 10) EmptyString.

(** [q s] is [s] between double quotes. *)
Definition q (s : string) : string := dq ++ s ++ dq.

(** [Array.prototype.join]. *)
Definition join (sep : string) (l : list string) : string := String.concat sep l.

(** Concatenation of a list of pieces. *)
Fixpoint cat (l : list string) : string :=
  match l with
  | [] => EmptyString
  | s :: r => s ++ cat r
  end.

(** [contains t s]: [t] occurs in [s]. *)
Definition contains (t s : string) : Prop :=
  exists a b, s = a ++ t ++ b.

(** [has_char c s]: the character [c] occurs in [s]. *)
Fixpoint has_char (c : ascii) (s : string) : bool :=
  match s with
  | EmptyString => false
  | String d r => Ascii.eqb c d || has_char c r
  end.

(** [occurs t s]: the test for [contains t s]. *)
Fixpoint occurs (t s : string) : bool :=
  (prefix t s ||
   match s with
   | EmptyString => false
   | String _ r => occurs t r
   end)%bool.

(** [no_script s]: every [<] of [s] has two characters after it in [s],
    and they are not [sc]; such a text holds no opening script tag, and so
    does a concatenation of such texts. *)
Fixpoint no_script (s : string) : bool :=
  match s with
  | EmptyString => true
  | String c r =>
      ((if Ascii.eqb c "<"
        then match r with
             | String c1 (String c2 _) => negb (Ascii.eqb c1 "s" && Ascii.eqb c2 "c")
             | _ => false
             end
        else true)
       && no_script r)%bool
  end.

(** Decimal numerals of natural numbers, as [Number::toString] prints
    non-negative integers below 10^21. *)
Definition decimal (n : N) : string := NilEmpty.string_of_uint (N.to_uint n).

(** The number a decimal numeral denotes, if it is one. *)
Definition parse_decimal (s : string) : option N :=
  match s with
  | EmptyString => None
  | _ => option_map N.of_uint (NilEmpty.uint_of_string s)
  end.

End Text.
Import Text.

(* ================================================================== *)
(** * JavaScript values and objects *)
(* ================================================================== *)

(** The values a request, an options object, [process] and [package.json]
    carry.  An object is its list of own properties in insertion order; when
    a key is listed twice the first binding is the property. *)
#[local] Set Warnings "-register-all".

Inductive value : Type :=
| VUndefined
| VNull
| VBool (b : bool)
| VStr (s : string)
| VObj (props : list (string * value)).

Inductive error : Type := TypeError.

Inductive result (A : Type) : Type :=
| Ok (a : A)
| Throw (e : error).
Arguments Ok {A} a.
Arguments Throw {A} e.

(** [ToBoolean]. *)
Definition truthy (v : value) : bool :=
  match v with
  | VUndefined | VNull => false
  | VBool b => b
  | VStr s => negb (String.eqb s EmptyString)
  | VObj _ => true
  end.

(** [ToString], as string concatenation and template literals apply it. *)
Definition ToString (v : value) : string :=
  match v with
  | VUndefined => "undefined"
  | VNull => "null"
  | VBool true => "true"
  | VBool false => "false"
  | VStr s => s
  | VObj _ => "[object Object]"
  end.

Module Obj.

Section Props.
Context {A : Type}.

(** [o[k]] on the own properties. *)
Fixpoint lookup (k : string) (p : list (string * A)) : option A :=
  match p with
  | [] => None
  | (k', v) :: r => if String.eqb k k' then Some v else lookup k r
  end.

(** [delete o[k]]. *)
Fixpoint remove (k : string) (p : list (string * A)) : list (string * A) :=
  match p with
  | [] => []
  | (k', v) :: r =>
      if String.eqb k k' then remove k r else (k', v) :: remove k r
  end.

(** [o[k] = v]: an existing property keeps its place, a new one goes last. *)
Fixpoint put (k : string) (v : A) (p : list (string * A)) : list (string * A) :=
  match p with
  | [] => [(k, v)]
  | (k', v') :: r =>
      if String.eqb k k' then (k, v) :: r else (k', v') :: put k v r
  end.

(** The bindings that are properties: the first of each key. *)
Fixpoint live (p : list (string * A)) : list (string * A) :=
  match p with
  | [] => []
  | (k, v) :: r => (k, v) :: remove k (live r)
  end.

(** An array index is the canonical numeral of an integer below 2^32 - 1. *)
Definition array_index (k : string) : option N :=
  match parse_decimal k with
  | Some n =>
      if (String.eqb (decimal n) k && (n <? 4294967295)%N)%bool
      then Some n else None
  | None => None
  end.

Fixpoint insert_index (i : N) (e : string * A) (l : list (N * (string * A)))
  : list (N * (string * A)) :=
  match l with
  | [] => [(i, e)]
  | (j, e') :: r =>
      if (i <=? j)%N then (i, e) :: l else (j, e') :: insert_index i e r
  end.

Fixpoint index_part (p : list (string * A)) : list (N * (string * A)) :=
  match p with
  | [] => []
  | (k, v) :: r =>
      match array_index k with
      | Some i => insert_index i (k, v) (index_part r)
      | None => index_part r
      end
  end.

Fixpoint name_part (p : list (string * A)) : list (string * A) :=
  match p with
  | [] => []
  | (k, v) :: r =>
      match array_index k with
      | Some _ => name_part r
      | None => (k, v) :: name_part r
      end
  end.

(** The own properties in the order [for ... in] and [Object.keys]
    enumerate them: array indices ascending, then the other keys in
    insertion order. *)
Definition entries (p : list (string * A)) : list (string * A) :=
  (map snd (index_part (live p)) ++ name_part (live p))%list.

Definition keys (p : list (string * A)) : list string :=
  map fst (entries p).
End Props.

End Obj.

(** [v.k] and [v[k]]: reading a property of [undefined] or [null] throws;
    the primitives carry none of the properties [nodeinfo] asks for. *)
Definition getprop (v : value) (k : string) : result value :=
  match v with
  | VUndefined | VNull => Throw TypeError
  | VObj p =>
      match Obj.lookup k p with
      | Some x => Ok x
      | None => Ok VUndefined
      end
  | VBool _ | VStr _ => Ok VUndefined
  end.

(** The property [k] of [v] where reading it does not throw, [undefined]
    elsewhere: the name statements use for [v.k]. *)
Definition field (v : value) (k : string) : value :=
  match getprop v k with
  | Ok x => x
  | Throw _ => VUndefined
  end.

(* ================================================================== *)
(** * Numbers *)
(* ================================================================== *)

Module Num.

Local Open Scope Z_scope.

(** A JavaScript number is a binary64 value. *)
Definition number : Type := spec_float.

Definition prec : Z := 53.
Definition emax : Z := 1024.

(** The number an integer literal or an integer counter denotes (rounded to
    nearest even when it needs more than 53 bits). *)
Definition of_Z (z : Z) : number := binary_normalize prec emax z 0 false.

Definition mul : number -> number -> number := SFmul prec emax.
Definition div : number -> number -> number := SFdiv prec emax.

(** The values [Math.round] returns: [NaN], an infinity, or a double that
    is an integer, kept as that integer (both zeros are [IInt 0], which
    [Number::toString] prints alike). *)
Inductive integral : Type :=
| INaN
| IInf (negative : bool)
| IInt (z : Z).

(** The signed mantissa of a finite double. *)
Definition signed (s : bool) (m : positive) : Z :=
  if s then Z.neg m else Z.pos m.

(** [Math.round(x)]: the integer closest to [x], the larger one at a tie. *)
Definition Math_round (x : number) : integral :=
  match x with
  | S754_nan => INaN
  | S754_infinity s => IInf s
  | S754_zero _ => IInt 0
  | S754_finite s m e =>
      match e with
      | Z.neg k => IInt ((2 * signed s m + 2 ^ Z.pos k) / 2 ^ (Z.pos k + 1))
      | _ => IInt (signed s m * 2 ^ e)
      end
  end.

(** ** [Number::toString] on integers *)

Definition digits_of (z : Z) : string := decimal (Z.to_N z).

(** [round_trips z v]: the decimal value [v] denotes the double [z]. *)
Definition round_trips (z v : Z) : bool :=
  match of_Z z, of_Z v with
  | S754_finite _ m e, S754_finite _ m' e' => (Pos.eqb m m' && Z.eqb e e')%bool
  | _, _ => false
  end.

(** The candidates with [k] significant digits next to [z]: the pairs
    [(s, n)] with [s] of [k] digits whose value [s * 10^(n-k)] denotes [z],
    the closest to [z] first. *)
Definition candidates (z : Z) (nd k : Z) : list (Z * Z) :=
  let p := 10 ^ (nd - k) in
  let lo := z / p in
  let hi := lo + 1 in
  let norm s := if s =? 10 ^ k then (10 ^ (k - 1), nd + 1) else (s, nd) in
  let ok s := round_trips z (s * p) in
  let dlo := z - lo * p in
  let dhi := hi * p - z in
  let first_lo := ((dlo <? dhi) || ((dlo =? dhi) && Z.even lo))%bool in
  let l := if first_lo then [lo; hi] else [hi; lo] in
  map norm (filter ok l).

(** The shortest digit string that denotes [z], with its decimal exponent. *)
Fixpoint shortest (z nd : Z) (k : Z) (fuel : nat) : Z * Z * Z :=
  match fuel with
  | O => (z, nd, nd)
  | S fuel' =>
      match candidates z nd k with
      | (s, n) :: _ => (s, k, n)
      | [] => shortest z nd (k + 1) fuel'
      end
  end.

(** Exponential notation, used from 10^21 on. *)
Definition exponential (z : Z) : string :=
  let nd := Z.of_nat (String.length (digits_of z)) in
  let '(s, k, n) := shortest z nd 1 17 in
  let d := digits_of s in
  let mant :=
    match d with
    | String c r =>
        match r with
        | EmptyString => d
        | _ => String c ("." ++ r)
        end
    | EmptyString => d
    end in
  mant ++ "e+" ++ digits_of (n - 1).

Definition Number_toString (x : integral) : string :=
  match x with
  | INaN => "NaN"
  | IInf false => "Infinity"
  | IInf true => "-Infinity"
  | IInt z =>
      (if z <? 0 then "-" else EmptyString)
      ++ (if Z.abs z <? 10 ^ 21 then digits_of (Z.abs z) else exponential (Z.abs z))
  end.

(** ** [Number.prototype.toFixed(2)] *)

Fixpoint zeros (n : nat) : string :=
  match n with
  | O => EmptyString
  | S n' => "0" ++ zeros n'
  end.

(** [n] hundredths as a numeral with two decimals. *)
Definition hundredths (n : Z) : string :=
  let d := digits_of n in
  let d := zeros (3 - String.length d)%nat ++ d in
  let k := (String.length d - 2)%nat in
  substring 0 k d ++ "." ++ substring k 2 d.

Definition toFixed2 (x : number) : string :=
  match x with
  | S754_nan => "NaN"
  | S754_infinity s => Number_toString (IInf s)
  | S754_zero _ => "0.00"
  | S754_finite s m e =>
      match e with
      | Z.neg k =>
          (if s then "-" else EmptyString)
          ++ hundredths ((200 * Z.pos m + 2 ^ Z.pos k) / 2 ^ (Z.pos k + 1))
      | _ =>
          let z := Z.pos m * 2 ^ e in
          if z <? 10 ^ 21
          then (if s then "-" else EmptyString) ++ hundredths (100 * z)
          else Number_toString (IInt (signed s m * 2 ^ e))
      end
  end.

End Num.
Import Num.

(* ================================================================== *)
(** * The host: what [os], [process], [Intl] and [Date] report *)
(* ================================================================== *)

(** One element of [os.cpus()]: the model name and the speed in MHz, an
    integer. *)
Record cpu : Type := { model : string; speed : N }.

(** The facts one call reads.  They stand for the host state during the
    call: [os.cpus()] and [process.memoryUsage()] are called several times
    and answer alike. *)
Record host : Type := {
  os_cpus : list cpu;
  os_freemem : number;
  os_hostname : string;
  os_loadavg : list number;
  os_platform : string;
  os_release : string;
  os_totalmem : number;
  os_type : string;
  os_uptime : number;
  memoryUsage_rss : number;
  memoryUsage_heapTotal : number;
  memoryUsage_heapUsed : number;
  (** [Intl.DateTimeFormat('en').resolvedOptions().timeZone] *)
  timeZone : string;
  (** [Date()] *)
  Date_now : string;
  (** [require('../../package.json')], [None] when it is not available *)
  packageJson : option (list (string * value))
}.

(** ** The time zone offset (nodejs-info.js, line 166)

    [Date().match(re)[1]], where [re] is: one or more capitals, a sign, four
    digits, then the rest of the line; the whole match is group 1. *)

Module TzOffset.

Definition is_upper (c : ascii) : bool :=
  let n := nat_of_ascii c in ((65 <=? n) && (n <=? 90))%nat.

Definition is_digit (c : ascii) : bool :=
  let n := nat_of_ascii c in ((48 <=? n) && (n <=? 57))%nat.

Definition is_sign (c : ascii) : bool :=
  (Ascii.eqb c "+" || Ascii.eqb c "-")%bool.

(** What follows the longest run of capitals at the head of [s]. *)
Fixpoint after_capitals (s : string) : string :=
  match s with
  | String c r => if is_upper c then after_capitals r else s
  | EmptyString => s
  end.

Fixpoint digits_at (n : nat) (s : string) : bool :=
  match n with
  | O => true
  | S n' =>
      match s with
      | String c r => (is_digit c && digits_at n' r)%bool
      | EmptyString => false
      end
  end.

(** [.*]: up to the first line terminator (LF, CR, U+2028, U+2029 in
    UTF-8). *)
Fixpoint line (s : string) : string :=
  match s with
  | EmptyString => EmptyString
  | String c r =>
      let n := nat_of_ascii c in
      if (Nat.eqb n 10 || Nat.eqb n 13)%bool then EmptyString
      else if (Nat.eqb n 226
               && (prefix (String (ascii_of_nat 128) (String (ascii_of_nat 168) EmptyString)) r
                   || prefix (String (ascii_of_nat 128) (String (ascii_of_nat 169) EmptyString)) r))%bool
      then EmptyString
      else String c (line r)
  end.

(** Does the pattern match at the head of [s]? *)
Definition matches_here (s : string) : bool :=
  match s with
  | String c _ =>
      (is_upper c &&
       match after_capitals s with
       | String sg r => is_sign sg && digits_at 4 r
       | EmptyString => false
       end)%bool
  | EmptyString => false
  end.

(** The first group of the leftmost match. *)
Fixpoint group1 (s : string) : option string :=
  if matches_here s then Some (line s)
  else match s with
       | String _ r => group1 r
       | EmptyString => None
       end.

End TzOffset.

(** ** CPU summary (nodejs-info.js, lines 147-156) *)

Module Cpus.

(** [m[k] || 0] *)
Definition count_of (k : string) (m : list (string * N)) : N :=
  match Obj.lookup k m with
  | Some n => n
  | None => 0%N
  end.

(** [m[k] = (m[k] || 0) + 1] *)
Definition bump (k : string) (m : list (string * N)) : list (string * N) :=
  Obj.put k (match Obj.lookup k m with Some n => n | None => 0 end + 1)%N m.

(** The counting loop: [cpus.model] and [cpus.speed] after it.  The speed,
    a number, is a property key through its numeral. *)
Definition count (cs : list cpu) : list (string * N) * list (string * N) :=
  fold_left
    (fun acc c => (bump (model c) (fst acc), bump (decimal (speed c)) (snd acc)))
    cs ([], []).

(** The counting loop on one grouping alone, with [ks] the keys of the
    CPUs in turn. *)
Definition tally (ks : list string) : list (string * N) :=
  fold_left (fun m k => bump k m) ks [].

(** The sum of the counts of a grouping. *)
Definition total (m : list (string * N)) : N :=
  fold_right N.add 0%N (map snd m).

(** [cpus.x[p] + ' × ' + p] *)
Definition entry (e : string * N) : string :=
  decimal (snd e) ++ " × " ++ fst e.

(** The array pushed by [for (const p in cpus.x)]. *)
Definition entries (m : list (string * N)) : list string :=
  map entry (Obj.entries m).

Definition model_summary (cs : list cpu) : string :=
  join ", " (entries (fst (count cs))).

Definition speed_summary (cs : list cpu) : string :=
  join ", " (entries (snd (count cs))) ++ " MHz".

End Cpus.

(** [Object.keys(v)] for a truthy [v]. *)
Definition Object_keys (v : value) : list string :=
  match v with
  | VObj p => Obj.keys p
  | VStr s => map (fun i => decimal (N.of_nat i)) (seq 0 (String.length s))
  | _ => []
  end.

(* ================================================================== *)
(** * Handlebars: what the template's expressions and blocks produce *)
(* ================================================================== *)

Module Hb.

(** The replacement [Utils.escapeExpression] makes for one character:
    ampersand, angle brackets, double and single quote, backtick and the
    equals sign become entities. *)
Definition escape_char (c : ascii) : string :=
  if Ascii.eqb c "&" then "&amp;"
  else if Ascii.eqb c "<" then "&lt;"
  else if Ascii.eqb c ">" then "&gt;"
  else if Ascii.eqb c (ascii_of_nat 34) then "&quot;"
  else if Ascii.eqb c "'" then "&#x27;"
  else if Ascii.eqb c "`" then "&#x60;"
  else if Ascii.eqb c "=" then "&#x3D;"
  else String c EmptyString.

Fixpoint escape (s : string) : string :=
  match s with
  | EmptyString => EmptyString
  | String c r => escape_char c ++ escape r
  end.

(** [{{x}}]: [Utils.escapeExpression] of the value; [undefined] and
    [null] print nothing, the other values are converted to strings and
    escaped. *)
Definition escapeExpression (v : value) : string :=
  match v with
  | VUndefined | VNull => EmptyString
  | _ => escape (ToString v)
  end.

(** [{{{x}}}]: the value as a string, unescaped. *)
Definition raw (v : value) : string :=
  match v with
  | VUndefined | VNull => EmptyString
  | _ => ToString v
  end.

(** One step of a path [a.b]: a missing parent or property is not an
    error. *)
Definition prop (v : value) (k : string) : value :=
  match v with
  | VObj p =>
      match Obj.lookup k p with
      | Some x => x
      | None => VUndefined
      end
  | VUndefined | VNull => v
  | VBool _ | VStr _ => VUndefined
  end.

(** [{{#if v}}] takes its main branch unless [v] is falsy. *)
Definition if_ (v : value) (main otherwise : string) : string :=
  if truthy v then main else otherwise.

(** [{{#each v}}] over an object: the body once per own property, in
    enumeration order; nothing for the other values. *)
Definition each (v : value) (body : string -> value -> string) : string :=
  match v with
  | VObj p => cat (map (fun e => body (fst e) (snd e)) (Obj.entries p))
  | _ => EmptyString
  end.

End Hb.

(* ================================================================== *)
(** * The template (nodejs-info.js, lines 20-110) *)
(* ================================================================== *)

(** [context.os] after formatting. *)
Record os_context : Type := {
  hostname : string;
  type : string;
  platform : string;
  release : string;
  cpus_model : string;
  cpus_speed : string;
  uptime : string;
  loadavg : string;
  totalmem : string;
  freemem : string;
  freemempercent : integral
}.

(** The object handed to the compiled template.  [request] is
    [VUndefined] when the property was not set. *)
Record context : Type := {
  styleOverride : value;
  package : value;
  os : os_context;
  process : value;
  intlTimezone : string;
  dateTzOffset : string;
  request : value
}.

Module Template.

Import Hb.

(** A block tag alone on its line leaves nothing of that line, so every
    kept line below carries its own indentation and line feed. *)

Definition indent : string := "        ".

(** A heading row: a [th] over both columns holding an [h2] or [h3]. *)
Definition heading (h title : string) : string :=
  indent ++ "<tr><th colspan=" ++ q "2" ++ "><" ++ h ++ ">" ++ title
  ++ "</" ++ h ++ "></th></tr>" ++ nl.

(** A fact row: the name in a [th], the content in a [td]. *)
Definition row (name content : string) : string :=
  indent ++ "<tr><th>" ++ name ++ "</th><td>" ++ content ++ "</td></tr>" ++ nl.

(** Lines 20-36: up to the last rule of the built-in stylesheet. *)
Definition prologue : string := cat [
    "<!doctype html>" ++ nl;
    "<html>" ++ nl;
    "<head>" ++ nl;
    "    <title>NodeInfo</title>" ++ nl;
    "    <meta charset=" ++ dq ++ "utf-8" ++ dq ++ ">" ++ nl;
    "    <meta name=" ++ dq ++ "viewport" ++ dq ++ " content=" ++ dq ++ "width=device-width, initial-scale=1" ++ dq ++ ">" ++ nl;
    "    <link rel=" ++ dq ++ "stylesheet" ++ dq ++ " href=" ++ dq ++ "https://unpkg.com/sanitize.css" ++ dq ++ ">" ++ nl;
    "    <style>" ++ nl;
    "        main { color: #333333; font: 80% Verdana, Arial, Helvetica, sans-serif; line-height: 1.6; margin: 0.4em; }" ++ nl;
    "        h1 { font-size: 1.6em; }" ++ nl;
    "        h2 { margin: 1em 0; }" ++ nl;
    "        h3 { margin: 0.4em 0; }" ++ nl;
    "        table { background-color: #f4ede2; border: 1px solid #adadad; font-size: 0.8em; width: 100%; }" ++ nl;
    "        td, th { padding: 0.2em 0.8em; vertical-align: top; border-top: 1px solid #adadad; border-bottom: 1px solid #adadad; }" ++ nl;
    "        th { font-weight: normal; text-align: left; white-space: nowrap;  }" ++ nl;
    "        table table { border: none; }" ++ nl;
    "        table table td, table table th { padding: 0 0.4em 0 0; border: none; font-size: 125%; }" ++ nl
  ].

(** Line 37: the style override, unescaped, on a line of its own. *)
Definition style_line (c : context) : string :=
  indent ++ raw (styleOverride c) ++ nl.

(** Lines 38-43. *)
Definition body_open (c : context) : string := cat [
    "    </style>" ++ nl;
    "</head>" ++ nl;
    "<body>" ++ nl;
    "<main>" ++ nl;
    "    <h1>Node.js " ++ escapeExpression (prop (process c) "version") ++ "</h1>" ++ nl;
    "    <table>" ++ nl
  ].

(** Lines 44-54. *)
Definition package_section (c : context) : string :=
  let p := package c in
  if_ p (cat [
    heading "h2" "Package";
    row "name" (escapeExpression (prop p "name"));
    if_ (prop p "description")
      (row "description" (escapeExpression (prop p "description"))) EmptyString;
    row "version" (escapeExpression (prop p "version"));
    if_ (prop p "dependencies")
      (row "dependencies" (escapeExpression (prop p "dependencies"))) EmptyString
  ]) EmptyString.

(** Lines 55-73. *)
Definition os_section (c : context) : string :=
  let o := os c in
  cat [
    heading "h2" "OS";
    row "hostname" (escape (hostname o));
    row "type" (escape (type o));
    row "platform" (escape (platform o));
    row "release" (escape (release o));
    row "cpu models" (escape (cpus_model o));
    row "cpu speeds" (escape (cpus_speed o));
    row "uptime" (escape (uptime o));
    row "load avg" (escape (loadavg o));
    row "total memory" (escape (totalmem o));
    row "free memory"
      (escape (freemem o) ++ " (" ++ escape (Number_toString (freemempercent o)) ++ "%)");
    heading "h3" "process";
    row "resident set size" (escapeExpression (prop (process c) "rss"));
    row "v8 heap total" (escapeExpression (prop (process c) "heapTotal"));
    row "v8 heap used" (escapeExpression (prop (process c) "heapUsed"));
    heading "h3" "timezone";
    row "timezone" (escape (intlTimezone c));
    row "offset" (escape (dateTzOffset c));
    nl
  ].

(** Lines 74-78. *)
Definition versions_section (c : context) : string :=
  cat [
    heading "h2" "Node versions";
    each (prop (process c) "versions")
      (fun k v => row (escape k) (escapeExpression v));
    nl
  ].

(** Lines 79-83. *)
Definition env_section (c : context) : string :=
  let e := prop (prop (process c) "env") "NODE_ENV" in
  cat [
    if_ e (cat [
      indent ++ "<tr><th colspan=" ++ q "2" ++ ">&nbsp;</th></tr>" ++ nl;
      row "NODE_ENV" (escapeExpression e)
    ]) EmptyString;
    nl
  ].

(** Line 94: one header. *)
Definition header_row (k : string) (v : value) : string :=
  indent ++ "<tr><th style=" ++ q "white-space:nowrap" ++ ">" ++ escape k
  ++ "</th><td>" ++ escapeExpression v ++ "</td></tr>" ++ nl.

(** Line 99: one cookie. *)
Definition cookie_row (k : string) (v : value) : string :=
  "                <tr><th>" ++ escape k ++ "</th><td>:</td><td style="
  ++ q "word-break:break-all" ++ ">" ++ escapeExpression v ++ "</td></tr>" ++ nl.

(** Lines 93-95 and 98-100. *)
Definition header_rows (r : value) : string := each (prop r "headers") header_row.
Definition cookie_rows (r : value) : string := each (prop r "cookies") cookie_row.

(** Lines 85-102: the rows of a request. *)
Definition request_rows (r : value) : string :=
  cat [
    heading "h2" "Request";
    row "method" (escapeExpression (prop r "method"));
    row "href" (escapeExpression (prop r "href"));
    row "remote ip" (escapeExpression (prop r "ip_addr"));
    heading "h3" "headers";
    if_ (prop r "showOriginalUrl")
      (row "original url" (escapeExpression (prop r "originalUrl"))) EmptyString;
    header_rows r;
    indent ++ "<tr><th>cookies</th><td>" ++ nl;
    "            <table>" ++ nl;
    cookie_rows r;
    "            </table>" ++ nl;
    indent ++ "</td></tr>" ++ nl
  ].

(** Line 104. *)
Definition no_request : string := heading "h2" "No request object supplied".

(** Lines 84-105. *)
Definition request_section (c : context) : string :=
  if_ (request c) (request_rows (request c)) no_request.

(** Lines 106-110. *)
Definition epilogue : string := cat [
    "    </table>" ++ nl;
    "</main>" ++ nl;
    "</body>" ++ nl;
    "</html>" ++ nl
  ].

(** Lines 20-83: what precedes the request block. *)
Definition before_request (c : context) : string :=
  cat [
    prologue;
    style_line c;
    body_open c;
    package_section c;
    os_section c;
    versions_section c;
    env_section c
  ].

(** [handlebars.compile(template)(context)] *)
Definition render (c : context) : string :=
  before_request c ++ request_section c ++ epilogue.

(** Lines 38-110: what follows the line of the style override. *)
Definition after_style (c : context) : string :=
  cat [
    body_open c;
    package_section c;
    os_section c;
    versions_section c;
    env_section c
  ] ++ request_section c ++ epilogue.

End Template.

(* ================================================================== *)
(** * [cookie.parse] *)
(* ================================================================== *)

Module Cookie.

(** The pieces of [s] between occurrences of [c]. *)
Fixpoint split (c : ascii) (s : string) : list string :=
  match s with
  | EmptyString => [EmptyString]
  | String d r =>
      if Ascii.eqb c d then EmptyString :: split c r
      else match split c r with
           | p :: ps => String d p :: ps
           | [] => [String d EmptyString]
           end
  end.

Definition is_space (c : ascii) : bool :=
  let n := nat_of_ascii c in
  (Nat.eqb n 32 || ((9 <=? n)%nat && (n <=? 13)%nat))%bool.

Fixpoint trim_left (s : string) : string :=
  match s with
  | String c r => if is_space c then trim_left r else s
  | EmptyString => s
  end.

Fixpoint trim_right (s : string) : string :=
  match s with
  | EmptyString => EmptyString
  | String c r =>
      match trim_right r with
      | EmptyString => if is_space c then EmptyString else String c EmptyString
      | r' => String c r'
      end
  end.

Definition trim (s : string) : string := trim_right (trim_left s).

(** [s] cut at its first [=]: the name and the value, or [None]. *)
Fixpoint cut (s : string) : option (string * string) :=
  match s with
  | EmptyString => None
  | String c r =>
      if Ascii.eqb c "=" then Some (EmptyString, r)
      else match cut r with
           | Some (k, v) => Some (String c k, v)
           | None => None
           end
  end.

Definition hex (c : ascii) : option nat :=
  let n := nat_of_ascii c in
  if ((48 <=? n) && (n <=? 57))%nat then Some (n - 48)
  else if ((65 <=? n) && (n <=? 70))%nat then Some (n - 55)
  else if ((97 <=? n) && (n <=? 102))%nat then Some (n - 87)
  else None.

(** Percent-decoding; [None] at a malformed escape. *)
Fixpoint unescape (s : string) : option string :=
  match s with
  | EmptyString => Some EmptyString
  | String c r =>
      if Ascii.eqb c "%" then
        match r with
        | String h (String l r') =>
            match hex h, hex l, unescape r' with
            | Some a, Some b, Some t => Some (String (ascii_of_nat (16 * a + b)) t)
            | _, _, _ => None
            end
        | _ => None
        end
      else option_map (String c) (unescape r)
  end.

(** A value that does not decode is kept as it stands. *)
Definition decode (s : string) : string :=
  match unescape s with
  | Some t => t
  | None => s
  end.

(** A value between double quotes loses them. *)
Definition unquote (s : string) : string :=
  match s with
  | String c r =>
      if Ascii.eqb c (ascii_of_nat 34)
      then substring 0 (String.length r - 1) r
      else s
  | EmptyString => s
  end.

Definition add_pair (obj : list (string * value)) (pair : string)
  : list (string * value) :=
  match cut pair with
  | None => obj
  | Some (k, v) =>
      let key := trim k in
      match Obj.lookup key obj with
      | Some _ => obj
      | None => Obj.put key (VStr (decode (unquote (trim v)))) obj
      end
  end.

(** Modelled from the spec: [cookie.parse] of the npm package [cookie],
    which is not under src/.  The spec describes it as standard
    cookie-string decoding: semicolon-separated [name=value] pairs with
    URL-decoded values, a malformed header giving an empty or partial
    mapping.  A piece without [=] is skipped, names and values are trimmed,
    and the first pair of a name is the one kept. *)
Definition parse (s : string) : list (string * value) :=
  fold_left add_pair (split ";" s) [].

End Cookie.

(* ================================================================== *)
(** * State and exceptions *)
(* ================================================================== *)

(** The objects [nodeinfo] writes to and that outlive the call: the request
    passed in, and the own properties of the global [process]. *)
Record store : Type := { req : value; proc : list (string * value) }.

(** A computation reads and writes the store and returns or throws; the
    store at a throw is the store reached so far. *)
Definition M (A : Type) : Type := store -> result A * store.

Definition ret {A} (a : A) : M A := fun s => (Ok a, s).

Definition throw {A} (e : error) : M A := fun s => (Throw e, s).

Definition bind {A B} (m : M A) (k : A -> M B) : M B :=
  fun s =>
    match m s with
    | (Ok a, s') => k a s'
    | (Throw e, s') => (Throw e, s')
    end.

Declare Scope js_scope.
Delimit Scope js_scope with js.
Notation "x <- m ;; k" := (bind m (fun x => k))
  (at level 61, m at next level, right associativity) : js_scope.
Notation "m ;; k" := (bind m (fun _ => k))
  (at level 61, right associativity) : js_scope.

Definition lift {A} (r : result A) : M A := fun s => (r, s).

(** [req] *)
Definition the_request : M value := fun s => (Ok (req s), s).

(** [process] *)
Definition the_process : M value := fun s => (Ok (VObj (proc s)), s).

(** [req.k] *)
Definition request_prop (k : string) : M value :=
  fun s => (getprop (req s) k, s).

(** [req.k1.k2] *)
Definition request_path (k1 k2 : string) : M value :=
  (o <- request_prop k1 ;; lift (getprop o k2))%js.

(** [req.k1.k2.k3] *)
Definition request_path3 (k1 k2 k3 : string) : M value :=
  (o <- request_path k1 k2 ;; lift (getprop o k3))%js.

(** [req.k = v] under ['use strict']: writing to a primitive throws. *)
Definition set_request_prop (k : string) (v : value) : M unit :=
  fun s =>
    match req s with
    | VObj p => (Ok tt, {| req := VObj (Obj.put k v p); proc := proc s |})
    | _ => (Throw TypeError, s)
    end.

(** [delete req.headers.k]: the headers object loses the property in
    place; deleting from a primitive does nothing. *)
Definition delete_header (k : string) : M unit :=
  (hs <- request_prop "headers" ;;
   match hs with
   | VObj hp => set_request_prop "headers" (VObj (Obj.remove k hp))
   | _ => ret tt
   end)%js.

(** [process.k = v] *)
Definition set_process_prop (k : string) (v : value) : M unit :=
  fun s => (Ok tt, {| req := req s; proc := Obj.put k v (proc s) |}).

(* ================================================================== *)
(** * [nodeinfo] (nodejs-info.js, lines 121-190) *)
(* ================================================================== *)

Section Nodeinfo.

(** The npm packages [prettysize] and [humanize-duration] (the latter
    with the options of line 140) are taken as they come: functions from
    numbers to strings. *)
Variable prettysize : number -> string.
Variable humanizeDuration : number -> string.

Local Open Scope js_scope.

(** Lines 122-127: [Object.assign({ style: '' }, options).style]. *)
Definition style_option (options : value) : value :=
  match options with
  | VObj p =>
      match Obj.lookup "style" p with
      | Some v => v
      | None => VStr EmptyString
      end
  | _ => VStr EmptyString
  end.

(** Lines 130-133: a copy of [package.json] with its dependencies as a
    list of names, or [null]. *)
Definition package_context (h : host) : value :=
  match packageJson h with
  | None => VNull
  | Some p =>
      let copy := Obj.entries p in
      match Obj.lookup "dependencies" copy with
      | Some d =>
          if truthy d
          then VObj (Obj.put "dependencies" (VStr (join ", " (Object_keys d))) copy)
          else VObj copy
      | None => VObj copy
      end
  end.

(** Line 143. *)
Definition free_percent (free total : number) : integral :=
  Math_round (mul (div free total) (of_Z 100)).

(** Lines 136-156. *)
Definition os_facts (h : host) : os_context := {|
  hostname := os_hostname h;
  type := os_type h;
  platform := os_platform h;
  release := os_release h;
  cpus_model := Cpus.model_summary (os_cpus h);
  cpus_speed := Cpus.speed_summary (os_cpus h);
  uptime := humanizeDuration (mul (os_uptime h) (of_Z 1000));
  loadavg := join " " (map toFixed2 (os_loadavg h));
  totalmem := prettysize (os_totalmem h);
  freemem := prettysize (os_freemem h);
  freemempercent := free_percent (os_freemem h) (os_totalmem h)
|}.

(** Lines 161-163. *)
Definition process_facts (h : host) : M unit :=
  set_process_prop "rss" (VStr (prettysize (memoryUsage_rss h))) ;;
  set_process_prop "heapTotal" (VStr (prettysize (memoryUsage_heapTotal h))) ;;
  set_process_prop "heapUsed" (VStr (prettysize (memoryUsage_heapUsed h))).

(** Line 166: indexing the [null] of a failed match throws. *)
Definition tz_offset (h : host) : M string :=
  match TzOffset.group1 (Date_now h) with
  | Some s => ret s
  | None => throw TypeError
  end.

(** Line 169: [x == 'https'] holds of the string [https] alone. *)
Definition is_https (v : value) : bool :=
  match v with
  | VStr s => String.eqb s "https"
  | _ => false
  end.

Definition protocol : M string :=
  enc <- request_path "socket" "encrypted" ;;
  if truthy enc then ret "https"
  else
    p <- request_path "headers" "x-forwarded-proto" ;;
    ret (if is_https p then "https" else "http").

(** Lines 173-175. *)
Definition remote_address : M value :=
  a <- request_path "connection" "remoteAddress" ;;
  if truthy a then ret a
  else
    b <- request_path "socket" "remoteAddress" ;;
    if truthy b then ret b
    else request_path3 "connection" "socket" "remoteAddress".

(** Lines 176-178. *)
Definition ip_address (remoteAddr : value) : M value :=
  f <- request_path "headers" "x-forwarded-for" ;;
  if truthy f
  then ret (VStr (ToString f ++ " via " ++ ToString remoteAddr))
  else ret remoteAddr.

(** Line 182: [cookie.parse] throws on an argument that is no string. *)
Definition cookies : M value :=
  c <- request_path "headers" "cookie" ;;
  if truthy c
  then match c with
       | VStr s => ret (VObj (Cookie.parse s))
       | _ => throw TypeError
       end
  else ret (VObj []).

(** Lines 169-183: the body of [if (req.headers)].  [context.request] is
    the request object itself, so every assignment below writes to it. *)
Definition request_facts : M unit :=
  scheme <- protocol ;;
  host_header <- request_path "headers" "host" ;;
  url <- request_prop "url" ;;
  set_request_prop "href"
    (VStr (scheme ++ "://" ++ ToString host_header ++ ToString url)) ;;
  remoteAddr <- remote_address ;;
  ipAddr <- ip_address remoteAddr ;;
  set_request_prop "ip_addr" ipAddr ;;
  parsed <- cookies ;;
  set_request_prop "cookies" parsed ;;
  delete_header "cookie".

(** Lines 168-184: [context.request] once the [if] is done, [undefined]
    when it was skipped. *)
Definition request_context : M value :=
  hs <- request_prop "headers" ;;
  if truthy hs
  then request_facts ;; the_request
  else ret VUndefined.

(** The context the template is rendered with. *)
Definition build_context (h : host) (options : value) : M context :=
  process_facts h ;;
  offset <- tz_offset h ;;
  request <- request_context ;;
  process <- the_process ;;
  ret {| styleOverride := style_option options;
         package := package_context h;
         os := os_facts h;
         process := process;
         intlTimezone := timeZone h;
         dateTzOffset := offset;
         request := request |}.

(** [nodeinfo(req, options)]: the page, with [req] and [process] in the
    store. *)
Definition nodeinfo (h : host) (options : value) : M string :=
  c <- build_context h options ;;
  ret (Template.render c).

End Nodeinfo.

(* ================================================================== *)
(** * The test server (README.md, lines 58-69) *)
(* ================================================================== *)

Module Server.

(** What the handler has done to the response: the status and the headers
    given to [res.writeHead], the data given to [res.end], and whether
    [res.end] was called. *)
Record response : Type := {
  statusCode : option N;
  headers : list (string * string);
  body : option string;
  finished : bool
}.

(** The response as the handler receives it. *)
Definition fresh : response :=
  {| statusCode := None; headers := []; body := None; finished := false |}.

(** [res.writeHead(status, headers)] *)
Definition writeHead (status : N) (hs : list (string * string)) (res : response)
  : response :=
  {| statusCode := Some status; headers := (headers res ++ hs)%list;
     body := body res; finished := finished res |}.

(** [res.end(data)] *)
Definition end_ (data : option string) (res : response) : response :=
  {| statusCode := statusCode res; headers := headers res;
     body := data; finished := true |}.

(** [x == '/favicon.ico'] holds of that string alone. *)
Definition is_favicon (v : value) : bool :=
  match v with
  | VStr s => String.eqb s "/favicon.ico"
  | _ => false
  end.

Section Handler.
Variable prettysize : number -> string.
Variable humanizeDuration : number -> string.

(** Lines 62-66: the function given to [http.createServer].  The request
    and [process] are in the store; the response is passed along.  The head
    is written before [nodeinfo] is called, and [res.end] is called with
    what [nodeinfo] returns. *)
Definition handler (h : host) (s : store) (res : response)
  : result unit * store * response :=
  match getprop (req s) "url" with
  | Throw e => (Throw e, s, res)
  | Ok url =>
      if is_favicon url
      then (Ok tt, s, end_ None (writeHead 404 [] res))
      else
        let res1 := writeHead 200 [("Content-Type", "text/html")] res in
        match nodeinfo prettysize humanizeDuration h VUndefined s with
        | (Ok html, s') => (Ok tt, s', end_ (Some html) res1)
        | (Throw e, s') => (Throw e, s', res1)
        end
  end.

End Handler.

End Server.

(* ================================================================== *)
(** * What a call leaves behind, as functions of the request *)
(* ================================================================== *)

(** The statements below describe a run of [nodeinfo] through these
    functions of the request as it was passed in. *)
Module After.

(** The scheme is secure: [req.socket.encrypted] is truthy or the
    [x-forwarded-proto] header is [https]. *)
Definition secure (r : value) : bool :=
  (truthy (field (field r "socket") "encrypted")
   || is_https (field (field r "headers") "x-forwarded-proto"))%bool.

Definition scheme (r : value) : string :=
  if secure r then "https" else "http".

(** The absolute URL. *)
Definition href (r : value) : string :=
  scheme r ++ "://" ++ ToString (field (field r "headers") "host")
  ++ ToString (field r "url").

(** The first truthy one of the three remote addresses, the last one when
    none is. *)
Definition peer_address (r : value) : value :=
  let a := field (field r "connection") "remoteAddress" in
  let b := field (field r "socket") "remoteAddress" in
  let c := field (field (field r "connection") "socket") "remoteAddress" in
  if truthy a then a else if truthy b then b else c.

(** The client address shown. *)
Definition client_address (r : value) : value :=
  let f := field (field r "headers") "x-forwarded-for" in
  if truthy f
  then VStr (ToString f ++ " via " ++ ToString (peer_address r))
  else peer_address r.

(** The cookie mapping. *)
Definition cookie_map (r : value) : value :=
  match field (field r "headers") "cookie" with
  | VStr s => if String.eqb s EmptyString then VObj [] else VObj (Cookie.parse s)
  | _ => VObj []
  end.

(** The headers without the cookie header. *)
Definition shown_headers (r : value) : value :=
  match field r "headers" with
  | VObj hp => VObj (Obj.remove "cookie" hp)
  | hs => hs
  end.

(** The request object after a call that collected request facts: four
    properties written, the others as they were. *)
Definition request_object (r : value) : value :=
  match r with
  | VObj p =>
      VObj (Obj.put "headers" (shown_headers r)
             (Obj.put "cookies" (cookie_map r)
               (Obj.put "ip_addr" (client_address r)
                 (Obj.put "href" (VStr (href r)) p))))
  | _ => r
  end.

(** The request object after any call that returned. *)
Definition request_of_call (r : value) : value :=
  if truthy (field r "headers") then request_object r else r.

(** [context.request] of a call that returned. *)
Definition context_request (r : value) : value :=
  if truthy (field r "headers") then request_object r else VUndefined.

(** A value from which a call returns a page, the time zone offset being
    there: not [undefined] or [null]; and when its headers are truthy, an
    object whose [socket] and [connection] can be read, with a truthy
    address on one of them or a nested [connection.socket] to read the last
    one from, and a cookie header that is a string if it is truthy. *)
Definition can_read (v : value) : bool :=
  match v with
  | VUndefined | VNull => false
  | _ => true
  end.

Definition is_object (v : value) : bool :=
  match v with
  | VObj _ => true
  | _ => false
  end.

Definition is_string (v : value) : bool :=
  match v with
  | VStr _ => true
  | _ => false
  end.

Definition servable (r : value) : bool :=
  (can_read r &&
   (negb (truthy (field r "headers")) ||
    (is_object r
     && can_read (field r "socket")
     && can_read (field r "connection")
     && (truthy (field (field r "connection") "remoteAddress")
         || truthy (field (field r "socket") "remoteAddress")
         || can_read (field (field r "connection") "socket"))
     && (negb (truthy (field (field r "headers") "cookie"))
         || is_string (field (field r "headers") "cookie")))))%bool.

Section Process.
Variable prettysize : number -> string.
Variable humanizeDuration : number -> string.

(** The own properties of [process] after a call. *)
Definition process_props (h : host) (p : list (string * value))
  : list (string * value) :=
  Obj.put "heapUsed" (VStr (prettysize (memoryUsage_heapUsed h)))
    (Obj.put "heapTotal" (VStr (prettysize (memoryUsage_heapTotal h)))
      (Obj.put "rss" (VStr (prettysize (memoryUsage_rss h))) p)).

(** The context of a call that returned, [offset] being the time zone
    offset found in [Date()]. *)
Definition page_context (h : host) (options : value) (offset : string) (s : store)
  : context := {|
  styleOverride := style_option options;
  package := package_context h;
  os := os_facts prettysize humanizeDuration h;
  process := VObj (process_props h (proc s));
  intlTimezone := timeZone h;
  dateTzOffset := offset;
  request := context_request (req s)
|}.

(** The store a call that returned leaves. *)
Definition store_of_call (h : host) (s : store) : store :=
  {| req := request_of_call (req s); proc := process_props h (proc s) |}.
End Process.

End After.

(** The claims about the client address, read to the letter: a header is
    present when the headers object has it, an address is defined when it
    is not [undefined]. *)
Module Claimed.

Definition defined (v : value) : bool :=
  match v with
  | VUndefined => false
  | _ => true
  end.

Definition peer_address (r : value) : value :=
  let a := field (field r "connection") "remoteAddress" in
  let b := field (field r "socket") "remoteAddress" in
  let c := field (field (field r "connection") "socket") "remoteAddress" in
  if defined a then a else if defined b then b else c.

Definition client_address (r : value) : value :=
  let f := field (field r "headers") "x-forwarded-for" in
  if defined f
  then VStr (ToString f ++ " via " ++ ToString (peer_address r))
  else peer_address r.

End Claimed.

(* ================================================================== *)
(** * The version of 2018 (unnamed/part_001) *)
(* ================================================================== *)

(** The earlier [nodeinfo()] differs from the one above in the template,
    whose cells are all [td] and whose stylesheet is shorter, and in the
    remote address: it is written to [req.ip], and the [x-forwarded-for]
    header stands before the three addresses in one chain of [||]. *)
Module V2018.

Module Template.

Import Hb.

Definition indent : string := "        ".

(** A heading row: a [td] over both columns holding an [h2] or [h3]. *)
Definition heading (h title : string) : string :=
  indent ++ "<tr><td colspan=" ++ q "2" ++ "><" ++ h ++ ">" ++ title
  ++ "</" ++ h ++ "></td></tr>" ++ nl.

(** A fact row: the name and the content, each in a [td]. *)
Definition row (name content : string) : string :=
  indent ++ "<tr><td>" ++ name ++ "</td><td>" ++ content ++ "</td></tr>" ++ nl.

(** Lines 20-35. *)
Definition prologue : string := cat [
    "<!doctype html>" ++ nl;
    "<html>" ++ nl;
    "<head>" ++ nl;
    "    <title>NodeInfo</title>" ++ nl;
    "    <meta charset=" ++ dq ++ "utf-8" ++ dq ++ ">" ++ nl;
    "    <meta name=" ++ dq ++ "viewport" ++ dq ++ " content=" ++ dq ++ "width=device-width, initial-scale=1" ++ dq ++ ">" ++ nl;
    "    <link rel=" ++ dq ++ "stylesheet" ++ dq ++ " href=" ++ dq ++ "//cdnjs.cloudflare.com/ajax/libs/10up-sanitize.css/4.1.0/sanitize.min.css" ++ dq ++ ">" ++ nl;
    "    <style>" ++ nl;
    "        main { color: #333333; font: 80% Verdana, Arial, Helvetica, sans-serif; line-height: 1.6; margin: 0.4em; }" ++ nl;
    "        h1 { font-size: 1.6em; }" ++ nl;
    "        h2 { margin: 1em 0; }" ++ nl;
    "        h3 { margin: 0.4em 0; }" ++ nl;
    "        table { background-color: #f4ede2; border: 1px solid #adadad; font-size: 0.8em; width: 100%; }" ++ nl;
    "        td, th { padding: 0.2em 0.8em; vertical-align: top; border-top: 1px solid #adadad; border-bottom: 1px solid #adadad; }" ++ nl;
    "        table table { border: none; }" ++ nl;
    "        table table td { padding: 0 0.4em 0 0; border: none; font-size: 125%; }" ++ nl
  ].

(** Line 36. *)
Definition style_line (c : context) : string :=
  indent ++ raw (styleOverride c) ++ nl.

(** Lines 37-42. *)
Definition body_open (c : context) : string := cat [
    "    </style>" ++ nl;
    "</head>" ++ nl;
    "<body>" ++ nl;
    "<main>" ++ nl;
    "    <h1>Node.js " ++ escapeExpression (prop (process c) "version") ++ "</h1>" ++ nl;
    "    <table>" ++ nl
  ].

(** Lines 43-53. *)
Definition package_section (c : context) : string :=
  let p := package c in
  if_ p (cat [
    heading "h2" "Package";
    row "name" (escapeExpression (prop p "name"));
    if_ (prop p "description")
      (row "description" (escapeExpression (prop p "description"))) EmptyString;
    row "version" (escapeExpression (prop p "version"));
    if_ (prop p "dependencies")
      (row "dependencies" (escapeExpression (prop p "dependencies"))) EmptyString
  ]) EmptyString.

(** Lines 54-72. *)
Definition os_section (c : context) : string :=
  let o := os c in
  cat [
    heading "h2" "OS";
    row "hostname" (escape (hostname o));
    row "type" (escape (type o));
    row "platform" (escape (platform o));
    row "release" (escape (release o));
    row "cpu models" (escape (cpus_model o));
    row "cpu speeds" (escape (cpus_speed o));
    row "uptime" (escape (uptime o));
    row "load avg" (escape (loadavg o));
    row "total memory" (escape (totalmem o));
    row "free memory"
      (escape (freemem o) ++ " (" ++ escape (Number_toString (freemempercent o)) ++ "%)");
    heading "h3" "process";
    row "resident set size" (escapeExpression (prop (process c) "rss"));
    row "v8 heap total" (escapeExpression (prop (process c) "heapTotal"));
    row "v8 heap used" (escapeExpression (prop (process c) "heapUsed"));
    heading "h3" "timezone";
    row "timezone" (escape (intlTimezone c));
    row "offset" (escape (dateTzOffset c));
    nl
  ].

(** Lines 73-77. *)
Definition versions_section (c : context) : string :=
  cat [
    heading "h2" "Node versions";
    each (prop (process c) "versions")
      (fun k v => row (escape k) (escapeExpression v));
    nl
  ].

(** Lines 78-82. *)
Definition env_section (c : context) : string :=
  let e := prop (prop (process c) "env") "NODE_ENV" in
  cat [
    if_ e (cat [
      indent ++ "<tr><td colspan=" ++ q "2" ++ ">&nbsp;</td></tr>" ++ nl;
      row "NODE_ENV" (escapeExpression e)
    ]) EmptyString;
    nl
  ].

(** Line 93: one header. *)
Definition header_row (k : string) (v : value) : string :=
  indent ++ "<tr><td style=" ++ q "white-space:nowrap" ++ ">" ++ escape k
  ++ "</td><td>" ++ escapeExpression v ++ "</td></tr>" ++ nl.

(** Line 98: one cookie. *)
Definition cookie_row (k : string) (v : value) : string :=
  "                <tr><td>" ++ escape k ++ "</td><td>:</td><td style="
  ++ q "word-break:break-all" ++ ">" ++ escapeExpression v ++ "</td></tr>" ++ nl.

Definition header_rows (r : value) : string := each (prop r "headers") header_row.
Definition cookie_rows (r : value) : string := each (prop r "cookies") cookie_row.

(** Lines 84-101: the rows of a request. *)
Definition request_rows (r : value) : string :=
  cat [
    heading "h2" "Request";
    row "method" (escapeExpression (prop r "method"));
    row "href" (escapeExpression (prop r "href"));
    row "ip" (escapeExpression (prop r "ip"));
    heading "h3" "headers";
    if_ (prop r "showOriginalUrl")
      (row "original url" (escapeExpression (prop r "originalUrl"))) EmptyString;
    header_rows r;
    indent ++ "<tr><td>cookies</td><td>" ++ nl;
    "            <table>" ++ nl;
    cookie_rows r;
    "            </table>" ++ nl;
    indent ++ "</td></tr>" ++ nl
  ].

(** Line 103. *)
Definition no_request : string := heading "h2" "No request object supplied".

(** Lines 83-104. *)
Definition request_section (c : context) : string :=
  if_ (request c) (request_rows (request c)) no_request.

(** Lines 105-109. *)
Definition epilogue : string := cat [
    "    </table>" ++ nl;
    "</main>" ++ nl;
    "</body>" ++ nl;
    "</html>" ++ nl
  ].

(** [handlebars.compile(template)(context)] *)
Definition render (c : context) : string :=
  cat [
    prologue;
    style_line c;
    body_open c;
    package_section c;
    os_section c;
    versions_section c;
    env_section c
  ] ++ request_section c ++ epilogue.

End Template.

Section Nodeinfo.
Variable prettysize : number -> string.
Variable humanizeDuration : number -> string.

Local Open Scope js_scope.

(** Lines 172-175: the first truthy one of the header and the three
    addresses, the last address when none is. *)
Definition ip : M value :=
  f <- request_path "headers" "x-forwarded-for" ;;
  if truthy f then ret f
  else
    a <- request_path "connection" "remoteAddress" ;;
    if truthy a then ret a
    else
      b <- request_path "socket" "remoteAddress" ;;
      if truthy b then ret b
      else request_path3 "connection" "socket" "remoteAddress".

(** Lines 168-179: the body of [if (req.headers)]. *)
Definition request_facts : M unit :=
  scheme <- protocol ;;
  host_header <- request_path "headers" "host" ;;
  url <- request_prop "url" ;;
  set_request_prop "href"
    (VStr (scheme ++ "://" ++ ToString host_header ++ ToString url)) ;;
  address <- ip ;;
  set_request_prop "ip" address ;;
  parsed <- cookies ;;
  set_request_prop "cookies" parsed ;;
  delete_header "cookie".

(** Lines 167-180. *)
Definition request_context : M value :=
  hs <- request_prop "headers" ;;
  if truthy hs
  then request_facts ;; the_request
  else ret VUndefined.

(** Lines 121-180: the same as in the later version up to the request. *)
Definition build_context (h : host) (options : value) : M context :=
  process_facts prettysize h ;;
  offset <- tz_offset h ;;
  request <- request_context ;;
  process <- the_process ;;
  ret {| styleOverride := style_option options;
         package := package_context h;
         os := os_facts prettysize humanizeDuration h;
         process := process;
         intlTimezone := timeZone h;
         dateTzOffset := offset;
         request := request |}.

(** [nodeinfo(req, options)] *)
Definition nodeinfo (h : host) (options : value) : M string :=
  c <- build_context h options ;;
  ret (Template.render c).

End Nodeinfo.

(** The address the call writes to [req.ip]. *)
Definition address (r : value) : value :=
  let f := field (field r "headers") "x-forwarded-for" in
  if truthy f then f else After.peer_address r.

(** The request object after a call that collected request facts. *)
Definition request_object (r : value) : value :=
  match r with
  | VObj p =>
      VObj (Obj.put "headers" (After.shown_headers r)
             (Obj.put "cookies" (After.cookie_map r)
               (Obj.put "ip" (address r)
                 (Obj.put "href" (VStr (After.href r)) p))))
  | _ => r
  end.

(** A value from which a call returns a page, the time zone offset being
    there.  The connection is read only when the [x-forwarded-for] header
    is falsy. *)
Definition servable (r : value) : bool :=
  (After.can_read r &&
   (negb (truthy (field r "headers")) ||
    (After.is_object r
     && After.can_read (field r "socket")
     && (truthy (field (field r "headers") "x-forwarded-for")
         || (After.can_read (field r "connection")
             && (truthy (field (field r "connection") "remoteAddress")
                 || truthy (field (field r "socket") "remoteAddress")
                 || After.can_read (field (field r "connection") "socket"))))
     && (negb (truthy (field (field r "headers") "cookie"))
         || After.is_string (field (field r "headers") "cookie")))))%bool.

End V2018.

(* ================================================================== *)
(** * Sample data *)
(* ================================================================== *)

(** Concrete hosts and requests, on which statements are evaluated. *)
Module Sample.

(** Stand-ins for the two npm packages. *)
Definition prettysize (x : number) : string :=
  Number_toString (Math_round x) ++ " Bytes".

Definition humanizeDuration (x : number) : string :=
  Number_toString (Math_round (div x (of_Z 60000))) ++ " minutes".

Definition machine : host := {|
  os_cpus := [ {| model := "X"; speed := 2400 |}; {| model := "Y"; speed := 2400 |};
               {| model := "X"; speed := 2400 |}; {| model := "Y"; speed := 2400 |} ];
  os_freemem := of_Z 250;
  os_hostname := "box";
  os_loadavg := [ of_Z 1; div (of_Z 456) (of_Z 1000); div (of_Z 23) (of_Z 10) ];
  os_platform := "linux";
  os_release := "6.1.0";
  os_totalmem := of_Z 1000;
  os_type := "Linux";
  os_uptime := of_Z 7200;
  memoryUsage_rss := of_Z 4096;
  memoryUsage_heapTotal := of_Z 2048;
  memoryUsage_heapUsed := of_Z 1024;
  timeZone := "Europe/London";
  Date_now := "Mon Nov 02 2020 11:56:00 GMT+0000 (Greenwich Mean Time)";
  packageJson := None
|}.

(** A host with no memory and no CPU. *)
Definition bare_machine : host := {|
  os_cpus := [];
  os_freemem := of_Z 0;
  os_hostname := "box";
  os_loadavg := [ of_Z 0; of_Z 0; of_Z 0 ];
  os_platform := "linux";
  os_release := "6.1.0";
  os_totalmem := of_Z 0;
  os_type := "Linux";
  os_uptime := of_Z 0;
  memoryUsage_rss := of_Z 4096;
  memoryUsage_heapTotal := of_Z 2048;
  memoryUsage_heapUsed := of_Z 1024;
  timeZone := "Europe/London";
  Date_now := "Mon Nov 02 2020 11:56:00 GMT+0000 (Greenwich Mean Time)";
  packageJson := None
|}.

Definition node_process : list (string * value) := [
  ("version", VStr "v12.18.0");
  ("versions", VObj [("node", VStr "12.18.0"); ("v8", VStr "7.8.279.23")]);
  ("env", VObj [])
].

Definition transport : value := VObj [("remoteAddress", VStr "10.0.0.1")].

(** [GET /] with the given headers, over a plain connection. *)
Definition get (headers : list (string * value)) : value := VObj [
  ("method", VStr "GET");
  ("url", VStr "/");
  ("headers", VObj headers);
  ("socket", transport);
  ("connection", transport)
].

(** A request with two cookies and a header that carries markup. *)
Definition with_cookies : value := get [
  ("host", VStr "localhost:8080");
  ("cookie", VStr "a=1; b=2");
  ("x-note", VStr "<script>alert(1)</script>")
].

(** A request with an empty [x-forwarded-for] header. *)
Definition forwarded_for_nobody : value := get [
  ("host", VStr "localhost:8080");
  ("x-forwarded-for", VStr EmptyString)
].

(** A request through a TLS-terminating proxy. *)
Definition forwarded : value := get [
  ("host", VStr "example.org");
  ("x-forwarded-for", VStr "192.0.2.7");
  ("x-forwarded-proto", VStr "https")
].


(** An object that is no request: it has no headers. *)
Definition headerless : value := VObj [("method", VStr "GET")].

Definition run (h : host) (options r : value) : result string * store :=
  nodeinfo prettysize humanizeDuration h options {| req := r; proc := node_process |}.

(** The same host inside a package that has two dependencies. *)
Definition packaged : host := {|
  os_cpus := os_cpus machine;
  os_freemem := os_freemem machine;
  os_hostname := os_hostname machine;
  os_loadavg := os_loadavg machine;
  os_platform := os_platform machine;
  os_release := os_release machine;
  os_totalmem := os_totalmem machine;
  os_type := os_type machine;
  os_uptime := os_uptime machine;
  memoryUsage_rss := memoryUsage_rss machine;
  memoryUsage_heapTotal := memoryUsage_heapTotal machine;
  memoryUsage_heapUsed := memoryUsage_heapUsed machine;
  timeZone := timeZone machine;
  Date_now := Date_now machine;
  packageJson := Some [
    ("name", VStr "app");
    ("version", VStr "1.0.0");
    ("dependencies", VObj [("handlebars", VStr "^4.7.6"); ("cookie", VStr "^0.4.1")])
  ]
|}.

(** A host whose clock prints no time zone offset. *)
Definition clockless : host := {|
  os_cpus := os_cpus machine;
  os_freemem := os_freemem machine;
  os_hostname := os_hostname machine;
  os_loadavg := os_loadavg machine;
  os_platform := os_platform machine;
  os_release := os_release machine;
  os_totalmem := os_totalmem machine;
  os_type := os_type machine;
  os_uptime := os_uptime machine;
  memoryUsage_rss := memoryUsage_rss machine;
  memoryUsage_heapTotal := memoryUsage_heapTotal machine;
  memoryUsage_heapUsed := memoryUsage_heapUsed machine;
  timeZone := timeZone machine;
  Date_now := "Mon Nov 02 2020 11:56:00";
  packageJson := None
|}.


(** The request for the site icon. *)
Definition favicon : value := VObj [
  ("method", VStr "GET");
  ("url", VStr "/favicon.ico");
  ("headers", VObj [("host", VStr "localhost:8080")]);
  ("socket", transport);
  ("connection", transport)
].

End Sample.

(* ================================================================== *)
(** * Properties *)
(* ================================================================== *)

(** ** Text *)

Lemma append_assoc (a b c : string) : (a ++ b) ++ c = a ++ b ++ c.
Proof.
  induction a as [|x a IH]; simpl; [reflexivity | now rewrite IH].
Qed.

Lemma append_nil_r (a : string) : a ++ EmptyString = a.
Proof.
  induction a as [|x a IH]; simpl; [reflexivity | now rewrite IH].
Qed.

Lemma cat_app (l1 l2 : list string) : cat (l1 ++ l2)%list = cat l1 ++ cat l2.
Proof.
  induction l1 as [|x l1 IH]; simpl; [reflexivity|].
  now rewrite IH, append_assoc.
Qed.

Lemma contains_refl (s : string) : contains s s.
Proof.
  exists EmptyString, EmptyString. now rewrite append_nil_r.
Qed.

Lemma contains_append_l (t a b : string) : contains t a -> contains t (a ++ b).
Proof.
  intros (x & y & ->). exists x, (y ++ b).
  now rewrite !append_assoc.
Qed.

Lemma contains_append_r (t a b : string) : contains t b -> contains t (a ++ b).
Proof.
  intros (x & y & ->). exists (a ++ x), y.
  now rewrite !append_assoc.
Qed.

Lemma contains_trans (t u s : string) : contains t u -> contains u s -> contains t s.
Proof.
  intros (x & y & ->) (x' & y' & ->).
  exists (x' ++ x), (y ++ y'). now rewrite !append_assoc.
Qed.

Lemma contains_cat (t s : string) (l : list string) :
  In s l -> contains t s -> contains t (cat l).
Proof.
  induction l as [|x l IH]; simpl; [tauto|].
  intros [->|Hin] Hc.
  - now apply contains_append_l.
  - apply contains_append_r. now apply IH.
Qed.

Lemma prefix_append (t s : string) : prefix t s = true -> exists b, s = t ++ b.
Proof.
  revert s. induction t as [|c t IH]; intros s H.
  - now exists s.
  - destruct s as [|d s]; simpl in H; [discriminate|].
    destruct (ascii_dec c d) as [->|]; [|discriminate].
    destruct (IH _ H) as [b ->]. now exists b.
Qed.

Lemma append_prefix (t b : string) : prefix t (t ++ b) = true.
Proof.
  induction t as [|c t IH]; simpl.
  - now destruct b.
  - destruct (ascii_dec c c); [assumption | congruence].
Qed.

Lemma occurs_eq (t s : string) :
  occurs t s =
  (prefix t s || match s with EmptyString => false | String _ r => occurs t r end)%bool.
Proof.
  destruct s; reflexivity.
Qed.

Lemma occurs_contains (t s : string) : occurs t s = true <-> contains t s.
Proof.
  split.
  - induction s as [|c s IH]; rewrite occurs_eq; intros H.
    + rewrite orb_false_r in H. apply prefix_append in H as [b ->].
      now exists EmptyString, b.
    + apply orb_true_iff in H as [H|H].
      * apply prefix_append in H as [b ->]. now exists EmptyString, b.
      * destruct (IH H) as (a & b & ->). now exists (String c a), b.
  - intros (a & b & ->). induction a as [|c a IH].
    + rewrite occurs_eq. change (EmptyString ++ t ++ b) with (t ++ b).
      now rewrite append_prefix.
    + change (occurs t (String c a ++ t ++ b))
        with (prefix t (String c (a ++ t ++ b)) || occurs t (a ++ t ++ b))%bool.
      rewrite IH. apply orb_true_r.
Qed.

Lemma not_occurs_not_contains (t s : string) : occurs t s = false -> ~ contains t s.
Proof.
  intros H Hc. apply occurs_contains in Hc. congruence.
Qed.

Lemma has_char_append (c : ascii) (a b : string) :
  has_char c (a ++ b) = (has_char c a || has_char c b)%bool.
Proof.
  induction a as [|x a IH]; simpl; [reflexivity|].
  now rewrite IH, orb_assoc.
Qed.

(** ** Objects *)

Section ObjectFacts.
Context {A : Type}.
Implicit Types (p : list (string * A)) (k : string) (v : A).

Lemma lookup_put_same k v p : Obj.lookup k (Obj.put k v p) = Some v.
Proof.
  induction p as [|[k' v'] p IH]; simpl.
  - now rewrite String.eqb_refl.
  - destruct (String.eqb k k') eqn:E; simpl.
    + now rewrite String.eqb_refl.
    + now rewrite E.
Qed.

Lemma lookup_put_other k k' v p :
  String.eqb k' k = false -> Obj.lookup k' (Obj.put k v p) = Obj.lookup k' p.
Proof.
  intros N. induction p as [|[k0 v0] p IH]; simpl.
  - now rewrite N.
  - destruct (String.eqb k k0) eqn:E; simpl.
    + apply String.eqb_eq in E. subst k0. now rewrite N.
    + now rewrite IH.
Qed.

Lemma lookup_remove_same k p : Obj.lookup k (Obj.remove k p) = None.
Proof.
  induction p as [|[k0 v0] p IH]; simpl; [reflexivity|].
  destruct (String.eqb k k0) eqn:E; simpl; [assumption|].
  now rewrite E.
Qed.

Lemma lookup_remove_other k k' p :
  String.eqb k' k = false -> Obj.lookup k' (Obj.remove k p) = Obj.lookup k' p.
Proof.
  intros N. induction p as [|[k0 v0] p IH]; simpl; [reflexivity|].
  destruct (String.eqb k k0) eqn:E; simpl.
  - apply String.eqb_eq in E. subst k0. now rewrite N.
  - now rewrite IH.
Qed.

Lemma put_known k v p : Obj.lookup k p = Some v -> Obj.put k v p = p.
Proof.
  induction p as [|[k0 v0] p IH]; simpl; [discriminate|].
  rewrite (String.eqb_sym k k0).
  destruct (String.eqb k0 k) eqn:E.
  - apply String.eqb_eq in E. subst k0. now intros [= ->].
  - intros H. now rewrite IH.
Qed.

Lemma remove_absent k p : Obj.lookup k p = None -> Obj.remove k p = p.
Proof.
  induction p as [|[k0 v0] p IH]; simpl; [reflexivity|].
  destruct (String.eqb k k0); [discriminate|].
  intros H. now rewrite IH.
Qed.

Lemma in_remove k k' v p :
  In (k', v) (Obj.remove k p) <-> In (k', v) p /\ k' <> k.
Proof.
  induction p as [|[k0 v0] p IH]; simpl; [tauto|].
  destruct (String.eqb k k0) eqn:E.
  - apply String.eqb_eq in E. subst k0. rewrite IH.
    split; [tauto|]. intros [[H|H] N]; [|tauto]. congruence.
  - apply String.eqb_neq in E. simpl. rewrite IH.
    split; [|tauto]. intros [H|H]; [|tauto].
    split; [tauto|]. congruence.
Qed.

Lemma in_live k v p : In (k, v) (Obj.live p) <-> Obj.lookup k p = Some v.
Proof.
  induction p as [|[k0 v0] p IH]; simpl.
  - split; [tauto | discriminate].
  - rewrite in_remove, IH.
    destruct (String.eqb k k0) eqn:E.
    + apply String.eqb_eq in E. subst k0.
      split; [|intros [= ->]; now left].
      intros [H|[_ N]]; [congruence | tauto].
    + apply String.eqb_neq in E.
      split; [|intros H; right; auto].
      intros [H|[H _]]; [congruence | assumption].
Qed.

Lemma keys_remove k p : ~ In k (map fst (Obj.remove k p)).
Proof.
  intros H. apply in_map_iff in H as ([k' v] & E & H). simpl in E. subst k'.
  apply in_remove in H. tauto.
Qed.

Lemma nodup_remove k p :
  NoDup (map fst p) -> NoDup (map fst (Obj.remove k p)).
Proof.
  induction p as [|[k0 v0] p IH]; simpl; [auto|].
  intros H. inversion H as [|? ? N H']. subst.
  destruct (String.eqb k k0); [auto|]. simpl. constructor; [|auto].
  intros I. apply N. apply in_map_iff in I as ([k' v] & E & I).
  apply in_remove in I. apply in_map_iff. exists (k', v). tauto.
Qed.

Lemma nodup_live p : NoDup (map fst (Obj.live p)).
Proof.
  induction p as [|[k0 v0] p IH]; simpl; constructor.
  - apply keys_remove.
  - now apply nodup_remove.
Qed.

Lemma remove_fresh k p : ~ In k (map fst p) -> Obj.remove k p = p.
Proof.
  induction p as [|[k0 v0] p IH]; simpl; [reflexivity|].
  intros N. destruct (String.eqb k k0) eqn:E.
  - apply String.eqb_eq in E. subst k0. exfalso. apply N. now left.
  - rewrite IH; [reflexivity|]. intros I. apply N. now right.
Qed.

Lemma live_nodup p : NoDup (map fst p) -> Obj.live p = p.
Proof.
  induction p as [|[k0 v0] p IH]; simpl; [reflexivity|].
  intros H. inversion H as [|? ? N H']. subst.
  rewrite (IH H'), remove_fresh; auto.
Qed.

Lemma perm_insert_index i (e : string * A) l :
  Permutation (map snd (Obj.insert_index i e l)) (e :: map snd l).
Proof.
  induction l as [|[j e'] l IH]; simpl; [reflexivity|].
  destruct (i <=? j)%N; simpl; [reflexivity|].
  rewrite IH. apply perm_swap.
Qed.

Lemma perm_parts p :
  Permutation (map snd (Obj.index_part p) ++ Obj.name_part p)%list p.
Proof.
  induction p as [|[k v] p IH]; simpl; [reflexivity|].
  destruct (Obj.array_index k).
  - rewrite perm_insert_index. simpl. now constructor.
  - rewrite <- Permutation_middle. now constructor.
Qed.

Lemma perm_entries p : Permutation (Obj.entries p) (Obj.live p).
Proof.
  apply perm_parts.
Qed.

Lemma in_entries k v p : In (k, v) (Obj.entries p) <-> Obj.lookup k p = Some v.
Proof.
  rewrite <- in_live. split; apply Permutation_in.
  - apply perm_entries.
  - symmetry. apply perm_entries.
Qed.

Lemma nodup_keys p : NoDup (Obj.keys p).
Proof.
  unfold Obj.keys.
  apply (Permutation_NoDup (l := map fst (Obj.live p))).
  - apply Permutation_map. symmetry. apply perm_entries.
  - apply nodup_live.
Qed.

Lemma in_keys k p : In k (Obj.keys p) <-> Obj.lookup k p <> None.
Proof.
  unfold Obj.keys. rewrite in_map_iff. split.
  - intros ([k' v] & E & H). simpl in E. subst k'.
    apply in_entries in H. congruence.
  - intros H. destruct (Obj.lookup k p) as [v|] eqn:E; [|congruence].
    exists (k, v). split; [reflexivity|]. now apply in_entries.
Qed.
End ObjectFacts.

(** ** Reading properties *)

Lemma getprop_field (v : value) (k : string) (x : value) :
  getprop v k = Ok x -> field v k = x.
Proof.
  unfold field. now intros ->.
Qed.

Lemma getprop_can_read (v : value) (k : string) :
  getprop v k = (if After.can_read v then Ok (field v k) else Throw TypeError).
Proof.
  unfold field. destruct v; simpl; try reflexivity.
  now destruct (Obj.lookup k props).
Qed.

Lemma field_object (p : list (string * value)) (k : string) :
  field (VObj p) k = match Obj.lookup k p with Some x => x | None => VUndefined end.
Proof.
  unfold field. simpl. now destruct (Obj.lookup k p).
Qed.

Lemma field_put_same (k : string) (v : value) (p : list (string * value)) :
  field (VObj (Obj.put k v p)) k = v.
Proof.
  now rewrite field_object, lookup_put_same.
Qed.

Lemma field_put_other (k k' : string) (v : value) (p : list (string * value)) :
  String.eqb k' k = false -> field (VObj (Obj.put k v p)) k' = field (VObj p) k'.
Proof.
  intros N. now rewrite !field_object, lookup_put_other.
Qed.

Lemma truthy_field_lookup (p : list (string * value)) (k : string) :
  truthy (field (VObj p) k) = true -> Obj.lookup k p = Some (field (VObj p) k).
Proof.
  rewrite field_object. destruct (Obj.lookup k p); [reflexivity | discriminate].
Qed.

Lemma truthy_field_object (r : value) (k : string) :
  truthy (field r k) = true -> exists p, r = VObj p.
Proof.
  destruct r; try discriminate. intros _. now exists props.
Qed.

Lemma prop_field_object (p : list (string * value)) (k : string) :
  Hb.prop (VObj p) k = field (VObj p) k.
Proof.
  now rewrite field_object.
Qed.

(** ** Runs of the monad *)

Lemma bind_ok {A B} (m : M A) (k : A -> M B) (s s2 : store) (b : B) :
  bind m k s = (Ok b, s2) ->
  exists a s1, m s = (Ok a, s1) /\ k a s1 = (Ok b, s2).
Proof.
  unfold bind. destruct (m s) as [[a|e] s1]; [|discriminate].
  intros H. now exists a, s1.
Qed.

Lemma bind_run {A B} (m : M A) (k : A -> M B) (s s1 : store) (a : A) :
  m s = (Ok a, s1) -> bind m k s = k a s1.
Proof.
  unfold bind. now intros ->.
Qed.

Lemma request_prop_ok (k : string) (s s' : store) (x : value) :
  request_prop k s = (Ok x, s') -> s' = s /\ x = field (req s) k.
Proof.
  unfold request_prop. intros [= H <-]. split; [reflexivity|].
  symmetry. now apply getprop_field.
Qed.

Lemma request_path_ok (k1 k2 : string) (s s' : store) (x : value) :
  request_path k1 k2 s = (Ok x, s') ->
  s' = s /\ x = field (field (req s) k1) k2
  /\ After.can_read (req s) = true /\ After.can_read (field (req s) k1) = true.
Proof.
  unfold request_path, bind, request_prop, lift.
  rewrite getprop_can_read. destruct (After.can_read (req s)); [|discriminate].
  rewrite getprop_can_read.
  destruct (After.can_read (field (req s) k1)); [|discriminate].
  intros [= <- <-]. auto.
Qed.

Lemma request_path3_ok (k1 k2 k3 : string) (s s' : store) (x : value) :
  request_path3 k1 k2 k3 s = (Ok x, s') ->
  s' = s /\ x = field (field (field (req s) k1) k2) k3
  /\ After.can_read (field (field (req s) k1) k2) = true.
Proof.
  unfold request_path3. intros H.
  apply bind_ok in H as (o & s1 & H1 & H2).
  apply request_path_ok in H1 as (-> & -> & _ & _).
  unfold lift in H2. rewrite getprop_can_read in H2.
  destruct (After.can_read (field (field (req s) k1) k2)); [|discriminate].
  injection H2 as <- <-. auto.
Qed.

Lemma request_path_run (k1 k2 : string) (s : store) :
  After.can_read (req s) = true -> After.can_read (field (req s) k1) = true ->
  request_path k1 k2 s = (Ok (field (field (req s) k1) k2), s).
Proof.
  intros H1 H2. unfold request_path, bind, request_prop, lift.
  now rewrite getprop_can_read, H1, getprop_can_read, H2.
Qed.

Lemma request_prop_run (k : string) (s : store) :
  After.can_read (req s) = true ->
  request_prop k s = (Ok (field (req s) k), s).
Proof.
  intros H1. unfold request_prop. now rewrite getprop_can_read, H1.
Qed.

(** ** The steps of [nodeinfo] *)

Ltac fields_past_puts :=
  repeat first
    [ rewrite field_put_same
    | rewrite field_put_other by reflexivity ].

Lemma truthy_can_read (v : value) : truthy v = true -> After.can_read v = true.
Proof.
  now destruct v.
Qed.

Lemma protocol_ok (s s' : store) (x : string) :
  truthy (field (req s) "headers") = true ->
  protocol s = (Ok x, s') ->
  s' = s /\ x = After.scheme (req s)
  /\ After.can_read (field (req s) "socket") = true.
Proof.
  intros Hh H. unfold protocol in H.
  apply bind_ok in H as (enc & s1 & H1 & H2).
  apply request_path_ok in H1 as (-> & -> & Hr & Hs).
  unfold After.scheme, After.secure.
  destruct (truthy (field (field (req s) "socket") "encrypted")).
  - injection H2 as <- <-. auto.
  - apply bind_ok in H2 as (pr & s2 & H2 & H3).
    apply request_path_ok in H2 as (-> & -> & _ & _).
    injection H3 as <- <-. auto.
Qed.

Lemma protocol_run (s : store) :
  truthy (field (req s) "headers") = true ->
  After.can_read (field (req s) "socket") = true ->
  protocol s = (Ok (After.scheme (req s)), s).
Proof.
  intros Hh Hs.
  destruct (truthy_field_object _ _ Hh) as [p Ep].
  assert (Hr : After.can_read (req s) = true) by now rewrite Ep.
  unfold protocol. rewrite (bind_run _ _ _ _ _ (request_path_run _ _ _ Hr Hs)).
  unfold After.scheme, After.secure.
  destruct (truthy (field (field (req s) "socket") "encrypted")); [reflexivity|].
  rewrite (bind_run _ _ _ _ _
             (request_path_run "headers" "x-forwarded-proto" _ Hr (truthy_can_read _ Hh))).
  reflexivity.
Qed.

Lemma remote_address_ok (s s' : store) (x : value) :
  remote_address s = (Ok x, s') ->
  s' = s /\ x = After.peer_address (req s)
  /\ After.can_read (field (req s) "connection") = true
  /\ (truthy (field (field (req s) "connection") "remoteAddress")
      || truthy (field (field (req s) "socket") "remoteAddress")
      || After.can_read (field (field (req s) "connection") "socket"))%bool = true.
Proof.
  intros H. unfold remote_address in H.
  apply bind_ok in H as (a & s1 & H1 & H2).
  apply request_path_ok in H1 as (-> & -> & Hr & Hc).
  unfold After.peer_address.
  destruct (truthy (field (field (req s) "connection") "remoteAddress")).
  - injection H2 as <- <-. auto.
  - apply bind_ok in H2 as (b & s2 & H2 & H3).
    apply request_path_ok in H2 as (-> & -> & _ & _).
    destruct (truthy (field (field (req s) "socket") "remoteAddress")).
    + injection H3 as <- <-. auto.
    + apply request_path3_ok in H3 as (-> & -> & Hn). rewrite Hn. auto.
Qed.

Lemma remote_address_run (s : store) :
  After.can_read (req s) = true ->
  After.can_read (field (req s) "socket") = true ->
  After.can_read (field (req s) "connection") = true ->
  (truthy (field (field (req s) "connection") "remoteAddress")
   || truthy (field (field (req s) "socket") "remoteAddress")
   || After.can_read (field (field (req s) "connection") "socket"))%bool = true ->
  remote_address s = (Ok (After.peer_address (req s)), s).
Proof.
  intros Hr Hs Hc Ha. unfold remote_address, After.peer_address.
  rewrite (bind_run _ _ _ _ _ (request_path_run "connection" "remoteAddress" _ Hr Hc)).
  destruct (truthy (field (field (req s) "connection") "remoteAddress")); [reflexivity|].
  rewrite (bind_run _ _ _ _ _ (request_path_run "socket" "remoteAddress" _ Hr Hs)).
  destruct (truthy (field (field (req s) "socket") "remoteAddress")); [reflexivity|].
  simpl in Ha. unfold request_path3.
  rewrite (bind_run _ _ _ _ _ (request_path_run "connection" "socket" _ Hr Hc)).
  unfold lift. now rewrite getprop_can_read, Ha.
Qed.

Lemma ip_address_ok (a : value) (s s' : store) (x : value) :
  ip_address a s = (Ok x, s') ->
  s' = s
  /\ x = (if truthy (field (field (req s) "headers") "x-forwarded-for")
          then VStr (ToString (field (field (req s) "headers") "x-forwarded-for")
                     ++ " via " ++ ToString a)
          else a).
Proof.
  intros H. unfold ip_address in H.
  apply bind_ok in H as (f & s1 & H1 & H2).
  apply request_path_ok in H1 as (-> & -> & _ & _).
  destruct (truthy (field (field (req s) "headers") "x-forwarded-for"));
    injection H2 as <- <-; auto.
Qed.

Lemma ip_address_run (a : value) (s : store) :
  truthy (field (req s) "headers") = true ->
  ip_address a s =
  (Ok (if truthy (field (field (req s) "headers") "x-forwarded-for")
       then VStr (ToString (field (field (req s) "headers") "x-forwarded-for")
                  ++ " via " ++ ToString a)
       else a), s).
Proof.
  intros Hh. destruct (truthy_field_object _ _ Hh) as [p Ep].
  assert (Hr : After.can_read (req s) = true) by now rewrite Ep.
  unfold ip_address.
  rewrite (bind_run _ _ _ _ _
             (request_path_run "headers" "x-forwarded-for" _ Hr (truthy_can_read _ Hh))).
  now destruct (truthy (field (field (req s) "headers") "x-forwarded-for")).
Qed.

Lemma cookies_ok (s s' : store) (x : value) :
  cookies s = (Ok x, s') ->
  s' = s /\ x = After.cookie_map (req s)
  /\ (negb (truthy (field (field (req s) "headers") "cookie"))
      || After.is_string (field (field (req s) "headers") "cookie"))%bool = true.
Proof.
  intros H. unfold cookies in H.
  apply bind_ok in H as (c & s1 & H1 & H2).
  apply request_path_ok in H1 as (-> & -> & _ & _).
  unfold After.cookie_map.
  destruct (field (field (req s) "headers") "cookie") as [| |b|c|o]; simpl in *;
    try (injection H2 as <- <-; auto).
  - destruct b; [discriminate|]. injection H2 as <- <-. auto.
  - destruct (String.eqb c EmptyString); injection H2 as <- <-; auto.
  - discriminate.
Qed.

Lemma cookies_run (s : store) :
  truthy (field (req s) "headers") = true ->
  (negb (truthy (field (field (req s) "headers") "cookie"))
   || After.is_string (field (field (req s) "headers") "cookie"))%bool = true ->
  cookies s = (Ok (After.cookie_map (req s)), s).
Proof.
  intros Hh Hc. destruct (truthy_field_object _ _ Hh) as [p Ep].
  assert (Hr : After.can_read (req s) = true) by now rewrite Ep.
  unfold cookies.
  rewrite (bind_run _ _ _ _ _
             (request_path_run "headers" "cookie" _ Hr (truthy_can_read _ Hh))).
  unfold After.cookie_map.
  destruct (field (field (req s) "headers") "cookie") as [| |b|c|o]; simpl in *;
    try reflexivity; try discriminate.
  - now destruct b.
  - now destruct (String.eqb c EmptyString).
Qed.

Lemma peer_address_put (k : string) (v : value) (p : list (string * value)) :
  String.eqb "connection" k = false -> String.eqb "socket" k = false ->
  After.peer_address (VObj (Obj.put k v p)) = After.peer_address (VObj p).
Proof.
  intros N1 N2. unfold After.peer_address.
  now rewrite !(field_put_other k "connection"), !(field_put_other k "socket").
Qed.

Lemma cookie_map_put (k : string) (v : value) (p : list (string * value)) :
  String.eqb "headers" k = false ->
  After.cookie_map (VObj (Obj.put k v p)) = After.cookie_map (VObj p).
Proof.
  intros N. unfold After.cookie_map. now rewrite (field_put_other k "headers").
Qed.

Lemma set_request_prop_object (k : string) (v : value)
      (p q : list (string * value)) :
  set_request_prop k v {| req := VObj p; proc := q |}
  = (Ok tt, {| req := VObj (Obj.put k v p); proc := q |}).
Proof.
  reflexivity.
Qed.

(** The store [delete_header] leaves is the one [After.shown_headers]
    describes. *)
Lemma delete_header_object (p q : list (string * value)) :
  truthy (field (VObj p) "headers") = true ->
  delete_header "cookie" {| req := VObj p; proc := q |}
  = (Ok tt, {| req := VObj (Obj.put "headers" (After.shown_headers (VObj p)) p);
               proc := q |}).
Proof.
  intros Hh. unfold delete_header.
  rewrite (bind_run _ _ _ _ _
             (request_prop_run "headers" {| req := VObj p; proc := q |} eq_refl)).
  unfold After.shown_headers. cbn beta iota delta [req].
  pose proof (truthy_field_lookup _ _ Hh) as L.
  destruct (field (VObj p) "headers") eqn:E;
    try (unfold ret; now rewrite (put_known _ _ _ L)).
  reflexivity.
Qed.

#[local] Arguments append : simpl never.

Lemma set_request_prop_run (k : string) (v : value) (s : store)
      (p : list (string * value)) :
  req s = VObj p ->
  set_request_prop k v s
  = (Ok tt, {| req := VObj (Obj.put k v p); proc := proc s |}).
Proof.
  unfold set_request_prop. now intros ->.
Qed.

Lemma request_facts_ok (s s' : store) (u : unit) :
  truthy (field (req s) "headers") = true ->
  request_facts s = (Ok u, s') ->
  s' = {| req := After.request_object (req s); proc := proc s |}
  /\ After.servable (req s) = true.
Proof.
  intros Hh H.
  destruct (truthy_field_object _ _ Hh) as [p Ep].
  unfold request_facts in H.
  apply bind_ok in H as (sch & s1 & H1 & H).
  apply (protocol_ok s _ _ Hh) in H1 as (-> & -> & Hsock).
  apply bind_ok in H as (hh & s1 & H1 & H).
  apply request_path_ok in H1 as (-> & -> & _ & _).
  apply bind_ok in H as (url & s1 & H1 & H).
  apply request_prop_ok in H1 as (-> & ->).
  apply bind_ok in H as (u1 & s1 & H1 & H).
  rewrite (set_request_prop_run _ _ _ _ Ep) in H1. injection H1 as <- <-.
  apply bind_ok in H as (ra & s1 & H1 & H).
  apply remote_address_ok in H1 as (-> & -> & Hconn & Haddr).
  simpl req in *; simpl proc in *.
  rewrite peer_address_put in * by reflexivity.
  rewrite !(field_put_other "href" "connection"), !(field_put_other "href" "socket")
    in * by reflexivity.
  apply bind_ok in H as (ip & s1 & H1 & H).
  apply ip_address_ok in H1 as (-> & ->). simpl req in *; simpl proc in *.
  rewrite !(field_put_other "href" "headers") in H by reflexivity.
  apply bind_ok in H as (u2 & s1 & H1 & H).
  rewrite set_request_prop_object in H1. injection H1 as <- <-.
  apply bind_ok in H as (ck & s1 & H1 & H).
  apply cookies_ok in H1 as (-> & -> & Hck). simpl req in *; simpl proc in *.
  rewrite !cookie_map_put in H by reflexivity.
  rewrite !(field_put_other "ip_addr" "headers"), !(field_put_other "href" "headers")
    in Hck by reflexivity.
  apply bind_ok in H as (u3 & s1 & H1 & H).
  rewrite set_request_prop_object in H1. injection H1 as <- <-.
  simpl req in *; simpl proc in *.
  rewrite Ep in *.
  rewrite delete_header_object in H
    by (now rewrite !field_put_other by reflexivity).
  injection H as _ <-.
  split.
  - unfold After.request_object, After.client_address, After.href.
    f_equal. f_equal. f_equal.
    unfold After.shown_headers.
    now rewrite !field_put_other by reflexivity.
  - unfold After.servable. simpl After.can_read. simpl After.is_object.
    rewrite Hh, Hsock, Hconn, Haddr, Hck. reflexivity.
Qed.

Lemma request_facts_run (s : store) :
  truthy (field (req s) "headers") = true ->
  After.servable (req s) = true ->
  request_facts s = (Ok tt, {| req := After.request_object (req s); proc := proc s |}).
Proof.
  intros Hh Hs.
  destruct (truthy_field_object _ _ Hh) as [p Ep].
  destruct s as [r q]. simpl req in *. simpl proc. subst r.
  unfold After.servable in Hs. rewrite Hh in Hs. simpl in Hs.
  apply andb_true_iff in Hs as [Hs Hck].
  apply andb_true_iff in Hs as [Hs Haddr].
  apply andb_true_iff in Hs as [Hsock Hconn].
  set (s0 := {| req := VObj p; proc := q |}).
  unfold request_facts.
  rewrite (bind_run _ _ _ _ _ (protocol_run s0 Hh Hsock)).
  rewrite (bind_run _ _ _ _ _
             (request_path_run "headers" "host" s0 eq_refl (truthy_can_read _ Hh))).
  rewrite (bind_run _ _ _ _ _ (request_prop_run "url" s0 eq_refl)).
  unfold s0 at 4. rewrite (bind_run _ _ _ _ _ (set_request_prop_object _ _ _ _)).
  match goal with |- bind _ _ ?s = _ => set (s1 := s) end.
  assert (R1 : remote_address s1 = (Ok (After.peer_address (VObj p)), s1)).
  { rewrite <- (peer_address_put "href" (VStr (After.scheme (req s0) ++ "://"
        ++ ToString (field (field (req s0) "headers") "host")
        ++ ToString (field (req s0) "url"))) p) by reflexivity.
    apply remote_address_run; simpl req;
      rewrite ?field_put_other by reflexivity; auto. }
  rewrite (bind_run _ _ _ _ _ R1).
  assert (Hh1 : truthy (field (req s1) "headers") = true)
    by (simpl req; now rewrite field_put_other by reflexivity).
  rewrite (bind_run _ _ _ _ _ (ip_address_run _ s1 Hh1)).
  unfold s1 at 3. rewrite (bind_run _ _ _ _ _ (set_request_prop_object _ _ _ _)).
  match goal with |- bind _ _ ?s = _ => set (s2 := s) end.
  assert (Hh2 : truthy (field (req s2) "headers") = true)
    by (simpl req; now rewrite !field_put_other by reflexivity).
  assert (Hck2 : (negb (truthy (field (field (req s2) "headers") "cookie"))
                  || After.is_string (field (field (req s2) "headers") "cookie"))%bool
                 = true)
    by (simpl req; now rewrite !field_put_other by reflexivity).
  rewrite (bind_run _ _ _ _ _ (cookies_run s2 Hh2 Hck2)).
  unfold s2 at 2. rewrite (bind_run _ _ _ _ _ (set_request_prop_object _ _ _ _)).
  rewrite delete_header_object
    by (now rewrite !field_put_other by reflexivity).
  unfold After.request_object, After.client_address, After.href.
  simpl req. rewrite !cookie_map_put by reflexivity.
  rewrite !(field_put_other "href" "headers") by reflexivity.
  f_equal. f_equal. f_equal. f_equal.
  unfold After.shown_headers. now rewrite !field_put_other by reflexivity.
Qed.

Lemma bind_ret {A B} (a : A) (k : A -> M B) (s : store) :
  bind (ret a) k s = k a s.
Proof.
  reflexivity.
Qed.

Section Calls.
Variable prettysize : number -> string.
Variable humanizeDuration : number -> string.

Lemma process_facts_run (h : host) (s : store) :
  process_facts prettysize h s
  = (Ok tt, {| req := req s; proc := After.process_props prettysize h (proc s) |}).
Proof.
  reflexivity.
Qed.

Lemma request_context_ok (s s' : store) (x : value) :
  request_context s = (Ok x, s') ->
  x = After.context_request (req s)
  /\ s' = {| req := After.request_of_call (req s); proc := proc s |}
  /\ After.servable (req s) = true.
Proof.
  unfold request_context. intros H.
  apply bind_ok in H as (hs & s1 & H1 & H).
  unfold request_prop in H1. rewrite getprop_can_read in H1.
  destruct (After.can_read (req s)) eqn:Hr; [|discriminate].
  injection H1 as <- <-.
  unfold After.context_request, After.request_of_call.
  destruct (truthy (field (req s) "headers")) eqn:Hh.
  - apply bind_ok in H as (u & s1 & H1 & H).
    apply (request_facts_ok _ _ _ Hh) in H1 as (-> & Hs).
    unfold the_request in H. injection H as <- <-. auto.
  - injection H as <- <-. unfold After.servable. rewrite Hr, Hh.
    destruct s. auto.
Qed.

Lemma request_context_run (s : store) :
  After.servable (req s) = true ->
  request_context s
  = (Ok (After.context_request (req s)),
     {| req := After.request_of_call (req s); proc := proc s |}).
Proof.
  intros Hs. unfold request_context.
  assert (Hr : After.can_read (req s) = true).
  { unfold After.servable in Hs. now apply andb_true_iff in Hs as [Hr _]. }
  rewrite (bind_run _ _ _ _ _ (request_prop_run "headers" s Hr)).
  unfold After.context_request, After.request_of_call.
  destruct (truthy (field (req s) "headers")) eqn:Hh.
  - now rewrite (bind_run _ _ _ _ _ (request_facts_run s Hh Hs)).
  - now destruct s.
Qed.

(** A call that returns: the page and the store it leaves. *)
Lemma nodeinfo_ok (h : host) (options : value) (s s' : store) (html : string) :
  nodeinfo prettysize humanizeDuration h options s = (Ok html, s') ->
  exists offset,
    TzOffset.group1 (Date_now h) = Some offset
    /\ After.servable (req s) = true
    /\ s' = After.store_of_call prettysize h s
    /\ html = Template.render
                (After.page_context prettysize humanizeDuration h options offset s).
Proof.
  unfold nodeinfo, build_context. intros H.
  apply bind_ok in H as (c & s1 & H1 & H).
  injection H as <- <-.
  rewrite (bind_run _ _ _ _ _ (process_facts_run h s)) in H1.
  apply bind_ok in H1 as (off & s2 & H1 & H).
  unfold tz_offset in H1.
  destruct (TzOffset.group1 (Date_now h)) as [o|]; [|discriminate].
  injection H1 as <- <-.
  apply bind_ok in H as (r & s2 & H1 & H).
  apply request_context_ok in H1 as (-> & -> & Hs).
  injection H as <- <-.
  exists o. auto.
Qed.

(** When a call returns. *)
Lemma nodeinfo_run (h : host) (options : value) (s : store) (offset : string) :
  TzOffset.group1 (Date_now h) = Some offset ->
  After.servable (req s) = true ->
  nodeinfo prettysize humanizeDuration h options s
  = (Ok (Template.render
           (After.page_context prettysize humanizeDuration h options offset s)),
     After.store_of_call prettysize h s).
Proof.
  intros Ho Hs.
  assert (B : build_context prettysize humanizeDuration h options s
              = (Ok (After.page_context prettysize humanizeDuration h options offset s),
                 After.store_of_call prettysize h s)).
  { unfold build_context.
    rewrite (bind_run _ _ _ _ _ (process_facts_run h s)).
    unfold tz_offset. rewrite Ho.
    rewrite bind_ret.
    rewrite (bind_run _ _ _ _ _
               (request_context_run
                  {| req := req s; proc := After.process_props prettysize h (proc s) |}
                  Hs)).
    reflexivity. }
  unfold nodeinfo. now rewrite (bind_run _ _ _ _ _ B).
Qed.
End Calls.

(** ** The page around the request block *)

Lemma contains_request_section (t : string) (c : context) :
  contains t (Template.request_section c) -> contains t (Template.render c).
Proof.
  intros H. unfold Template.render.
  apply contains_append_r. now apply contains_append_l.
Qed.

Lemma contains_heading (h title : string) : contains title (Template.heading h title).
Proof.
  unfold Template.heading.
  do 6 apply contains_append_r. apply contains_append_l, contains_refl.
Qed.

(* ================================================================== *)
(** * The claims *)
(* ================================================================== *)

(** ** C2: a call without a request object *)

(** C2 (the code at the failing input).  Called without a request object,
    [nodeinfo] does not return a page: whatever the host, the options and
    the [process] object, the call throws a [TypeError], at the latest when
    line 168 reads [req.headers] of [undefined]. *)
Theorem nodeinfo_without_request_throws
        (prettysize humanizeDuration : number -> string)
        (h : host) (options : value) (p : list (string * value)) :
  fst (nodeinfo prettysize humanizeDuration h options
         {| req := VUndefined; proc := p |})
  = Throw TypeError.
Proof.
  unfold nodeinfo, build_context.
  unfold bind at 1. unfold bind at 1.
  rewrite process_facts_run.
  unfold bind at 1. unfold tz_offset.
  destruct (TzOffset.group1 (Date_now h)); reflexivity.
Qed.

(** ** C10: a request object without headers *)

(** C10.  For every request object (any value but [undefined] and [null])
    whose [headers] property is absent or falsy, on a host whose [Date()]
    shows a time zone offset: [nodeinfo] returns a page; it collected no
    request facts (the request object is left as it was passed and
    [context.request] is [undefined]); and the request block of the page is
    the row [No request object supplied], between what precedes the block
    and the closing lines of the template.  The test is on [req.headers]
    alone: nothing else of the request object is looked at. *)
Theorem headerless_request_gets_fallback
        (prettysize humanizeDuration : number -> string)
        (h : host) (options r : value) (p : list (string * value))
        (offset : string) :
  After.can_read r = true ->
  truthy (field r "headers") = false ->
  TzOffset.group1 (Date_now h) = Some offset ->
  exists html c,
    nodeinfo prettysize humanizeDuration h options {| req := r; proc := p |}
    = (Ok html, {| req := r; proc := After.process_props prettysize h p |})
    /\ request c = VUndefined
    /\ Template.request_section c = Template.no_request
    /\ html = Template.before_request c ++ Template.no_request ++ Template.epilogue
    /\ contains "No request object supplied" html.
Proof.
  intros Hr Hh Ho.
  set (s := {| req := r; proc := p |}).
  assert (Hs : After.servable (req s) = true).
  { unfold After.servable. simpl req. now rewrite Hr, Hh. }
  exists (Template.render
            (After.page_context prettysize humanizeDuration h options offset s)),
         (After.page_context prettysize humanizeDuration h options offset s).
  assert (Hq : request (After.page_context prettysize humanizeDuration h options offset s)
               = VUndefined).
  { simpl. unfold After.context_request. now rewrite Hh. }
  assert (Hsec : Template.request_section
                   (After.page_context prettysize humanizeDuration h options offset s)
                 = Template.no_request).
  { unfold Template.request_section. now rewrite Hq. }
  repeat split.
  - rewrite (nodeinfo_run _ _ _ _ _ _ Ho Hs).
    unfold After.store_of_call, After.request_of_call. simpl req. now rewrite Hh.
  - exact Hq.
  - exact Hsec.
  - unfold Template.render. now rewrite Hsec.
  - apply contains_request_section. rewrite Hsec. apply contains_heading.
Qed.

Lemma headerless_request_gets_fallback_witness :
  After.can_read Sample.headerless = true
  /\ truthy (field Sample.headerless "headers") = false
  /\ exists html c,
       Sample.run Sample.machine VUndefined Sample.headerless
       = (Ok html, {| req := Sample.headerless;
                      proc := After.process_props Sample.prettysize Sample.machine
                                Sample.node_process |})
       /\ request c = VUndefined
       /\ Template.request_section c = Template.no_request
       /\ html = Template.before_request c ++ Template.no_request ++ Template.epilogue
       /\ contains "No request object supplied" html.
Proof.
  split; [reflexivity|]. split; [reflexivity|].
  apply (headerless_request_gets_fallback
           Sample.prettysize Sample.humanizeDuration Sample.machine VUndefined
           Sample.headerless Sample.node_process
           "GMT+0000 (Greenwich Mean Time)"); reflexivity.
Defined.
(** ** What the page shows of a request *)

Lemma request_section_rows (c : context) :
  truthy (request c) = true ->
  Template.request_section c = Template.request_rows (request c).
Proof.
  unfold Template.request_section, Hb.if_. now intros ->.
Qed.

Lemma truthy_request_object (r : value) :
  truthy (field r "headers") = true -> truthy (After.request_object r) = true.
Proof.
  intros H. destruct (truthy_field_object _ _ H) as [p ->]. reflexivity.
Qed.

Lemma request_object_href (r : value) :
  truthy (field r "headers") = true ->
  field (After.request_object r) "href" = VStr (After.href r).
Proof.
  intros H. destruct (truthy_field_object _ _ H) as [p ->].
  unfold After.request_object. now fields_past_puts.
Qed.

Lemma request_object_ip_addr (r : value) :
  truthy (field r "headers") = true ->
  field (After.request_object r) "ip_addr" = After.client_address r.
Proof.
  intros H. destruct (truthy_field_object _ _ H) as [p ->].
  unfold After.request_object. now fields_past_puts.
Qed.

Lemma request_object_cookies (r : value) :
  truthy (field r "headers") = true ->
  field (After.request_object r) "cookies" = After.cookie_map r.
Proof.
  intros H. destruct (truthy_field_object _ _ H) as [p ->].
  unfold After.request_object. now fields_past_puts.
Qed.

Lemma request_object_headers (r : value) :
  truthy (field r "headers") = true ->
  field (After.request_object r) "headers" = After.shown_headers r.
Proof.
  intros H. destruct (truthy_field_object _ _ H) as [p ->].
  unfold After.request_object. now fields_past_puts.
Qed.

Lemma prop_request_object (r : value) (k : string) :
  truthy (field r "headers") = true ->
  Hb.prop (After.request_object r) k = field (After.request_object r) k.
Proof.
  intros H. destruct (truthy_field_object _ _ H) as [p ->].
  apply prop_field_object.
Qed.

Section Shown.
Variable prettysize : number -> string.
Variable humanizeDuration : number -> string.

(** A call on a request with truthy headers that returned: the request
    object afterwards, and the rows of the page's request block. *)
Lemma nodeinfo_request (h : host) (options : value) (s s' : store) (html : string) :
  nodeinfo prettysize humanizeDuration h options s = (Ok html, s') ->
  truthy (field (req s) "headers") = true ->
  req s' = After.request_object (req s)
  /\ forall t, contains t (Template.request_rows (After.request_object (req s))) ->
               contains t html.
Proof.
  intros H Hh. apply nodeinfo_ok in H as (off & _ & _ & -> & ->).
  split.
  - unfold After.store_of_call, After.request_of_call. simpl. now rewrite Hh.
  - intros t Ht. apply contains_request_section.
    rewrite request_section_rows; simpl request; unfold After.context_request;
      rewrite Hh; [assumption|].
    now apply truthy_request_object.
Qed.
End Shown.

Lemma is_https_iff (v : value) : is_https v = true <-> v = VStr "https".
Proof.
  destruct v; simpl; try (split; [discriminate | intros [=]]).
  split.
  - intros H. apply String.eqb_eq in H. now subst.
  - intros [= ->]. reflexivity.
Qed.

(** ** C6: the absolute URL *)

(** C6.  For every request with truthy headers from which [nodeinfo]
    returns a page, the [href] written to the request and shown in the row
    [href] is the scheme, [://], the host header and [req.url] concatenated
    (each through [ToString], which leaves a string as it is); the scheme is
    [https] exactly when [req.socket.encrypted] is truthy or the
    [x-forwarded-proto] header is the string [https], and [http]
    otherwise. *)
Theorem href_is_scheme_host_url
        (prettysize humanizeDuration : number -> string)
        (h : host) (options : value) (s s' : store) (html : string) :
  nodeinfo prettysize humanizeDuration h options s = (Ok html, s') ->
  truthy (field (req s) "headers") = true ->
  exists scheme,
    field (req s') "href"
    = VStr (scheme ++ "://" ++ ToString (field (field (req s) "headers") "host")
            ++ ToString (field (req s) "url"))
    /\ contains (Template.row "href" (Hb.escapeExpression (field (req s') "href"))) html
    /\ (scheme = "https" <->
        truthy (field (field (req s) "socket") "encrypted") = true
        \/ field (field (req s) "headers") "x-forwarded-proto" = VStr "https")
    /\ (scheme = "http" <->
        ~ (truthy (field (field (req s) "socket") "encrypted") = true
           \/ field (field (req s) "headers") "x-forwarded-proto" = VStr "https")).
Proof.
  intros H Hh.
  destruct (nodeinfo_request _ _ _ _ _ _ _ H Hh) as (E & Hrows).
  exists (After.scheme (req s)).
  rewrite E, (request_object_href _ Hh).
  split; [reflexivity|]. split.
  - apply Hrows. unfold Template.request_rows.
    rewrite (prop_request_object _ "href" Hh), (request_object_href _ Hh).
    apply (contains_cat _ (Template.row "href" (Hb.escapeExpression (VStr (After.href (req s)))))).
    + simpl. auto.
    + apply contains_refl.
  - unfold After.scheme, After.secure.
    rewrite <- is_https_iff.
    destruct (truthy (field (field (req s) "socket") "encrypted"));
      destruct (is_https (field (field (req s) "headers") "x-forwarded-proto"));
      simpl; split; split; intros; try reflexivity; try discriminate; auto;
      intuition discriminate.
Qed.

Lemma href_is_scheme_host_url_witness :
  truthy (field Sample.forwarded "headers") = true
  /\ exists scheme,
       field (req (snd (Sample.run Sample.machine VUndefined Sample.forwarded))) "href"
       = VStr (scheme ++ "://" ++ "example.org" ++ "/")
       /\ scheme = "https".
Proof.
  split; [reflexivity|].
  destruct (href_is_scheme_host_url
              Sample.prettysize Sample.humanizeDuration Sample.machine VUndefined
              {| req := Sample.forwarded; proc := Sample.node_process |}
              (snd (Sample.run Sample.machine VUndefined Sample.forwarded))
              (Template.render
                 (After.page_context Sample.prettysize Sample.humanizeDuration
                    Sample.machine VUndefined "GMT+0000 (Greenwich Mean Time)"
                    {| req := Sample.forwarded; proc := Sample.node_process |}))
              eq_refl eq_refl)
    as (scheme & E & _ & Hs & _).
  exists scheme. split; [exact E|].
  apply Hs. right. reflexivity.
Defined.

(** ** C5: the client address *)

(** C5, as stated, fails on a request whose [x-forwarded-for] header is
    present and empty: read to the letter the claim shows the header value
    followed by [" via "] and the peer address, the page shows the peer
    address alone, because line 176 tests the header for truthiness. *)
Lemma empty_forwarded_for_is_passed_over :
  field (field Sample.forwarded_for_nobody "headers") "x-forwarded-for" = VStr EmptyString
  /\ Claimed.client_address Sample.forwarded_for_nobody = VStr " via 10.0.0.1"
  /\ (exists html,
        fst (Sample.run Sample.machine VUndefined Sample.forwarded_for_nobody) = Ok html)
  /\ field (req (snd (Sample.run Sample.machine VUndefined Sample.forwarded_for_nobody)))
       "ip_addr"
     = VStr "10.0.0.1"
  /\ field (req (snd (Sample.run Sample.machine VUndefined Sample.forwarded_for_nobody)))
       "ip_addr"
     <> Claimed.client_address Sample.forwarded_for_nobody.
Proof.
  split; [reflexivity|]. split; [reflexivity|]. split; [|split; [reflexivity|]].
  - eexists. reflexivity.
  - discriminate.
Qed.

(** C5, amended.  For every request with truthy headers from which
    [nodeinfo] returns a page, the client address written to the request
    and shown in the row [remote ip] is: the [x-forwarded-for] header,
    [" via "] and the peer address, when that header is truthy (present and
    not empty); otherwise the peer address.  The peer address is the first
    truthy one of [req.connection.remoteAddress],
    [req.socket.remoteAddress] and [req.connection.socket.remoteAddress],
    in this order, and the last of them when none is truthy. *)
Theorem client_address_shown
        (prettysize humanizeDuration : number -> string)
        (h : host) (options : value) (s s' : store) (html : string) :
  nodeinfo prettysize humanizeDuration h options s = (Ok html, s') ->
  truthy (field (req s) "headers") = true ->
  exists peer,
    peer = (if truthy (field (field (req s) "connection") "remoteAddress")
            then field (field (req s) "connection") "remoteAddress"
            else if truthy (field (field (req s) "socket") "remoteAddress")
            then field (field (req s) "socket") "remoteAddress"
            else field (field (field (req s) "connection") "socket") "remoteAddress")
    /\ field (req s') "ip_addr"
       = (if truthy (field (field (req s) "headers") "x-forwarded-for")
          then VStr (ToString (field (field (req s) "headers") "x-forwarded-for")
                     ++ " via " ++ ToString peer)
          else peer)
    /\ contains
         (Template.row "remote ip" (Hb.escapeExpression (field (req s') "ip_addr")))
         html.
Proof.
  intros H Hh.
  destruct (nodeinfo_request _ _ _ _ _ _ _ H Hh) as (E & Hrows).
  exists (After.peer_address (req s)).
  rewrite E, (request_object_ip_addr _ Hh).
  split; [reflexivity|]. split; [reflexivity|].
  apply Hrows. unfold Template.request_rows.
  rewrite (prop_request_object _ "ip_addr" Hh), (request_object_ip_addr _ Hh).
  apply (contains_cat _ (Template.row "remote ip"
                           (Hb.escapeExpression (After.client_address (req s))))).
  - simpl. auto.
  - apply contains_refl.
Qed.

Lemma client_address_shown_witness :
  truthy (field Sample.forwarded "headers") = true
  /\ field (req (snd (Sample.run Sample.machine VUndefined Sample.forwarded))) "ip_addr"
     = VStr "192.0.2.7 via 10.0.0.1".
Proof.
  split; [reflexivity|].
  destruct (client_address_shown
              Sample.prettysize Sample.humanizeDuration Sample.machine VUndefined
              {| req := Sample.forwarded; proc := Sample.node_process |}
              (snd (Sample.run Sample.machine VUndefined Sample.forwarded))
              (Template.render
                 (After.page_context Sample.prettysize Sample.humanizeDuration
                    Sample.machine VUndefined "GMT+0000 (Greenwich Mean Time)"
                    {| req := Sample.forwarded; proc := Sample.node_process |}))
              eq_refl eq_refl)
    as (peer & -> & E & _).
  exact E.
Defined.
(** ** Texts without a script tag *)

Lemma no_script_cons (c : ascii) (r : string) :
  no_script (String c r)
  = ((if Ascii.eqb c "<"
      then match r with
           | String c1 (String c2 _) => negb (Ascii.eqb c1 "s" && Ascii.eqb c2 "c")
           | _ => false
           end
      else true)
     && no_script r)%bool.
Proof.
  reflexivity.
Qed.

Lemma append_cons (c : ascii) (a b : string) : String c a ++ b = String c (a ++ b).
Proof.
  reflexivity.
Qed.

Lemma append_nil_l (b : string) : EmptyString ++ b = b.
Proof.
  reflexivity.
Qed.

Lemma no_script_append (a b : string) :
  no_script a = true -> no_script b = true -> no_script (a ++ b) = true.
Proof.
  intros Ha Hb. induction a as [|c a IH]; [exact Hb|].
  rewrite append_cons, no_script_cons. rewrite no_script_cons in Ha.
  apply andb_true_iff in Ha as [H1 H2].
  rewrite (IH H2), andb_true_r.
  destruct (Ascii.eqb c "<"); [|reflexivity].
  destruct a as [|c1 [|c2 a]]; try discriminate.
  now rewrite !append_cons.
Qed.



Lemma has_char_cons (c d : ascii) (r : string) :
  has_char c (String d r) = (Ascii.eqb c d || has_char c r)%bool.
Proof.
  reflexivity.
Qed.

Lemma no_lt_no_script (s : string) : has_char "<" s = false -> no_script s = true.
Proof.
  induction s as [|c s IH]; [reflexivity|].
  rewrite no_script_cons, has_char_cons. intros H.
  apply orb_false_iff in H as [H1 H2].
  rewrite Ascii.eqb_sym, H1. now apply IH.
Qed.

Lemma no_script_cat (l : list string) :
  Forall (fun s => no_script s = true) l -> no_script (cat l) = true.
Proof.
  induction 1 as [|s l Hs _ IH]; [reflexivity|].
  simpl cat. now apply no_script_append.
Qed.

(** ** Escaping *)


Lemma escape_char_no_lt (c : ascii) : has_char "<" (Hb.escape_char c) = false.
Proof.
  unfold Hb.escape_char.
  repeat match goal with
         | |- context [if ?b then _ else _] => destruct b eqn:?; [reflexivity|]
         end.
  rewrite has_char_cons, Ascii.eqb_sym.
  match goal with H : Ascii.eqb c "<" = false |- _ => now rewrite H end.
Qed.


Lemma escape_no_lt (s : string) : has_char "<" (Hb.escape s) = false.
Proof.
  induction s as [|c s IH]; [reflexivity|].
  simpl Hb.escape. now rewrite has_char_append, escape_char_no_lt, IH.
Qed.


Lemma escapeExpression_no_lt (v : value) : has_char "<" (Hb.escapeExpression v) = false.
Proof.
  destruct v; try reflexivity; apply escape_no_lt.
Qed.


Lemma no_script_escape (s : string) : no_script (Hb.escape s) = true.
Proof.
  apply no_lt_no_script, escape_no_lt.
Qed.

Lemma no_script_escapeExpression (v : value) : no_script (Hb.escapeExpression v) = true.
Proof.
  apply no_lt_no_script, escapeExpression_no_lt.
Qed.



(** ** The template holds no script tag *)

Ltac pieces :=
  repeat lazymatch goal with
    | |- no_script (Hb.escape _) = true => apply no_script_escape
    | |- no_script (Hb.escapeExpression _) = true => apply no_script_escapeExpression
    | |- no_script (_ ++ _) = true => apply no_script_append
    | H : no_script ?s = true |- no_script ?s = true => exact H
    | |- no_script _ = true => reflexivity
    end.

Lemma no_script_row (name content : string) :
  no_script name = true -> no_script content = true ->
  no_script (Template.row name content) = true.
Proof.
  intros Hn Hc. unfold Template.row. pieces.
Qed.

Lemma no_script_header_row (k : string) (v : value) :
  no_script (Template.header_row k v) = true.
Proof.
  unfold Template.header_row. pieces.
Qed.

Lemma no_script_cookie_row (k : string) (v : value) :
  no_script (Template.cookie_row k v) = true.
Proof.
  unfold Template.cookie_row. pieces.
Qed.

Lemma no_script_each (v : value) (body : string -> value -> string) :
  (forall k x, no_script (body k x) = true) -> no_script (Hb.each v body) = true.
Proof.
  intros Hb. destruct v; try reflexivity.
  simpl. apply no_script_cat. apply Forall_forall.
  intros s Hs. apply in_map_iff in Hs as (e & <- & _). apply Hb.
Qed.

Lemma no_script_if (v : value) (a b : string) :
  no_script a = true -> no_script b = true -> no_script (Hb.if_ v a b) = true.
Proof.
  unfold Hb.if_. now destruct (truthy v).
Qed.

Ltac rows :=
  cbv zeta;
  repeat lazymatch goal with
    | |- Forall _ [] => apply Forall_nil
    | |- Forall _ (_ :: _) => apply Forall_cons
    | |- no_script (cat _) = true => apply no_script_cat
    | |- no_script (Hb.if_ _ _ _) = true => apply no_script_if
    | |- no_script (Template.row _ _) = true => apply no_script_row
    | |- no_script (Hb.each _ _) = true => apply no_script_each; intros
    | |- no_script (Template.header_row _ _) = true => apply no_script_header_row
    | |- no_script (Template.cookie_row _ _) = true => apply no_script_cookie_row
    | |- no_script _ = true => pieces
    end.

Lemma no_script_package_section (c : context) :
  no_script (Template.package_section c) = true.
Proof.
  unfold Template.package_section. rows.
Qed.

Lemma no_script_os_section (c : context) : no_script (Template.os_section c) = true.
Proof.
  unfold Template.os_section. rows.
Qed.

Lemma no_script_versions_section (c : context) :
  no_script (Template.versions_section c) = true.
Proof.
  unfold Template.versions_section. rows.
Qed.

Lemma no_script_env_section (c : context) : no_script (Template.env_section c) = true.
Proof.
  unfold Template.env_section. rows.
Qed.

Lemma no_script_body_open (c : context) : no_script (Template.body_open c) = true.
Proof.
  unfold Template.body_open. rows.
Qed.

Lemma no_script_request_section (c : context) :
  no_script (Template.request_section c) = true.
Proof.
  unfold Template.request_section, Template.request_rows,
    Template.header_rows, Template.cookie_rows. rows.
Qed.

(** The page holds a script tag only if the style override brings one. *)
Lemma no_script_render (c : context) :
  no_script (Hb.raw (styleOverride c)) = true ->
  no_script (Template.render c) = true.
Proof.
  intros Hs. unfold Template.render, Template.before_request.
  apply no_script_append; [|apply no_script_append].
  - apply no_script_cat.
    repeat first [apply Forall_nil | apply Forall_cons].
    + reflexivity.
    + unfold Template.style_line. pieces.
    + apply no_script_body_open.
    + apply no_script_package_section.
    + apply no_script_os_section.
    + apply no_script_versions_section.
    + apply no_script_env_section.
  - apply no_script_request_section.
  - reflexivity.
Qed.
(** ** The style override in the page *)

Lemma render_around_style (c : context) :
  Template.render c
  = Template.prologue ++ Template.indent ++ Hb.raw (styleOverride c) ++ nl
    ++ Template.after_style c.
Proof.
  unfold Template.render, Template.before_request, Template.after_style,
    Template.style_line.
  simpl cat. rewrite !append_assoc. reflexivity.
Qed.











(** ** Headers and cookies in the page *)

Lemma header_rows_object (r : value) (hp : list (string * value)) :
  truthy (field r "headers") = true ->
  After.shown_headers r = VObj hp ->
  Template.header_rows (After.request_object r)
  = cat (map (fun e => Template.header_row (fst e) (snd e)) (Obj.entries hp)).
Proof.
  intros Hh E. unfold Template.header_rows.
  now rewrite (prop_request_object _ _ Hh), (request_object_headers _ Hh), E.
Qed.

Lemma cookie_rows_object (r : value) (cp : list (string * value)) :
  truthy (field r "headers") = true ->
  After.cookie_map r = VObj cp ->
  Template.cookie_rows (After.request_object r)
  = cat (map (fun e => Template.cookie_row (fst e) (snd e)) (Obj.entries cp)).
Proof.
  intros Hh E. unfold Template.cookie_rows.
  now rewrite (prop_request_object _ _ Hh), (request_object_cookies _ Hh), E.
Qed.

Lemma contains_header_rows (t : string) (r : value) :
  contains t (Template.header_rows r) -> contains t (Template.request_rows r).
Proof.
  intros H. unfold Template.request_rows.
  apply (contains_cat _ (Template.header_rows r)); [|exact H].
  simpl. auto 10.
Qed.

Lemma contains_cookie_rows (t : string) (r : value) :
  contains t (Template.cookie_rows r) -> contains t (Template.request_rows r).
Proof.
  intros H. unfold Template.request_rows.
  apply (contains_cat _ (Template.cookie_rows r)); [|exact H].
  simpl. auto 12.
Qed.

(** ** C3: the cookie header *)

(** C3.  For every request whose headers are an object with the cookie
    header [a=1; b=2] and from which [nodeinfo] returns a page: the cookie
    mapping written to the request is exactly [a] to [1] and [b] to [2],
    and the cookie table of the page has these two rows; the headers of
    the request have lost the cookie header, the header rows of the page
    are the rows of the headers that remain, one per header, and no key of
    theirs is [cookie]. *)
Theorem cookie_header_parsed_and_hidden
        (prettysize humanizeDuration : number -> string)
        (h : host) (options : value) (s s' : store) (html : string)
        (hp : list (string * value)) :
  nodeinfo prettysize humanizeDuration h options s = (Ok html, s') ->
  field (req s) "headers" = VObj hp ->
  Obj.lookup "cookie" hp = Some (VStr "a=1; b=2") ->
  field (req s') "cookies" = VObj [("a", VStr "1"); ("b", VStr "2")]
  /\ Template.cookie_rows (req s')
     = Template.cookie_row "a" (VStr "1") ++ Template.cookie_row "b" (VStr "2")
  /\ contains (Template.cookie_rows (req s')) html
  /\ field (req s') "headers" = VObj (Obj.remove "cookie" hp)
  /\ Template.header_rows (req s')
     = cat (map (fun e => Template.header_row (fst e) (snd e))
              (Obj.entries (Obj.remove "cookie" hp)))
  /\ contains (Template.header_rows (req s')) html
  /\ ~ In "cookie" (Obj.keys (Obj.remove "cookie" hp)).
Proof.
  intros H Eh Ec.
  assert (Hh : truthy (field (req s) "headers") = true) by now rewrite Eh.
  destruct (nodeinfo_request _ _ _ _ _ _ _ H Hh) as (E & Hrows).
  assert (Ecm : After.cookie_map (req s) = VObj [("a", VStr "1"); ("b", VStr "2")]).
  { unfold After.cookie_map. now rewrite Eh, field_object, Ec. }
  assert (Esh : After.shown_headers (req s) = VObj (Obj.remove "cookie" hp)).
  { unfold After.shown_headers. now rewrite Eh. }
  rewrite E.
  rewrite (request_object_cookies _ Hh), (request_object_headers _ Hh).
  rewrite (cookie_rows_object _ _ Hh Ecm), (header_rows_object _ _ Hh Esh).
  refine (conj Ecm (conj _ (conj _ (conj Esh (conj eq_refl (conj _ _)))))).
  - replace (Obj.entries [("a", VStr "1"); ("b", VStr "2")])
      with [("a", VStr "1"); ("b", VStr "2")] by (vm_compute; reflexivity).
    cbn [map fst snd cat]. now rewrite append_nil_r.
  - rewrite <- (cookie_rows_object _ _ Hh Ecm).
    apply Hrows, contains_cookie_rows, contains_refl.
  - rewrite <- (header_rows_object _ _ Hh Esh).
    apply Hrows, contains_header_rows, contains_refl.
  - rewrite in_keys, lookup_remove_same. congruence.
Qed.

Lemma cookie_header_parsed_and_hidden_witness :
  field Sample.with_cookies "headers"
  = VObj [("host", VStr "localhost:8080"); ("cookie", VStr "a=1; b=2");
          ("x-note", VStr "<script>alert(1)</script>")]
  /\ field (req (snd (Sample.run Sample.machine VUndefined Sample.with_cookies))) "cookies"
     = VObj [("a", VStr "1"); ("b", VStr "2")]
  /\ field (req (snd (Sample.run Sample.machine VUndefined Sample.with_cookies))) "headers"
     = VObj [("host", VStr "localhost:8080");
             ("x-note", VStr "<script>alert(1)</script>")].
Proof.
  split; [reflexivity|].
  destruct (cookie_header_parsed_and_hidden
              Sample.prettysize Sample.humanizeDuration Sample.machine VUndefined
              {| req := Sample.with_cookies; proc := Sample.node_process |}
              (snd (Sample.run Sample.machine VUndefined Sample.with_cookies))
              (Template.render
                 (After.page_context Sample.prettysize Sample.humanizeDuration
                    Sample.machine VUndefined "GMT+0000 (Greenwich Mean Time)"
                    {| req := Sample.with_cookies; proc := Sample.node_process |}))
              [("host", VStr "localhost:8080"); ("cookie", VStr "a=1; b=2");
               ("x-note", VStr "<script>alert(1)</script>")]
              eq_refl eq_refl eq_refl)
    as (E1 & _ & _ & E2 & _).
  split; [exact E1 | exact E2].
Defined.

(** ** C4: markup in headers, and the style override *)



(** ** A second call *)

Section Again.
Variable prettysize : number -> string.
Variable humanizeDuration : number -> string.

Lemma process_props_again (h : host) (p : list (string * value)) :
  After.process_props prettysize h (After.process_props prettysize h p)
  = After.process_props prettysize h p.
Proof.
  unfold After.process_props.
  set (P := Obj.put "heapUsed" _ (Obj.put "heapTotal" _ (Obj.put "rss" _ p))).
  assert (E1 : Obj.put "rss" (VStr (prettysize (memoryUsage_rss h))) P = P).
  { apply put_known. unfold P.
    rewrite !lookup_put_other by reflexivity. apply lookup_put_same. }
  assert (E2 : Obj.put "heapTotal" (VStr (prettysize (memoryUsage_heapTotal h))) P = P).
  { apply put_known. unfold P.
    rewrite !lookup_put_other by reflexivity. apply lookup_put_same. }
  assert (E3 : Obj.put "heapUsed" (VStr (prettysize (memoryUsage_heapUsed h))) P = P).
  { apply put_known. unfold P. apply lookup_put_same. }
  now rewrite E1, E2, E3.
Qed.
End Again.

Lemma shown_headers_truthy (r : value) :
  truthy (field r "headers") = true -> truthy (After.shown_headers r) = true.
Proof.
  unfold After.shown_headers. now destruct (field r "headers").
Qed.

Lemma shown_headers_field (r : value) (k : string) :
  String.eqb k "cookie" = false ->
  field (After.shown_headers r) k = field (field r "headers") k.
Proof.
  intros N. unfold After.shown_headers.
  destruct (field r "headers"); try reflexivity.
  now rewrite !field_object, lookup_remove_other.
Qed.

Lemma shown_headers_cookie (r : value) :
  truthy (field r "headers") = true ->
  field (After.shown_headers r) "cookie" = VUndefined.
Proof.
  unfold After.shown_headers.
  destruct (field r "headers"); try reflexivity; try discriminate.
  intros _. now rewrite field_object, lookup_remove_same.
Qed.

Lemma shown_headers_again (r : value) :
  truthy (field r "headers") = true ->
  After.shown_headers (After.request_object r) = After.shown_headers r.
Proof.
  intros Hh. unfold After.shown_headers at 1.
  rewrite (request_object_headers _ Hh).
  unfold After.shown_headers.
  destruct (field r "headers"); try reflexivity.
  now rewrite (remove_absent "cookie" (Obj.remove "cookie" props))
    by apply lookup_remove_same.
Qed.

(** The fields of the request that [nodeinfo] reads, after a call. *)
Lemma request_object_field (r : value) (k : string) :
  truthy (field r "headers") = true ->
  String.eqb k "headers" = false -> String.eqb k "cookies" = false ->
  String.eqb k "ip_addr" = false -> String.eqb k "href" = false ->
  field (After.request_object r) k = field r k.
Proof.
  intros Hh N1 N2 N3 N4. destruct (truthy_field_object _ _ Hh) as [p ->].
  unfold After.request_object. now rewrite !field_put_other.
Qed.

Lemma href_again (r : value) :
  truthy (field r "headers") = true ->
  After.href (After.request_object r) = After.href r.
Proof.
  intros Hh. unfold After.href, After.scheme, After.secure.
  rewrite (request_object_headers _ Hh).
  rewrite !(request_object_field r "socket"), !(request_object_field r "url")
    by (assumption || reflexivity).
  now rewrite !shown_headers_field by reflexivity.
Qed.

Lemma peer_address_again (r : value) :
  truthy (field r "headers") = true ->
  After.peer_address (After.request_object r) = After.peer_address r.
Proof.
  intros Hh. unfold After.peer_address.
  now rewrite !(request_object_field r "socket"), !(request_object_field r "connection")
    by (assumption || reflexivity).
Qed.

Lemma client_address_again (r : value) :
  truthy (field r "headers") = true ->
  After.client_address (After.request_object r) = After.client_address r.
Proof.
  intros Hh. unfold After.client_address.
  rewrite (peer_address_again _ Hh), (request_object_headers _ Hh).
  now rewrite !shown_headers_field by reflexivity.
Qed.

Lemma cookie_map_again (r : value) :
  truthy (field r "headers") = true ->
  After.cookie_map (After.request_object r) = VObj [].
Proof.
  intros Hh. unfold After.cookie_map.
  now rewrite (request_object_headers _ Hh), (shown_headers_cookie _ Hh).
Qed.

(** The request object after a second call: the one the first call left,
    with an empty cookie mapping. *)
Lemma request_object_again (r : value) (p : list (string * value)) :
  truthy (field r "headers") = true ->
  After.request_object r = VObj p ->
  After.request_object (After.request_object r)
  = VObj (Obj.put "cookies" (VObj []) p).
Proof.
  intros Hh Ep.
  assert (Hh' : truthy (field (After.request_object r) "headers") = true).
  { rewrite (request_object_headers _ Hh). now apply shown_headers_truthy. }
  unfold After.request_object at 1. rewrite Ep.
  rewrite <- Ep at 1 2 3 4.
  rewrite (shown_headers_again _ Hh), (cookie_map_again _ Hh),
    (client_address_again _ Hh), (href_again _ Hh).
  assert (L1 : Obj.lookup "href" p = Some (VStr (After.href r))).
  { pose proof (request_object_href _ Hh) as E. rewrite Ep, field_object in E.
    destruct (Obj.lookup "href" p) eqn:L; [now subst | discriminate]. }
  rewrite (put_known _ _ _ L1).
  assert (L2 : Obj.lookup "ip_addr" p = Some (After.client_address r)).
  { destruct (truthy_field_object _ _ Hh) as [p0 ->].
    unfold After.request_object in Ep. injection Ep as <-.
    rewrite !lookup_put_other by reflexivity. apply lookup_put_same. }
  rewrite (put_known _ _ _ L2).
  f_equal. apply put_known.
  rewrite lookup_put_other by reflexivity.
  destruct (truthy_field_object _ _ Hh) as [p0 ->].
  unfold After.request_object in Ep. injection Ep as <-.
  apply lookup_put_same.
Qed.

Lemma request_object_settled (r : value) :
  truthy (field r "headers") = true ->
  After.cookie_map r = VObj [] ->
  After.request_object (After.request_object r) = After.request_object r.
Proof.
  intros Hh Ec.
  destruct (truthy_field_object _ _ Hh) as [p0 E0].
  assert (exists p, After.request_object r = VObj p) as [p Ep].
  { rewrite E0. unfold After.request_object. eauto. }
  rewrite (request_object_again _ _ Hh Ep), Ep. f_equal.
  apply put_known. subst r. unfold After.request_object in Ep.
  injection Ep as <-. rewrite Ec.
  rewrite lookup_put_other by reflexivity. apply lookup_put_same.
Qed.

Lemma servable_request_object (r : value) :
  truthy (field r "headers") = true ->
  After.servable r = true -> After.servable (After.request_object r) = true.
Proof.
  intros Hh Hs.
  assert (Hh' : truthy (field (After.request_object r) "headers") = true).
  { rewrite (request_object_headers _ Hh). now apply shown_headers_truthy. }
  unfold After.servable in *. rewrite Hh in Hs. rewrite Hh'.
  rewrite !(request_object_field r "socket"), !(request_object_field r "connection")
    by (assumption || reflexivity).
  rewrite (request_object_headers _ Hh), (shown_headers_cookie _ Hh).
  destruct (truthy_field_object _ _ Hh) as [p0 ->].
  simpl in *. rewrite !andb_true_r.
  apply andb_true_iff in Hs as [Hs _]. exact Hs.
Qed.

Lemma servable_request_of_call (r : value) :
  After.servable r = true -> After.servable (After.request_of_call r) = true.
Proof.
  intros Hs. unfold After.request_of_call.
  destruct (truthy (field r "headers")) eqn:Hh; [|assumption].
  now apply servable_request_object.
Qed.

Lemma request_of_call_again (r : value) :
  After.cookie_map r = VObj [] ->
  After.request_of_call (After.request_of_call r) = After.request_of_call r.
Proof.
  intros Ec. unfold After.request_of_call.
  destruct (truthy (field r "headers")) eqn:Hh.
  - rewrite (request_object_headers _ Hh), (shown_headers_truthy _ Hh).
    now apply request_object_settled.
  - now rewrite Hh.
Qed.

Lemma context_request_again (r : value) :
  After.cookie_map r = VObj [] ->
  After.context_request (After.request_of_call r) = After.context_request r.
Proof.
  intros Ec. unfold After.context_request, After.request_of_call.
  destruct (truthy (field r "headers")) eqn:Hh.
  - rewrite (request_object_headers _ Hh), (shown_headers_truthy _ Hh).
    now apply request_object_settled.
  - now rewrite Hh.
Qed.

(** ** C1: what a call changes, and a second call *)

(** C1, as stated, fails: a call on a request with cookies returns a page
    and leaves the request object and the [process] object changed, and a
    second call with the same request object, the same options and the
    same host returns a different page (the cookie rows are gone, the
    first call having removed the cookie header). *)
Lemma call_changes_request_and_process :
  (exists html,
      fst (Sample.run Sample.machine VUndefined Sample.with_cookies) = Ok html)
  /\ req (snd (Sample.run Sample.machine VUndefined Sample.with_cookies))
     <> Sample.with_cookies
  /\ proc (snd (Sample.run Sample.machine VUndefined Sample.with_cookies))
     <> Sample.node_process
  /\ fst (nodeinfo Sample.prettysize Sample.humanizeDuration Sample.machine VUndefined
            (snd (Sample.run Sample.machine VUndefined Sample.with_cookies)))
     <> fst (Sample.run Sample.machine VUndefined Sample.with_cookies).
Proof.
  split; [eexists; reflexivity|].
  split; [intros E; vm_compute in E; discriminate E|].
  split; [intros E; vm_compute in E; discriminate E|].
  intros E.
  apply (f_equal (fun r => match r with
                           | Ok html => occurs "<th>a</th>" html
                           | Throw _ => false
                           end)) in E.
  vm_compute in E. discriminate E.
Qed.

(** C1, amended.  For every call that returns a page:
    - the call writes [rss], [heapTotal] and [heapUsed] to [process] and
      leaves its other properties as they were;
    - a request without truthy headers is left as it was; on a request
      with truthy headers the call writes [href], [ip_addr] and [cookies],
      deletes the [cookie] header, and leaves the other properties of the
      request and the other headers as they were;
    - a second call with the same request object and the same options on
      the same host returns as well and leaves [process] as the first call
      left it; when the first call found no cookie the second call returns
      the same page and leaves the request as the first call left it. *)
Theorem call_effects_and_second_call
        (prettysize humanizeDuration : number -> string)
        (h : host) (options : value) (s s' : store) (html : string) :
  nodeinfo prettysize humanizeDuration h options s = (Ok html, s') ->
  (proc s'
   = Obj.put "heapUsed" (VStr (prettysize (memoryUsage_heapUsed h)))
       (Obj.put "heapTotal" (VStr (prettysize (memoryUsage_heapTotal h)))
          (Obj.put "rss" (VStr (prettysize (memoryUsage_rss h))) (proc s)))
   /\ forall k, k <> "rss" -> k <> "heapTotal" -> k <> "heapUsed" ->
                Obj.lookup k (proc s') = Obj.lookup k (proc s))
  /\ (truthy (field (req s) "headers") = false -> req s' = req s)
  /\ (truthy (field (req s) "headers") = true ->
      (exists p,
          req s = VObj p
          /\ req s'
             = VObj (Obj.put "headers" (After.shown_headers (req s))
                      (Obj.put "cookies" (After.cookie_map (req s))
                         (Obj.put "ip_addr" (After.client_address (req s))
                            (Obj.put "href" (VStr (After.href (req s))) p)))))
      /\ (forall k, k <> "href" -> k <> "ip_addr" -> k <> "cookies" -> k <> "headers" ->
                    field (req s') k = field (req s) k)
      /\ field (field (req s') "headers") "cookie" = VUndefined
      /\ (forall k, k <> "cookie" ->
                    field (field (req s') "headers") k
                    = field (field (req s) "headers") k))
  /\ exists html2 s2,
       nodeinfo prettysize humanizeDuration h options s' = (Ok html2, s2)
       /\ proc s2 = proc s'
       /\ (After.cookie_map (req s) = VObj [] -> html2 = html /\ s2 = s').
Proof.
  intros H. apply nodeinfo_ok in H as (off & Ho & Hs & -> & ->).
  unfold After.store_of_call. simpl req. simpl proc.
  split; [|split; [|split]].
  - split; [reflexivity|].
    intros k N1 N2 N3. unfold After.process_props.
    now rewrite !lookup_put_other by (now apply String.eqb_neq).
  - intros Hh. unfold After.request_of_call. now rewrite Hh.
  - intros Hh. unfold After.request_of_call. rewrite Hh.
    split; [|split; [|split]].
    + destruct (truthy_field_object _ _ Hh) as [p Ep]. exists p.
      split; [assumption|]. now rewrite Ep.
    + intros k N1 N2 N3 N4.
      apply request_object_field; try assumption; now apply String.eqb_neq.
    + rewrite (request_object_headers _ Hh). now apply shown_headers_cookie.
    + intros k N. rewrite (request_object_headers _ Hh).
      apply shown_headers_field. now apply String.eqb_neq.
  - set (s1 := {| req := After.request_of_call (req s);
                  proc := After.process_props prettysize h (proc s) |}).
    assert (Hs1 : After.servable (req s1) = true)
      by now apply servable_request_of_call.
    exists (Template.render
              (After.page_context prettysize humanizeDuration h options off s1)),
           (After.store_of_call prettysize h s1).
    split; [now apply nodeinfo_run|].
    split; [apply process_props_again|].
    intros Ec.
    assert (Er : After.request_of_call (req s1) = req s1)
      by now apply request_of_call_again.
    assert (Ec1 : After.context_request (req s1) = After.context_request (req s))
      by now apply context_request_again.
    split.
    + unfold After.page_context. rewrite Ec1. simpl proc.
      now rewrite process_props_again.
    + unfold After.store_of_call. rewrite Er. simpl proc.
      now rewrite process_props_again.
Qed.

Lemma call_effects_and_second_call_witness :
  After.cookie_map Sample.forwarded = VObj []
  /\ exists html s',
       Sample.run Sample.machine VUndefined Sample.forwarded = (Ok html, s')
       /\ nodeinfo Sample.prettysize Sample.humanizeDuration Sample.machine VUndefined s'
          = (Ok html, s').
Proof.
  split; [reflexivity|].
  destruct (call_effects_and_second_call
              Sample.prettysize Sample.humanizeDuration Sample.machine VUndefined
              {| req := Sample.forwarded; proc := Sample.node_process |}
              (snd (Sample.run Sample.machine VUndefined Sample.forwarded))
              (Template.render
                 (After.page_context Sample.prettysize Sample.humanizeDuration
                    Sample.machine VUndefined "GMT+0000 (Greenwich Mean Time)"
                    {| req := Sample.forwarded; proc := Sample.node_process |}))
              eq_refl)
    as (_ & _ & _ & html2 & s2 & E & _ & Hsame).
  destruct (Hsame eq_refl) as [-> ->].
  eexists. eexists. split; [reflexivity | exact E].
Defined.
(** ** Counting CPUs *)

Lemma decimal_inj (n m : N) : decimal n = decimal m -> n = m.
Proof.
  unfold decimal. intros E.
  apply (f_equal NilEmpty.uint_of_string) in E.
  rewrite !NilEmpty.usu in E. injection E as E.
  apply (f_equal N.of_uint) in E. now rewrite !DecimalN.Unsigned.of_to in E.
Qed.

Lemma count_split (cs : list cpu) (acc : list (string * N) * list (string * N)) :
  fold_left
    (fun a c => (Cpus.bump (model c) (fst a), Cpus.bump (decimal (speed c)) (snd a)))
    cs acc
  = (fold_left (fun m k => Cpus.bump k m) (map model cs) (fst acc),
     fold_left (fun m k => Cpus.bump k m) (map (fun c => decimal (speed c)) cs) (snd acc)).
Proof.
  revert acc. induction cs as [|c cs IH]; intros [m sp]; [reflexivity|].
  simpl. now rewrite IH.
Qed.

Lemma count_tally (cs : list cpu) :
  Cpus.count cs
  = (Cpus.tally (map model cs), Cpus.tally (map (fun c => decimal (speed c)) cs)).
Proof.
  unfold Cpus.count, Cpus.tally. now rewrite count_split.
Qed.

Lemma bump_put (k : string) (m : list (string * N)) :
  Cpus.bump k m = Obj.put k (Cpus.count_of k m + 1)%N m.
Proof.
  reflexivity.
Qed.

Lemma count_of_bump_same (k : string) (m : list (string * N)) :
  Cpus.count_of k (Cpus.bump k m) = (Cpus.count_of k m + 1)%N.
Proof.
  unfold Cpus.count_of at 1. now rewrite bump_put, lookup_put_same.
Qed.

Lemma lookup_bump_other (k k' : string) (m : list (string * N)) :
  String.eqb k' k = false -> Obj.lookup k' (Cpus.bump k m) = Obj.lookup k' m.
Proof.
  intros N. now rewrite bump_put, lookup_put_other.
Qed.

Lemma keys_put {A} (k : string) (v : A) (m : list (string * A)) :
  map fst (Obj.put k v m)
  = match Obj.lookup k m with
    | Some _ => map fst m
    | None => (map fst m ++ [k])%list
    end.
Proof.
  induction m as [|[k0 v0] m IH]; simpl; [reflexivity|].
  destruct (String.eqb k k0) eqn:E; simpl.
  - apply String.eqb_eq in E. now subst.
  - rewrite IH. now destruct (Obj.lookup k m).
Qed.

Lemma lookup_none_keys {A} (k : string) (m : list (string * A)) :
  Obj.lookup k m = None -> ~ In k (map fst m).
Proof.
  induction m as [|[k0 v0] m IH]; simpl; [tauto|].
  destruct (String.eqb k k0) eqn:E; [discriminate|].
  apply String.eqb_neq in E. intros L [H|H]; [congruence|]. now apply IH.
Qed.

Lemma nodup_put {A} (k : string) (v : A) (m : list (string * A)) :
  NoDup (map fst m) -> NoDup (map fst (Obj.put k v m)).
Proof.
  intros H. rewrite keys_put. destruct (Obj.lookup k m) eqn:L; [assumption|].
  apply NoDup_app; [assumption | repeat constructor; simpl; tauto |].
  intros x Hx [<-|[]]. revert Hx. now apply lookup_none_keys.
Qed.

Lemma total_put (k : string) (v : N) (m : list (string * N)) :
  (Cpus.total (Obj.put k v m) + Cpus.count_of k m = Cpus.total m + v)%N.
Proof.
  unfold Cpus.total, Cpus.count_of.
  induction m as [|[k0 v0] m IH]; simpl; [lia|].
  destruct (String.eqb k k0) eqn:E; simpl; lia.
Qed.

Lemma total_bump (k : string) (m : list (string * N)) :
  Cpus.total (Cpus.bump k m) = (Cpus.total m + 1)%N.
Proof.
  pose proof (total_put k (Cpus.count_of k m + 1)%N m) as H.
  rewrite bump_put. lia.
Qed.

Section Tally.
Lemma count_of_fold (ks : list string) (m : list (string * N)) (k : string) :
  Cpus.count_of k (fold_left (fun m0 k0 => Cpus.bump k0 m0) ks m)
  = (Cpus.count_of k m + N.of_nat (count_occ string_dec ks k))%N.
Proof.
  revert m. induction ks as [|k1 ks IH]; intros m.
  - simpl. lia.
  - cbn [fold_left count_occ]. rewrite IH.
    destruct (string_dec k1 k) as [->|N].
    + rewrite count_of_bump_same. lia.
    + unfold Cpus.count_of at 1.
      rewrite lookup_bump_other by (apply String.eqb_neq; congruence).
      fold (Cpus.count_of k m). lia.
Qed.

Lemma total_fold (ks : list string) (m : list (string * N)) :
  Cpus.total (fold_left (fun m0 k0 => Cpus.bump k0 m0) ks m) = (Cpus.total m + N.of_nat (List.length ks))%N.
Proof.
  revert m. induction ks as [|k1 ks IH]; intros m.
  - simpl. lia.
  - cbn [fold_left List.length]. rewrite IH, total_bump. lia.
Qed.

Lemma nodup_fold (ks : list string) (m : list (string * N)) :
  NoDup (map fst m) -> NoDup (map fst (fold_left (fun m0 k0 => Cpus.bump k0 m0) ks m)).
Proof.
  revert m. induction ks as [|k1 ks IH]; intros m H; [assumption|].
  cbn [fold_left]. apply IH. rewrite bump_put. now apply nodup_put.
Qed.

Lemma lookup_fold (ks : list string) (m : list (string * N)) (k : string) :
  Obj.lookup k (fold_left (fun m0 k0 => Cpus.bump k0 m0) ks m) <> None
  <-> Obj.lookup k m <> None \/ In k ks.
Proof.
  revert m. induction ks as [|k1 ks IH]; intros m; [simpl; tauto|].
  cbn [fold_left In]. rewrite IH.
  destruct (string_dec k1 k) as [->|N].
  - rewrite bump_put, lookup_put_same. split; [auto|]. intros _. left. discriminate.
  - rewrite lookup_bump_other by (apply String.eqb_neq; congruence). tauto.
Qed.
End Tally.

Lemma total_perm (l l' : list (string * N)) :
  Permutation l l' -> Cpus.total l = Cpus.total l'.
Proof.
  unfold Cpus.total. induction 1; simpl; lia.
Qed.

(** The grouping over the keys [ks]: its entries have distinct keys, the
    keys that occur in [ks], each with the number of its occurrences, and
    the counts add up to the length of [ks]. *)
Lemma tally_entries (ks : list string) :
  NoDup (map fst (Obj.entries (Cpus.tally ks)))
  /\ (forall k, In k (map fst (Obj.entries (Cpus.tally ks))) <-> In k ks)
  /\ (forall k n, In (k, n) (Obj.entries (Cpus.tally ks)) ->
                  n = N.of_nat (count_occ string_dec ks k))
  /\ Cpus.total (Obj.entries (Cpus.tally ks)) = N.of_nat (List.length ks).
Proof.
  unfold Cpus.tally.
  assert (ND : NoDup (map fst (fold_left (fun m k => Cpus.bump k m) ks [])))
    by (apply nodup_fold; constructor).
  refine (conj _ (conj _ (conj _ _))).
  - apply nodup_keys.
  - intros k. fold (Obj.keys (fold_left (fun m k0 => Cpus.bump k0 m) ks [])).
    rewrite in_keys, lookup_fold. simpl. split; [intros [H|H]; congruence || assumption | auto].
  - intros k n H. apply in_entries in H.
    pose proof (count_of_fold ks [] k) as C. unfold Cpus.count_of at 1 in C.
    rewrite H in C. now rewrite C.
  - rewrite (total_perm _ _ (perm_entries _)), (live_nodup _ ND), total_fold.
    reflexivity.
Qed.

(** ** C7: the CPU summary *)


(** The example of the spec: four CPUs, two of model [X] and two of model
    [Y], all at one speed. *)
Example cpu_summary_of_four :
  Cpus.model_summary (os_cpus Sample.machine) = "2 × X, 2 × Y"
  /\ Cpus.speed_summary (os_cpus Sample.machine) = "4 × 2400 MHz".
Proof.
  split; reflexivity.
Qed.
(** ** C9: a host without memory or CPUs *)

(** C9, as stated, fails: on a host that reports zero total memory (and
    zero free memory) the call returns a page, and the free-memory
    percentage in it is no fallback value such as [0] but [NaN], the
    result of dividing zero by zero at line 143. *)
Lemma zero_memory_shows_nan :
  os_totalmem Sample.bare_machine = S754_zero false
  /\ freemempercent
       (os_facts Sample.prettysize Sample.humanizeDuration Sample.bare_machine)
     = INaN
  /\ exists html,
       fst (Sample.run Sample.bare_machine VUndefined Sample.forwarded) = Ok html
       /\ contains "<tr><th>free memory</th><td>0 Bytes (NaN%)</td></tr>" html
       /\ ~ contains "(0%)" html.
Proof.
  split; [reflexivity|]. split; [reflexivity|].
  eexists. split; [reflexivity|]. split.
  - apply occurs_contains. vm_compute. reflexivity.
  - apply not_occurs_not_contains. vm_compute. reflexivity.
Qed.

Lemma of_Z_100 : of_Z 100 = S754_finite false 7036874417766400 (-46).
Proof.
  reflexivity.
Qed.

(** C9, amended.  Formatting the facts of a degenerate host does not
    throw, and it substitutes nothing:
    - with zero total memory the free-memory percentage is not a number of
      percent: it is [NaN] when free memory is zero (or [NaN]) as well, and
      an infinity otherwise, and is printed as [NaN], [Infinity] or
      [-Infinity];
    - with no CPU the model summary is empty and the speed summary is
      [" MHz"];
    - whether the call returns a page does not depend on these facts: it
      returns one whenever [Date()] shows a time zone offset and the
      request can be served. *)
Theorem degenerate_host_facts
        (prettysize humanizeDuration : number -> string) (h : host) :
  (forall sign,
      os_totalmem h = S754_zero sign ->
      freemempercent (os_facts prettysize humanizeDuration h)
      = match os_freemem h with
        | S754_finite s _ _ | S754_infinity s => IInf (xorb s sign)
        | S754_zero _ | S754_nan => INaN
        end
      /\ In (Number_toString (freemempercent (os_facts prettysize humanizeDuration h)))
            ["NaN"; "Infinity"; "-Infinity"])
  /\ (os_cpus h = [] ->
      cpus_model (os_facts prettysize humanizeDuration h) = EmptyString
      /\ cpus_speed (os_facts prettysize humanizeDuration h) = " MHz")
  /\ (forall options s offset,
        TzOffset.group1 (Date_now h) = Some offset ->
        After.servable (req s) = true ->
        exists html s',
          nodeinfo prettysize humanizeDuration h options s = (Ok html, s')).
Proof.
  refine (conj _ (conj _ _)).
  - intros sign Et. simpl freemempercent. unfold free_percent. rewrite Et, of_Z_100.
    assert (E : Math_round
                  (mul (div (os_freemem h) (S754_zero sign))
                     (S754_finite false 7036874417766400 (-46)))
                = match os_freemem h with
                  | S754_finite s _ _ | S754_infinity s => IInf (xorb s sign)
                  | S754_zero _ | S754_nan => INaN
                  end).
    { unfold mul, div.
      destruct (os_freemem h) as [s|s| |s m e]; cbn [SFdiv SFmul Math_round];
        try reflexivity; now destruct s, sign. }
    rewrite E. split; [reflexivity|].
    destruct (os_freemem h) as [s|s| |s m e]; simpl; auto;
      destruct (xorb s sign); simpl; auto.
  - intros Ec. simpl. now rewrite Ec.
  - intros options s offset Ho Hs. eexists. eexists.
    exact (nodeinfo_run _ _ _ _ _ offset Ho Hs).
Qed.

Lemma degenerate_host_facts_witness :
  os_totalmem Sample.bare_machine = S754_zero false
  /\ os_cpus Sample.bare_machine = []
  /\ freemempercent
       (os_facts Sample.prettysize Sample.humanizeDuration Sample.bare_machine)
     = INaN
  /\ cpus_speed
       (os_facts Sample.prettysize Sample.humanizeDuration Sample.bare_machine)
     = " MHz".
Proof.
  split; [reflexivity|]. split; [reflexivity|].
  destruct (degenerate_host_facts
              Sample.prettysize Sample.humanizeDuration Sample.bare_machine)
    as (Hm & Hc & _).
  split.
  - exact (proj1 (Hm false eq_refl)).
  - exact (proj2 (Hc eq_refl)).
Defined.

(** ** Binary64 arithmetic: the shape of rounded results *)

Section Binary64.
Local Open Scope Z_scope.

(** [SpecFloat] is written with the operations of [IntDef.Z]; the lemmas
    of the library are stated with the names of [BinInt.Z]. *)
Ltac zfold :=
  change IntDef.Z.sub with Z.sub in *;
  change IntDef.Z.add with Z.add in *;
  change IntDef.Z.mul with Z.mul in *;
  change IntDef.Z.max with Z.max in *;
  change IntDef.Z.min with Z.min in *;
  change IntDef.Z.leb with Z.leb in *;
  change IntDef.Z.div_eucl with Z.div_eucl in *;
  change IntDef.Z.shiftl with Z.shiftl in *;
  change IntDef.Z.even with Z.even in *.

Lemma digits2_pos_size (p : positive) : digits2_pos p = Pos.size p.
Proof.
  induction p as [p IH|p IH|]; simpl; now rewrite ?IH.
Qed.

Lemma Zdigits2_log2 (p : positive) : Zdigits2 (Z.pos p) = Z.log2 (Z.pos p) + 1.
Proof.
  simpl Zdigits2. rewrite digits2_pos_size.
  destruct p as [p|p|]; simpl; try reflexivity; lia.
Qed.

Lemma Zdigits2_nonneg (m : Z) : 0 <= Zdigits2 m.
Proof.
  destruct m; simpl; lia.
Qed.

(** A mantissa is below two to the number of its digits. *)
Lemma Zdigits2_gt (m : Z) : 0 <= m -> m < 2 ^ Zdigits2 m.
Proof.
  intros H. destruct m as [|p|p]; [simpl; lia | | lia].
  rewrite Zdigits2_log2.
  apply (Z.log2_spec (Z.pos p)). lia.
Qed.

Lemma Zdigits2_le_pos (p : positive) : 2 ^ (Zdigits2 (Z.pos p) - 1) <= Z.pos p.
Proof.
  rewrite Zdigits2_log2. replace (Z.log2 (Z.pos p) + 1 - 1) with (Z.log2 (Z.pos p)) by lia.
  apply (Z.log2_spec (Z.pos p)). lia.
Qed.

(** A number below [2^k] has at most [k] digits. *)
Lemma Zdigits2_le (m k : Z) : 0 <= m -> 0 <= k -> m < 2 ^ k -> Zdigits2 m <= k.
Proof.
  intros Hm Hk H. destruct m as [|p|p]; [simpl; lia | | lia].
  rewrite Zdigits2_log2.
  assert (Z.log2 (Z.pos p) < k); [|lia].
  apply Z.log2_lt_pow2; lia.
Qed.

Lemma shr_1_m (mrs : shr_record) :
  0 <= shr_m mrs -> shr_m (shr_1 mrs) = shr_m mrs / 2.
Proof.
  destruct mrs as [m r s]. simpl shr_m. intros H.
  destruct m as [|[p|p|]|p]; simpl; try reflexivity; try lia.
  - rewrite Pos2Z.inj_xI. symmetry.
    rewrite Z.add_comm, Z.mul_comm, Z.div_add by lia. reflexivity.
  - rewrite Pos2Z.inj_xO. symmetry.
    rewrite Z.mul_comm, Z.div_mul by lia. reflexivity.
Qed.

Lemma iter_shr_m (p : positive) (mrs : shr_record) :
  0 <= shr_m mrs ->
  shr_m (iter_pos shr_1 p mrs) = shr_m mrs / 2 ^ Z.pos p.
Proof.
  revert mrs. induction p as [p IH|p IH|]; intros mrs H.
  - simpl iter_pos.
    assert (H1 : 0 <= shr_m (shr_1 mrs))
      by (rewrite shr_1_m by assumption; apply Z.div_pos; lia).
    assert (H2 : 0 <= shr_m (iter_pos shr_1 p (shr_1 mrs)))
      by (rewrite IH by assumption; apply Z.div_pos; lia).
    rewrite IH, IH, shr_1_m by assumption.
    rewrite !Z.div_div by lia. f_equal.
    replace (Z.pos p~1) with (1 + Z.pos p + Z.pos p) by lia.
    rewrite !Z.pow_add_r by lia. lia.
  - simpl iter_pos.
    assert (H2 : 0 <= shr_m (iter_pos shr_1 p mrs))
      by (rewrite IH by assumption; apply Z.div_pos; lia).
    rewrite IH, IH by assumption.
    rewrite !Z.div_div by lia. f_equal.
    replace (Z.pos p~0) with (Z.pos p + Z.pos p) by lia.
    rewrite !Z.pow_add_r by lia. lia.
  - simpl iter_pos. now rewrite shr_1_m.
Qed.

Lemma shr_record_of_loc_m (m : Z) (l : location) : shr_m (shr_record_of_loc m l) = m.
Proof.
  destruct l as [|[]]; reflexivity.
Qed.

(** [shr_fexp]: the mantissa is divided by a power of two, and what is
    left has at most 53 digits; the exponent becomes the larger one of the
    exponent given and the exponent the format asks for. *)
Lemma shr_fexp_shape (m e : Z) (l : location) :
  0 <= m ->
  0 <= shr_m (fst (shr_fexp prec emax m e l))
  /\ shr_m (fst (shr_fexp prec emax m e l)) <= m
  /\ shr_m (fst (shr_fexp prec emax m e l)) < 2 ^ 53
  /\ snd (shr_fexp prec emax m e l) = Z.max e (fexp prec emax (Zdigits2 m + e)).
Proof.
  intros Hm. unfold shr_fexp, shr.
  pose proof (Zdigits2_gt m Hm) as Hd.
  pose proof (Zdigits2_nonneg m) as Hn.
  set (f := fexp prec emax (Zdigits2 m + e)).
  assert (Hf : Zdigits2 m + e - 53 <= f) by (unfold f, fexp, prec; lia).
  destruct (f - e) as [|p|p] eqn:E; simpl fst; simpl snd.
  - rewrite shr_record_of_loc_m. repeat split; try lia.
    assert (Zdigits2 m <= 53) by lia.
    apply Z.lt_le_trans with (1 := Hd). apply Z.pow_le_mono_r; lia.
  - rewrite iter_shr_m by (rewrite shr_record_of_loc_m; assumption).
    rewrite shr_record_of_loc_m.
    assert (Hp : 0 < 2 ^ Z.pos p) by (apply Z.pow_pos_nonneg; lia).
    repeat split; try lia.
    + apply Z.div_pos; lia.
    + apply Z.div_le_upper_bound; [lia|]. nia.
    + apply Z.div_lt_upper_bound; [lia|].
      apply Z.lt_le_trans with (1 := Hd).
      rewrite <- Z.pow_add_r by lia. apply Z.pow_le_mono_r; lia.
  - rewrite shr_record_of_loc_m. repeat split; try lia.
    assert (Zdigits2 m <= 53) by lia.
    apply Z.lt_le_trans with (1 := Hd). apply Z.pow_le_mono_r; lia.
Qed.

Lemma round_nearest_even_shape (m : Z) (l : location) :
  m <= round_nearest_even m l <= m + 1.
Proof.
  unfold round_nearest_even. destruct l as [|[]]; try lia.
  destruct (Z.even m); lia.
Qed.


Lemma iter_xO_digits (p k : positive) :
  Z.pos (digits2_pos (Pos.iter xO p k)) = Z.pos (digits2_pos p) + Z.pos k.
Proof.
  apply (Pos.iter_ind _ xO p
           (fun k r => Z.pos (digits2_pos r) = Z.pos (digits2_pos p) + Z.pos k)).
  - simpl. lia.
  - intros k' r IH. simpl digits2_pos. lia.
Qed.

(** Rounding a mantissa of 53 digits at an exponent of the format changes
    nothing. *)
Lemma binary_round_aux_exact (s : bool) (m : positive) (e : Z) :
  Z.pos (digits2_pos m) = 53 -> -1074 <= e <= 971 ->
  binary_round_aux prec emax s (Z.pos m) e loc_Exact = S754_finite s m e.
Proof.
  intros Hd He. unfold binary_round_aux, shr_fexp. zfold.
  simpl Zdigits2. rewrite Hd.
  assert (Ef : fexp prec emax (53 + e) - e = 0)
    by (unfold fexp, prec, emin, emax; lia).
  rewrite Ef.
  cbn [shr shr_record_of_loc shr_m loc_of_shr_record round_nearest_even Zdigits2].
  zfold. rewrite Hd, Ef.
  cbn [shr shr_record_of_loc shr_m].
  destruct (e <=? emax - prec) eqn:Ee; [reflexivity|].
  apply Z.leb_gt in Ee. unfold emax, prec in Ee. lia.
Qed.





End Binary64.

(** ** Numerals *)




(** ** C8: the free-memory percentage *)

(** In binary64 the quotient is rounded before it is multiplied: 575 bytes
    free of 1000 give 57.49999999999999 and so 57, not 58. *)
Example free_percent_of_575 :
  Number_toString (free_percent (of_Z 575) (of_Z 1000)) = "57".
Proof.
  reflexivity.
Qed.



(** ** Further properties *)


(** Every page starts with the doctype and ends with the closing [html]
    tag and a line feed. *)
Theorem page_is_a_document (c : context) :
  (exists rest, Template.render c = "<!doctype html>" ++ rest)
  /\ (exists body, Template.render c = body ++ "</html>" ++ nl).
Proof.
  split.
  - rewrite render_around_style. unfold Template.prologue.
    cbn [cat]. rewrite !append_assoc. eexists. reflexivity.
  - unfold Template.render, Template.epilogue. cbn [cat].
    rewrite append_nil_r.
    exists (Template.before_request c ++ Template.request_section c
            ++ "    </table>" ++ nl ++ "</main>" ++ nl ++ "</body>" ++ nl).
    now rewrite !append_assoc.
Qed.

(** The example of the spec: the load averages 1.0, 0.456 and 2.3. *)
Example load_averages_of_sample :
  loadavg (os_facts Sample.prettysize Sample.humanizeDuration Sample.machine)
  = "1.00 0.46 2.30".
Proof.
  reflexivity.
Qed.

(** ** The time zone offset (line 166) *)

Lemma after_capitals_split (s : string) :
  exists zone,
    s = zone ++ TzOffset.after_capitals s
    /\ (forall c, has_char c zone = true -> TzOffset.is_upper c = true)
    /\ match TzOffset.after_capitals s with
       | String c _ => TzOffset.is_upper c = false
       | EmptyString => True
       end.
Proof.
  induction s as [|c r (zone & E & U & N)].
  - exists EmptyString. repeat split. intros c H. discriminate H.
  - simpl TzOffset.after_capitals. destruct (TzOffset.is_upper c) eqn:Uc.
    + exists (String c zone). rewrite append_cons, <- E. repeat split; [|exact N].
      intros d. rewrite has_char_cons. intros H.
      apply orb_true_iff in H as [H|H]; [|now apply U].
      apply Ascii.eqb_eq in H. now subst d.
    + exists EmptyString. repeat split; [|exact Uc]. intros d H. discriminate H.
Qed.

Lemma line_split (s : string) : exists rest, s = TzOffset.line s ++ rest.
Proof.
  induction s as [|c r [rest E]].
  - now exists EmptyString.
  - simpl TzOffset.line.
    destruct (Nat.eqb (nat_of_ascii c) 10 || Nat.eqb (nat_of_ascii c) 13)%bool;
      [now exists (String c r)|].
    destruct (Nat.eqb (nat_of_ascii c) 226 && _)%bool; [now exists (String c r)|].
    exists rest. now rewrite append_cons, <- E.
Qed.

Lemma line_cons (c : ascii) (r : string) :
  (nat_of_ascii c <? 128)%nat = true ->
  Nat.eqb (nat_of_ascii c) 10 = false -> Nat.eqb (nat_of_ascii c) 13 = false ->
  TzOffset.line (String c r) = String c (TzOffset.line r).
Proof.
  intros H1 H2 H3. simpl TzOffset.line. rewrite H2, H3. simpl orb.
  assert (E : Nat.eqb (nat_of_ascii c) 226 = false).
  { apply Nat.eqb_neq. apply Nat.ltb_lt in H1. lia. }
  now rewrite E.
Qed.

Lemma line_cons_upper (c : ascii) (r : string) :
  TzOffset.is_upper c = true -> TzOffset.line (String c r) = String c (TzOffset.line r).
Proof.
  unfold TzOffset.is_upper. intros H. apply andb_true_iff in H as [H1 H2].
  apply Nat.leb_le in H1, H2.
  apply line_cons; [apply Nat.ltb_lt | apply Nat.eqb_neq | apply Nat.eqb_neq]; lia.
Qed.

Lemma line_cons_digit (c : ascii) (r : string) :
  TzOffset.is_digit c = true -> TzOffset.line (String c r) = String c (TzOffset.line r).
Proof.
  unfold TzOffset.is_digit. intros H. apply andb_true_iff in H as [H1 H2].
  apply Nat.leb_le in H1, H2.
  apply line_cons; [apply Nat.ltb_lt | apply Nat.eqb_neq | apply Nat.eqb_neq]; lia.
Qed.

Lemma line_cons_sign (c : ascii) (r : string) :
  TzOffset.is_sign c = true -> TzOffset.line (String c r) = String c (TzOffset.line r).
Proof.
  unfold TzOffset.is_sign. intros H.
  apply orb_true_iff in H as [H|H]; apply Ascii.eqb_eq in H; subst c; reflexivity.
Qed.

Lemma line_capitals (zone r : string) :
  (forall c, has_char c zone = true -> TzOffset.is_upper c = true) ->
  TzOffset.line (zone ++ r) = zone ++ TzOffset.line r.
Proof.
  induction zone as [|c z IH]; intros U; [reflexivity|].
  rewrite !append_cons, line_cons_upper.
  - rewrite IH; [reflexivity|]. intros d H. apply U. rewrite has_char_cons, H.
    apply orb_true_r.
  - apply U. rewrite has_char_cons, Ascii.eqb_refl. reflexivity.
Qed.

Lemma sign_not_upper (c : ascii) :
  TzOffset.is_sign c = true -> TzOffset.is_upper c = false.
Proof.
  unfold TzOffset.is_sign. intros H.
  apply orb_true_iff in H as [H|H]; apply Ascii.eqb_eq in H; subst c; reflexivity.
Qed.

Lemma line_no_terminator (s : string) :
  has_char (ascii_of_nat 10) (TzOffset.line s) = false
  /\ has_char (ascii_of_nat 13) (TzOffset.line s) = false.
Proof.
  induction s as [|c r [IH1 IH2]]; [split; reflexivity|].
  simpl TzOffset.line.
  destruct (Nat.eqb (nat_of_ascii c) 10) eqn:E1; [split; reflexivity|].
  destruct (Nat.eqb (nat_of_ascii c) 13) eqn:E2; [split; reflexivity|].
  simpl orb.
  destruct (Nat.eqb (nat_of_ascii c) 226 && _)%bool; [split; reflexivity|].
  rewrite !has_char_cons, IH1, IH2, !orb_false_r.
  split; apply Ascii.eqb_neq; intros <-;
    rewrite nat_ascii_embedding in *; try lia; discriminate.
Qed.

Lemma capitals_forallb (zone : string) :
  (forall c, has_char c zone = true -> TzOffset.is_upper c = true)
  <-> forallb TzOffset.is_upper (list_ascii_of_string zone) = true.
Proof.
  induction zone as [|x z IH]; simpl list_ascii_of_string; simpl forallb.
  - split; [reflexivity|]. intros _ c H. discriminate H.
  - rewrite andb_true_iff, <- IH. split.
    + intros U. split.
      * apply U. rewrite has_char_cons, Ascii.eqb_refl. reflexivity.
      * intros c H. apply U. rewrite has_char_cons, H. apply orb_true_r.
    + intros [Ux U] c H. rewrite has_char_cons in H.
      apply orb_true_iff in H as [H|H]; [|now apply U].
      apply Ascii.eqb_eq in H. now subst c.
Qed.

(** The shape of a match at the head of [s]. *)
Lemma matches_here_shape (s : string) :
  TzOffset.matches_here s = true ->
  exists zone sign d1 d2 d3 d4 rest,
    s = zone ++ String sign (String d1 (String d2 (String d3 (String d4 rest))))
    /\ zone <> EmptyString
    /\ (forall c, has_char c zone = true -> TzOffset.is_upper c = true)
    /\ TzOffset.is_sign sign = true
    /\ TzOffset.is_digit d1 = true /\ TzOffset.is_digit d2 = true
    /\ TzOffset.is_digit d3 = true /\ TzOffset.is_digit d4 = true.
Proof.
  intros H. destruct s as [|c r]; [discriminate H|].
  unfold TzOffset.matches_here in H. apply andb_true_iff in H as [Uc H].
  destruct (after_capitals_split (String c r)) as (zone & E & U & _).
  destruct (TzOffset.after_capitals (String c r)) as [|sg t] eqn:A; [discriminate H|].
  apply andb_true_iff in H as [Hs H].
  destruct t as [|d1 [|d2 [|d3 [|d4 rest]]]]; simpl in H;
    rewrite ?andb_false_r in H; try discriminate H.
  apply andb_true_iff in H as [D1 H]. apply andb_true_iff in H as [D2 H].
  apply andb_true_iff in H as [D3 H]. apply andb_true_iff in H as [D4 _].
  exists zone, sg, d1, d2, d3, d4, rest.
  refine (conj E (conj _ (conj U (conj Hs (conj D1 (conj D2 (conj D3 D4))))))).
  intros ->. rewrite append_nil_l in E. injection E as -> _.
  rewrite (sign_not_upper _ Hs) in Uc. discriminate Uc.
Qed.

Lemma group1_cons (c : ascii) (r : string) :
  TzOffset.group1 (String c r)
  = if TzOffset.matches_here (String c r)
    then Some (TzOffset.line (String c r)) else TzOffset.group1 r.
Proof.
  reflexivity.
Qed.

(** The offset line 166 extracts, when there is one: a part of the date
    that starts at the leftmost place where capitals, a sign and four
    digits follow each other, and runs to the end of that line. *)
Theorem tz_offset_shape (d m : string) :
  TzOffset.group1 d = Some m ->
  exists before after zone sign d1 d2 d3 d4 rest,
    d = before ++ m ++ after
    /\ m = zone ++ String sign (String d1 (String d2 (String d3 (String d4 rest))))
    /\ zone <> EmptyString
    /\ forallb TzOffset.is_upper (list_ascii_of_string zone) = true
    /\ TzOffset.is_sign sign = true
    /\ (TzOffset.is_digit d1 && TzOffset.is_digit d2
        && TzOffset.is_digit d3 && TzOffset.is_digit d4)%bool = true
    /\ m = TzOffset.line (m ++ after)
    /\ has_char (ascii_of_nat 10) m = false
    /\ has_char (ascii_of_nat 13) m = false
    /\ (forall a b, before = a ++ b -> b <> EmptyString ->
                    TzOffset.matches_here (b ++ m ++ after) = false).
Proof.
  revert m. induction d as [|c r IH]; intros m H.
  - discriminate H.
  - rewrite group1_cons in H.
    destruct (TzOffset.matches_here (String c r)) eqn:Hm.
    + assert (Em : m = TzOffset.line (String c r)) by congruence.
      clear H. subst m.
      destruct (matches_here_shape _ Hm)
        as (zone & sg & d1 & d2 & d3 & d4 & rest & E & Nz & U & Hs & D1 & D2 & D3 & D4).
      destruct (line_split (String c r)) as [after Ea].
      destruct (line_no_terminator (String c r)) as [L1 L2].
      exists EmptyString, after, zone, sg, d1, d2, d3, d4, (TzOffset.line rest).
      rewrite append_nil_l, <- Ea.
      refine (conj eq_refl (conj _ (conj Nz (conj (proj1 (capitals_forallb _) U)
                (conj Hs (conj _ (conj eq_refl (conj L1 (conj L2 _))))))))).
      * rewrite E at 1. rewrite line_capitals by exact U.
        rewrite line_cons_sign by exact Hs.
        now rewrite !line_cons_digit by assumption.
      * now rewrite D1, D2, D3, D4.
      * intros a b Eb Nb. destruct a; destruct b; try discriminate Eb.
        now contradiction Nb.
    + destruct (IH m H)
        as (before & after & zone & sg & d1 & d2 & d3 & d4 & rest
            & E & Em & Nz & U & Hs & D & El & L1 & L2 & Hleft).
      exists (String c before), after, zone, sg, d1, d2, d3, d4, rest.
      rewrite append_cons, <- E.
      refine (conj eq_refl (conj Em (conj Nz (conj U (conj Hs (conj D
                (conj El (conj L1 (conj L2 _))))))))).
      intros a b Eb Nb. destruct a as [|x a].
      * rewrite append_nil_l in Eb. subst b. rewrite append_cons, <- E. exact Hm.
      * rewrite append_cons in Eb. injection Eb as _ Eb. now apply Hleft with a.
Qed.

Lemma tz_offset_shape_witness :
  TzOffset.group1 (Date_now Sample.machine) = Some "GMT+0000 (Greenwich Mean Time)"
  /\ exists before after zone sign d1 d2 d3 d4 rest,
       Date_now Sample.machine = before ++ "GMT+0000 (Greenwich Mean Time)" ++ after
       /\ "GMT+0000 (Greenwich Mean Time)"
          = zone ++ String sign (String d1 (String d2 (String d3 (String d4 rest))))
       /\ zone <> EmptyString.
Proof.
  split; [reflexivity|].
  destruct (tz_offset_shape (Date_now Sample.machine)
              "GMT+0000 (Greenwich Mean Time)" eq_refl)
    as (before & after & zone & sg & d1 & d2 & d3 & d4 & rest & E & Em & Nz & _).
  exists before, after, zone, sg, d1, d2, d3, d4, rest.
  exact (conj E (conj Em Nz)).
Defined.

(** Four digits are read the same whatever follows a text that ends with
    a space. *)
Lemma digits_at_before_space (n : nat) (r z : string) :
  TzOffset.digits_at n ((r ++ " ") ++ z) = TzOffset.digits_at n (r ++ " ").
Proof.
  revert r. induction n as [|n IH]; intros r; [reflexivity|].
  destruct r as [|c r].
  - reflexivity.
  - rewrite !append_cons. simpl TzOffset.digits_at. now rewrite IH.
Qed.

Lemma after_capitals_before_space (r z : string) :
  TzOffset.after_capitals ((r ++ " ") ++ z) = TzOffset.after_capitals (r ++ " ") ++ z
  /\ exists t, TzOffset.after_capitals (r ++ " ") = t ++ " ".
Proof.
  induction r as [|c r [IH1 [t IH2]]].
  - split; [reflexivity|]. now exists EmptyString.
  - rewrite !append_cons. simpl TzOffset.after_capitals.
    destruct (TzOffset.is_upper c).
    + split; [exact IH1|]. now exists t.
    + split; [now rewrite !append_cons|]. exists (String c r). now rewrite append_cons.
Qed.

(** A match that starts in a text ending with a space lies in that text. *)
Lemma matches_here_before_space (r z : string) :
  TzOffset.matches_here ((r ++ " ") ++ z) = TzOffset.matches_here (r ++ " ").
Proof.
  destruct r as [|c r]; [reflexivity|].
  unfold TzOffset.matches_here. rewrite !append_cons. f_equal.
  rewrite <- !append_cons.
  destruct (after_capitals_before_space (String c r) z) as [E [t Et]].
  rewrite E, Et. destruct t as [|sg t].
  - reflexivity.
  - rewrite !append_cons. f_equal. apply digits_at_before_space.
Qed.

Lemma group1_before_space (r z : string) :
  TzOffset.group1 (r ++ " ") = None ->
  TzOffset.group1 ((r ++ " ") ++ z) = TzOffset.group1 z.
Proof.
  induction r as [|c r IH]; intros H.
  - rewrite append_nil_l, append_cons, append_nil_l, group1_cons. reflexivity.
  - rewrite append_cons in H. rewrite group1_cons in H.
    rewrite !append_cons, group1_cons, <- !append_cons.
    rewrite <- append_cons in H.
    rewrite matches_here_before_space.
    destruct (TzOffset.matches_here (String c r ++ " ")); [discriminate H|].
    now apply IH.
Qed.

(** A date of the shape V8 prints -- the day and the time, a space, the
    zone abbreviation in capitals, a sign, four digits, and the rest --
    gives the text from the abbreviation to the end of the line, when the
    day and the time hold no such group themselves. *)
Theorem tz_offset_of_date (daytime zone rest : string) (sign d1 d2 d3 d4 : ascii) :
  TzOffset.group1 (daytime ++ " ") = None ->
  zone <> EmptyString ->
  forallb TzOffset.is_upper (list_ascii_of_string zone) = true ->
  TzOffset.is_sign sign = true ->
  (TzOffset.is_digit d1 && TzOffset.is_digit d2
   && TzOffset.is_digit d3 && TzOffset.is_digit d4)%bool = true ->
  TzOffset.group1
    (daytime ++ " " ++ zone
     ++ String sign (String d1 (String d2 (String d3 (String d4 rest)))))
  = Some (zone ++ String sign (String d1 (String d2 (String d3
            (String d4 (TzOffset.line rest)))))).
Proof.
  intros Hd Nz U0 Hs D. pose proof (proj2 (capitals_forallb zone) U0) as U.
  apply andb_true_iff in D as [D D4]. apply andb_true_iff in D as [D D3].
  apply andb_true_iff in D as [D1 D2].
  rewrite <- append_assoc, group1_before_space by exact Hd.
  destruct zone as [|c z]; [now contradiction Nz|].
  rewrite append_cons, group1_cons.
  assert (Uc : TzOffset.is_upper c = true)
    by (apply U; rewrite has_char_cons, Ascii.eqb_refl; reflexivity).
  assert (Hm : TzOffset.matches_here
                 (String c (z ++ String sign
                    (String d1 (String d2 (String d3 (String d4 rest)))))) = true).
  { unfold TzOffset.matches_here. rewrite Uc, andb_true_l.
    assert (A : forall z', (forall x, has_char x z' = true -> TzOffset.is_upper x = true) ->
                TzOffset.after_capitals
                  (z' ++ String sign (String d1 (String d2 (String d3 (String d4 rest)))))
                = String sign (String d1 (String d2 (String d3 (String d4 rest))))).
    { induction z' as [|x z' IH]; intros U'.
      - rewrite append_nil_l. simpl TzOffset.after_capitals.
        now rewrite (sign_not_upper _ Hs).
      - rewrite append_cons. simpl TzOffset.after_capitals.
        rewrite (U' x) by (rewrite has_char_cons, Ascii.eqb_refl; reflexivity).
        apply IH. intros y Hy. apply U'. rewrite has_char_cons, Hy. apply orb_true_r. }
    rewrite <- append_cons, (A (String c z) U).
    simpl TzOffset.digits_at. now rewrite Hs, D1, D2, D3, D4. }
  rewrite Hm. f_equal.
  rewrite <- append_cons, line_capitals by exact U.
  rewrite line_cons_sign by exact Hs.
  now rewrite !line_cons_digit by assumption.
Qed.

Lemma tz_offset_of_date_witness :
  Date_now Sample.machine
  = "Mon Nov 02 2020 11:56:00" ++ " " ++ "GMT" ++ "+0000 (Greenwich Mean Time)"
  /\ TzOffset.group1 (Date_now Sample.machine)
     = Some "GMT+0000 (Greenwich Mean Time)".
Proof.
  split; [reflexivity|].
  exact (tz_offset_of_date "Mon Nov 02 2020 11:56:00" "GMT" " (Greenwich Mean Time)"
           "+" "0" "0" "0" "0" eq_refl ltac:(discriminate) eq_refl eq_refl eq_refl).
Defined.

(** ** The order of the CPU groups (lines 152-153) *)

Lemma decimal_not_empty (n : N) : decimal n <> EmptyString.
Proof.
  unfold decimal. intros E.
  apply (f_equal NilEmpty.uint_of_string) in E. rewrite NilEmpty.usu in E.
  simpl in E. injection E as E.
  pose proof (f_equal N.of_uint E) as E0. rewrite DecimalN.Unsigned.of_to in E0.
  simpl in E0. subst n. discriminate E.
Qed.

Lemma parse_decimal_decimal (n : N) : parse_decimal (decimal n) = Some n.
Proof.
  unfold parse_decimal. pose proof (decimal_not_empty n) as Hn.
  destruct (decimal n) as [|c r] eqn:E; [now contradiction Hn|].
  rewrite <- E. unfold decimal. rewrite NilEmpty.usu. simpl.
  now rewrite DecimalN.Unsigned.of_to.
Qed.

Lemma array_index_decimal (n : N) :
  (n < 4294967295)%N -> Obj.array_index (decimal n) = Some n.
Proof.
  intros H. unfold Obj.array_index. rewrite parse_decimal_decimal, String.eqb_refl.
  apply N.ltb_lt in H. now rewrite H.
Qed.

Lemma array_index_some (k : string) (i : N) :
  Obj.array_index k = Some i -> k = decimal i /\ (i < 4294967295)%N.
Proof.
  unfold Obj.array_index. destruct (parse_decimal k) as [n|]; [|discriminate].
  destruct (String.eqb (decimal n) k) eqn:E; [|discriminate].
  destruct (N.ltb_spec n 4294967295); [|discriminate].
  simpl. intros [= <-]. apply String.eqb_eq in E. now split.
Qed.

Section Order.
Context {A : Type}.
Implicit Types (p : list (string * A)) (l : list (N * (string * A))).

Lemma in_insert_index i (e : string * A) l x :
  In x (Obj.insert_index i e l) <-> x = (i, e) \/ In x l.
Proof.
  induction l as [|[j e'] l IH]; simpl.
  - intuition congruence.
  - destruct (i <=? j)%N; simpl; [intuition congruence|].
    rewrite IH. intuition congruence.
Qed.

Lemma in_index_part p i (e : string * A) :
  In (i, e) (Obj.index_part p) <-> In e p /\ Obj.array_index (fst e) = Some i.
Proof.
  induction p as [|[k v] p IH]; simpl; [tauto|].
  destruct (Obj.array_index k) as [j|] eqn:E.
  - rewrite in_insert_index, IH. split.
    + intros [[= -> ->]|[H1 H2]]; [now split; [left|] | now split; [right|]].
    + intros [[<-|H1] H2]; simpl in H2.
      * left. congruence.
      * right. now split.
  - rewrite IH. split.
    + intros [H1 H2]. now split; [right|].
    + intros [[<-|H1] H2]; simpl in H2; [congruence | now split].
Qed.

Lemma sorted_insert_index i (e : string * A) l :
  StronglySorted N.lt (map fst l) -> ~ In i (map fst l) ->
  StronglySorted N.lt (map fst (Obj.insert_index i e l)).
Proof.
  induction l as [|[j e'] l IH]; simpl; intros S Ni.
  - repeat constructor.
  - apply StronglySorted_inv in S as [S F].
    destruct (N.leb_spec i j) as [L|L]; simpl.
    + assert (Hij : (i < j)%N) by (destruct (N.eq_dec i j) as [->|]; [exfalso; apply Ni; now left | lia]).
      constructor; [now constructor|].
      constructor; [assumption|].
      eapply Forall_impl; [|exact F]. simpl. intros a Ha. lia.
    + constructor; [apply IH; tauto|].
      apply Forall_forall. intros x Hx. apply in_map_iff in Hx as ([x1 x2] & <- & Hx).
      apply in_insert_index in Hx as [[= -> ->]|Hx]; simpl; [assumption|].
      rewrite Forall_forall in F. apply F. apply in_map_iff. now exists (x1, x2).
Qed.

Lemma sorted_index_part p :
  NoDup (map fst p) -> StronglySorted N.lt (map fst (Obj.index_part p)).
Proof.
  induction p as [|[k v] p IH]; simpl; intros ND; [constructor|].
  apply NoDup_cons_iff in ND as [Nk ND].
  destruct (Obj.array_index k) as [i|] eqn:E; [|now apply IH].
  apply sorted_insert_index; [now apply IH|].
  intros Hi. apply in_map_iff in Hi as ([j [k' v']] & Ej & Hi). simpl in Ej. subst j.
  apply in_index_part in Hi as [Hp Hk]. simpl in Hk.
  apply array_index_some in E as [-> _]. apply array_index_some in Hk as [-> _].
  apply Nk. apply in_map_iff. now exists (decimal i, v').
Qed.

Lemma index_part_keys p :
  map (fun x => fst (snd x)) (Obj.index_part p) = map decimal (map fst (Obj.index_part p)).
Proof.
  rewrite map_map. apply map_ext_in. intros [i [k v]] H.
  apply in_index_part in H as [_ H]. simpl in *.
  now apply array_index_some in H as [-> _].
Qed.

Lemma name_part_none p :
  (forall k v, In (k, v) p -> Obj.array_index k <> None) -> Obj.name_part p = [].
Proof.
  induction p as [|[k v] p IH]; simpl; intros H; [reflexivity|].
  destruct (Obj.array_index k) eqn:E.
  - apply IH. intros k' v' H'. apply (H k' v'). now right.
  - exfalso. apply (H k v); [now left | exact E].
Qed.

End Order.

(** Two increasing lists with the same members are the same list. *)
Lemma sorted_unique (l l' : list N) :
  StronglySorted N.lt l -> StronglySorted N.lt l' ->
  (forall v, In v l <-> In v l') -> l = l'.
Proof.
  revert l'. induction l as [|a l IH]; intros l' S S' H.
  - destruct l' as [|b l']; [reflexivity|]. exfalso. apply (H b). now left.
  - destruct l' as [|b l']; [exfalso; apply (H a); now left|].
    apply StronglySorted_inv in S as [S F]. apply StronglySorted_inv in S' as [S' F'].
    rewrite Forall_forall in F, F'.
    assert (a = b).
    { destruct (proj1 (H a) (or_introl eq_refl)) as [E|Ha]; [now symmetry|].
      destruct (proj2 (H b) (or_introl eq_refl)) as [E|Hb]; [assumption|].
      specialize (F _ Hb). specialize (F' _ Ha). lia. }
    subst b. f_equal. apply IH; try assumption.
    intros v. split; intros Hv.
    + destruct (proj1 (H v) (or_intror Hv)) as [E|Hv']; [|assumption].
      subst v. specialize (F _ Hv). lia.
    + destruct (proj2 (H v) (or_intror Hv)) as [E|Hv']; [|assumption].
      subst v. specialize (F' _ Hv). lia.
Qed.

(** The entries of a grouping are its keys with their counts. *)
Lemma tally_entries_map (ks : list string) :
  Obj.entries (Cpus.tally ks)
  = map (fun k => (k, N.of_nat (count_occ string_dec ks k)))
        (map fst (Obj.entries (Cpus.tally ks))).
Proof.
  destruct (tally_entries ks) as (_ & _ & H & _).
  rewrite map_map. rewrite <- (map_id (Obj.entries (Cpus.tally ks))) at 1.
  apply map_ext_in. intros [k n] Hk. simpl. now rewrite (H k n Hk).
Qed.

Lemma tally_nodup (ks : list string) : NoDup (map fst (Cpus.tally ks)).
Proof.
  unfold Cpus.tally. apply nodup_fold. constructor.
Qed.

Lemma tally_keys (ks : list string) (k : string) (n : N) :
  In (k, n) (Cpus.tally ks) -> In k ks.
Proof.
  intros H. destruct (tally_entries ks) as (_ & Hk & _). apply Hk.
  apply in_map_iff. exists (k, n). split; [reflexivity|].
  apply in_entries. apply in_live. now rewrite live_nodup by apply tally_nodup.
Qed.

(** The speed groups: in increasing order of the speed. *)
Lemma speed_entries_sorted (cs : list cpu) :
  (forall c, In c cs -> (speed c < 4294967295)%N) ->
  exists vs,
    StronglySorted N.lt vs
    /\ (forall v, In v vs <-> In v (map speed cs))
    /\ Obj.entries (snd (Cpus.count cs))
       = map (fun v => (decimal v, N.of_nat (count_occ N.eq_dec (map speed cs) v))) vs.
Proof.
  intros Hs. rewrite count_tally. cbn [snd].
  set (ks := map (fun c => decimal (speed c)) cs).
  assert (Hidx : forall k v, In (k, v) (Cpus.tally ks) -> Obj.array_index k <> None).
  { intros k v H. apply tally_keys in H. apply in_map_iff in H as (c & <- & Hc).
    rewrite array_index_decimal by now apply Hs. discriminate. }
  exists (map fst (Obj.index_part (Cpus.tally ks))).
  assert (Ekeys : map fst (Obj.entries (Cpus.tally ks))
                  = map decimal (map fst (Obj.index_part (Cpus.tally ks)))).
  { unfold Obj.entries. rewrite live_nodup by apply tally_nodup.
    rewrite (name_part_none _ Hidx), app_nil_r, map_map. apply index_part_keys. }
  refine (conj _ (conj _ _)).
  - apply sorted_index_part, tally_nodup.
  - intros v. destruct (tally_entries ks) as (_ & Hk & _).
    split.
    + intros Hv. apply (in_map decimal) in Hv. rewrite <- Ekeys in Hv.
      apply Hk in Hv. apply in_map_iff in Hv as (c & E & Hc).
      apply decimal_inj in E. subst v. now apply in_map.
    + intros Hv. apply in_map_iff in Hv as (c & <- & Hc).
      assert (Hin : In (decimal (speed c)) (map fst (Obj.entries (Cpus.tally ks)))).
      { apply Hk. apply in_map_iff. now exists c. }
      rewrite Ekeys in Hin. apply in_map_iff in Hin as (v & E & Hv).
      apply decimal_inj in E. now subst v.
  - rewrite tally_entries_map, Ekeys, map_map. apply map_ext. intros v.
    f_equal. f_equal. unfold ks. rewrite <- (map_map speed decimal).
    symmetry. apply count_occ_map. exact decimal_inj.
Qed.

(** The speed summary lists the speeds in increasing order whatever the
    order of the CPUs, each with the number of CPUs that run at it; so it
    is the same for every order of the same CPUs.  (Speeds are property
    keys that are array indices, which JavaScript enumerates in numeric
    order.) *)
Theorem cpu_speeds_ascending (cs : list cpu) :
  (forall c, In c cs -> (speed c < 4294967295)%N) ->
  (exists vs,
      StronglySorted N.lt vs
      /\ (forall v, In v vs <-> In v (map speed cs))
      /\ Cpus.speed_summary cs
         = join ", "
             (map (fun v => decimal (N.of_nat (count_occ N.eq_dec (map speed cs) v))
                            ++ " × " ++ decimal v) vs)
           ++ " MHz")
  /\ forall cs', Permutation cs cs' -> Cpus.speed_summary cs' = Cpus.speed_summary cs.
Proof.
  intros Hs. split.
  - destruct (speed_entries_sorted cs Hs) as (vs & S & M & E).
    exists vs. refine (conj S (conj M _)).
    unfold Cpus.speed_summary, Cpus.entries. rewrite E, map_map. reflexivity.
  - intros cs' P.
    assert (Hs' : forall c, In c cs' -> (speed c < 4294967295)%N).
    { intros c Hc. apply Hs. now apply (Permutation_in _ (Permutation_sym P)). }
    destruct (speed_entries_sorted cs Hs) as (vs & S & M & E).
    destruct (speed_entries_sorted cs' Hs') as (vs' & S' & M' & E').
    assert (vs' = vs).
    { apply sorted_unique; try assumption. intros v. rewrite M, M'.
      split; apply Permutation_in; [apply Permutation_sym|];
        now apply Permutation_map. }
    subst vs'. unfold Cpus.speed_summary, Cpus.entries. rewrite E, E'.
    do 3 f_equal. apply map_ext. intros v. do 2 f_equal.
    apply Permutation_count_occ. now apply Permutation_map, Permutation_sym.
Qed.

Lemma cpu_speeds_ascending_witness :
  Cpus.speed_summary
    [ {| model := "X"; speed := 3000 |}; {| model := "Y"; speed := 2400 |};
      {| model := "Z"; speed := 800 |}; {| model := "X"; speed := 3000 |} ]
  = "1 × 800, 1 × 2400, 2 × 3000 MHz"
  /\ Cpus.speed_summary
       [ {| model := "X"; speed := 3000 |}; {| model := "X"; speed := 3000 |};
         {| model := "Z"; speed := 800 |}; {| model := "Y"; speed := 2400 |} ]
     = Cpus.speed_summary
         [ {| model := "X"; speed := 3000 |}; {| model := "Y"; speed := 2400 |};
           {| model := "Z"; speed := 800 |}; {| model := "X"; speed := 3000 |} ].
Proof.
  split; [reflexivity|].
  refine (proj2 (cpu_speeds_ascending
                   [ {| model := "X"; speed := 3000 |}; {| model := "Y"; speed := 2400 |};
                     {| model := "Z"; speed := 800 |}; {| model := "X"; speed := 3000 |} ]
                   _) _ _).
  - intros c [<-|[<-|[<-|[<-|[]]]]]; reflexivity.
  - apply perm_skip. apply Permutation_sym.
    apply (Permutation_cons_app [ {| model := "Y"; speed := 2400 |};
                                  {| model := "Z"; speed := 800 |} ] []).
    simpl. apply perm_swap.
Defined.




(** ** What the page shows of the host and the process *)

Lemma contains_before_request (t s : string) (c : context) :
  In s [Template.prologue; Template.style_line c; Template.body_open c;
        Template.package_section c; Template.os_section c;
        Template.versions_section c; Template.env_section c] ->
  contains t s -> contains t (Template.render c).
Proof.
  intros Hin H. unfold Template.render. apply contains_append_l.
  unfold Template.before_request. now apply (contains_cat _ s).
Qed.

Ltac in_list := simpl; repeat first [left; reflexivity | right].

Lemma contains_os_section (t : string) (c : context) :
  contains t (Template.os_section c) -> contains t (Template.render c).
Proof.
  apply contains_before_request. in_list.
Qed.

Lemma process_props_field (prettysize : number -> string) (h : host)
      (p : list (string * value)) :
  field (VObj (After.process_props prettysize h p)) "rss"
  = VStr (prettysize (memoryUsage_rss h))
  /\ field (VObj (After.process_props prettysize h p)) "heapTotal"
     = VStr (prettysize (memoryUsage_heapTotal h))
  /\ field (VObj (After.process_props prettysize h p)) "heapUsed"
     = VStr (prettysize (memoryUsage_heapUsed h))
  /\ forall k, k <> "rss" -> k <> "heapTotal" -> k <> "heapUsed" ->
               field (VObj (After.process_props prettysize h p)) k = field (VObj p) k.
Proof.
  unfold After.process_props. repeat split.
  - now fields_past_puts.
  - now fields_past_puts.
  - now fields_past_puts.
  - intros k N1 N2 N3.
    now rewrite !field_put_other by (now apply String.eqb_neq).
Qed.

(** Every page [nodeinfo] returns shows the version of Node in its title
    line and has one row for each fact of the host and the process, with
    the value escaped: the four names of the system, the two CPU
    summaries, the uptime as [humanizeDuration] prints it from
    milliseconds, the load averages with two decimals joined by spaces,
    the two memory sizes as [prettysize] prints them with the free
    percentage, the three sizes of the process, the zone name and the
    offset found in [Date()]. *)
Theorem page_shows_host_facts
        (prettysize humanizeDuration : number -> string)
        (h : host) (options : value) (s s' : store) (html : string) :
  nodeinfo prettysize humanizeDuration h options s = (Ok html, s') ->
  exists offset,
    TzOffset.group1 (Date_now h) = Some offset
    /\ contains ("    <h1>Node.js "
                 ++ Hb.escapeExpression (field (VObj (proc s)) "version")
                 ++ "</h1>" ++ nl) html
    /\ Forall (fun r => contains r html)
         [ Template.row "hostname" (Hb.escape (os_hostname h));
           Template.row "type" (Hb.escape (os_type h));
           Template.row "platform" (Hb.escape (os_platform h));
           Template.row "release" (Hb.escape (os_release h));
           Template.row "cpu models" (Hb.escape (Cpus.model_summary (os_cpus h)));
           Template.row "cpu speeds" (Hb.escape (Cpus.speed_summary (os_cpus h)));
           Template.row "uptime"
             (Hb.escape (humanizeDuration (mul (os_uptime h) (of_Z 1000))));
           Template.row "load avg"
             (Hb.escape (join " " (map toFixed2 (os_loadavg h))));
           Template.row "total memory" (Hb.escape (prettysize (os_totalmem h)));
           Template.row "free memory"
             (Hb.escape (prettysize (os_freemem h)) ++ " ("
              ++ Hb.escape
                   (Number_toString (free_percent (os_freemem h) (os_totalmem h)))
              ++ "%)");
           Template.row "resident set size"
             (Hb.escape (prettysize (memoryUsage_rss h)));
           Template.row "v8 heap total"
             (Hb.escape (prettysize (memoryUsage_heapTotal h)));
           Template.row "v8 heap used"
             (Hb.escape (prettysize (memoryUsage_heapUsed h)));
           Template.row "timezone" (Hb.escape (timeZone h));
           Template.row "offset" (Hb.escape offset) ].
Proof.
  intros H. apply nodeinfo_ok in H as (offset & Ho & _ & _ & ->).
  exists offset. split; [exact Ho|].
  set (c := After.page_context prettysize humanizeDuration h options offset s).
  destruct (process_props_field prettysize h (proc s)) as (P1 & P2 & P3 & P4).
  split.
  - apply (contains_before_request _ (Template.body_open c)); [in_list|].
    unfold Template.body_open.
    apply (contains_cat _ ("    <h1>Node.js "
                           ++ Hb.escapeExpression (Hb.prop (process c) "version")
                           ++ "</h1>" ++ nl)); [in_list|].
    subst c. simpl process. rewrite prop_field_object, P4 by discriminate.
    apply contains_refl.
  - assert (R : forall r, In r [
        Template.row "hostname" (Hb.escape (hostname (os c)));
        Template.row "type" (Hb.escape (type (os c)));
        Template.row "platform" (Hb.escape (platform (os c)));
        Template.row "release" (Hb.escape (release (os c)));
        Template.row "cpu models" (Hb.escape (cpus_model (os c)));
        Template.row "cpu speeds" (Hb.escape (cpus_speed (os c)));
        Template.row "uptime" (Hb.escape (uptime (os c)));
        Template.row "load avg" (Hb.escape (loadavg (os c)));
        Template.row "total memory" (Hb.escape (totalmem (os c)));
        Template.row "free memory"
          (Hb.escape (freemem (os c)) ++ " ("
           ++ Hb.escape (Number_toString (freemempercent (os c))) ++ "%)");
        Template.row "resident set size" (Hb.escapeExpression (Hb.prop (process c) "rss"));
        Template.row "v8 heap total" (Hb.escapeExpression (Hb.prop (process c) "heapTotal"));
        Template.row "v8 heap used" (Hb.escapeExpression (Hb.prop (process c) "heapUsed"));
        Template.row "timezone" (Hb.escape (intlTimezone c));
        Template.row "offset" (Hb.escape (dateTzOffset c)) ] ->
        contains r (Template.render c)).
    { intros r Hr. apply contains_os_section. unfold Template.os_section.
      cbv zeta. apply (contains_cat _ r); [|apply contains_refl].
      simpl in Hr. simpl.
      repeat (destruct Hr as [Hr|Hr]; [rewrite <- Hr; in_list|]). contradiction. }
    subst c. simpl process in R. simpl os in R. simpl intlTimezone in R.
    simpl dateTzOffset in R.
    rewrite !prop_field_object, P1, P2, P3 in R.
    apply Forall_forall. exact R.
Qed.

Lemma page_shows_host_facts_witness :
  contains (Template.row "load avg" "1.00 0.46 2.30")
    (Template.render
       (After.page_context Sample.prettysize Sample.humanizeDuration Sample.machine
          VUndefined "GMT+0000 (Greenwich Mean Time)"
          {| req := Sample.forwarded; proc := Sample.node_process |}))
  /\ contains (Template.row "free memory" "250 Bytes (25%)")
       (Template.render
          (After.page_context Sample.prettysize Sample.humanizeDuration Sample.machine
             VUndefined "GMT+0000 (Greenwich Mean Time)"
             {| req := Sample.forwarded; proc := Sample.node_process |})).
Proof.
  destruct (page_shows_host_facts Sample.prettysize Sample.humanizeDuration
              Sample.machine VUndefined
              {| req := Sample.forwarded; proc := Sample.node_process |} _ _
              (nodeinfo_run Sample.prettysize Sample.humanizeDuration
                 Sample.machine VUndefined
                 {| req := Sample.forwarded; proc := Sample.node_process |}
                 "GMT+0000 (Greenwich Mean Time)" eq_refl eq_refl))
    as (offset & _ & _ & F).
  rewrite Forall_forall in F.
  split; apply F; [do 7 right | do 9 right]; left; vm_compute; reflexivity.
Defined.


(** Lines 74-82.  The versions of Node and its components: the page has
    the heading, then one row for each own property of [process.versions]
    in enumeration order, the name and the value escaped.  When
    [process.env.NODE_ENV] is truthy a spacer row and its row follow. *)
Theorem page_shows_versions
        (prettysize humanizeDuration : number -> string)
        (h : host) (options : value) (s s' : store) (html : string) :
  nodeinfo prettysize humanizeDuration h options s = (Ok html, s') ->
  (forall vs,
      field (VObj (proc s)) "versions" = VObj vs ->
      contains
        (Template.heading "h2" "Node versions"
         ++ cat (map (fun e => Template.row (Hb.escape (fst e))
                                 (Hb.escapeExpression (snd e)))
                     (Obj.entries vs))
         ++ nl)
        html
      /\ forall k v,
           Obj.lookup k vs = Some v ->
           contains (Template.row (Hb.escape k) (Hb.escapeExpression v)) html)
  /\ (truthy (field (field (VObj (proc s)) "env") "NODE_ENV") = true ->
      contains
        (Template.indent ++ "<tr><th colspan=" ++ q "2" ++ ">&nbsp;</th></tr>" ++ nl
         ++ Template.row "NODE_ENV"
              (Hb.escapeExpression (field (field (VObj (proc s)) "env") "NODE_ENV")))
        html).
Proof.
  intros H. apply nodeinfo_ok in H as (offset & _ & _ & _ & ->).
  set (c := After.page_context prettysize humanizeDuration h options offset s).
  destruct (process_props_field prettysize h (proc s)) as (_ & _ & _ & P4).
  split.
  - intros vs Ev.
    assert (S : Template.versions_section c
                = Template.heading "h2" "Node versions"
                  ++ cat (map (fun e => Template.row (Hb.escape (fst e))
                                          (Hb.escapeExpression (snd e)))
                              (Obj.entries vs))
                  ++ nl).
    { unfold Template.versions_section. subst c. simpl process.
      rewrite prop_field_object, P4, Ev by discriminate.
      cbn [cat Hb.each]. now rewrite append_nil_r. }
    split.
    + apply (contains_before_request _ (Template.versions_section c)); [in_list|].
      rewrite S. apply contains_refl.
    + intros k v L.
      apply (contains_before_request _ (Template.versions_section c)); [in_list|].
      rewrite S. apply contains_append_r, contains_append_l.
      apply (contains_cat _ (Template.row (Hb.escape k) (Hb.escapeExpression v)));
        [|apply contains_refl].
      apply in_map_iff. exists (k, v). split; [reflexivity|]. now apply in_entries.
  - intros T.
    apply (contains_before_request _ (Template.env_section c)); [in_list|].
    unfold Template.env_section. cbv zeta. subst c. simpl process.
    rewrite prop_field_object, P4 by discriminate.
    destruct (truthy_field_object _ _ T) as [ev Eev]. rewrite Eev in *.
    rewrite prop_field_object. unfold Hb.if_. rewrite T.
    cbn [cat]. rewrite !append_nil_r.
    exists EmptyString, nl. now rewrite append_nil_l, !append_assoc.
Qed.

Lemma page_shows_versions_witness :
  contains (Template.row "node" "12.18.0" ++ Template.row "v8" "7.8.279.23")
    (Template.render
       (After.page_context Sample.prettysize Sample.humanizeDuration Sample.machine
          VUndefined "GMT+0000 (Greenwich Mean Time)"
          {| req := Sample.forwarded; proc := Sample.node_process |})).
Proof.
  destruct (page_shows_versions Sample.prettysize Sample.humanizeDuration
              Sample.machine VUndefined
              {| req := Sample.forwarded; proc := Sample.node_process |} _ _
              (nodeinfo_run Sample.prettysize Sample.humanizeDuration
                 Sample.machine VUndefined
                 {| req := Sample.forwarded; proc := Sample.node_process |}
                 "GMT+0000 (Greenwich Mean Time)" eq_refl eq_refl))
    as (V & _).
  destruct (V _ eq_refl) as (C & _).
  eapply contains_trans; [|exact C].
  apply contains_append_r, contains_append_l. cbn [map cat Obj.entries].
  apply occurs_contains. vm_compute. reflexivity.
Defined.

(** ** The package and the versions in the page *)

Section EntriesLookup.
Context {A : Type}.

Lemma lookup_in_nodup (p : list (string * A)) (k : string) (v : A) :
  NoDup (map fst p) -> In (k, v) p -> Obj.lookup k p = Some v.
Proof.
  induction p as [|[k0 v0] p IH]; simpl; intros ND H; [contradiction|].
  apply NoDup_cons_iff in ND as [Nk ND].
  destruct H as [[= -> ->]|H].
  - now rewrite String.eqb_refl.
  - destruct (String.eqb k k0) eqn:E; [|now apply IH].
    apply String.eqb_eq in E. subst k0. exfalso. apply Nk.
    apply in_map_iff. now exists (k, v).
Qed.

(** Reading a property of a copy made in enumeration order reads the
    property of the original. *)
Lemma lookup_entries (p : list (string * A)) (k : string) :
  Obj.lookup k (Obj.entries p) = Obj.lookup k p.
Proof.
  destruct (Obj.lookup k p) as [v|] eqn:L.
  - apply lookup_in_nodup; [apply nodup_keys | now apply in_entries].
  - destruct (Obj.lookup k (Obj.entries p)) as [v|] eqn:L'; [|reflexivity].
    assert (H : In (k, v) (Obj.entries p)).
    { clear L. induction (Obj.entries p) as [|[k0 v0] l IH]; [discriminate|].
      simpl in L'. destruct (String.eqb k k0) eqn:E.
      - apply String.eqb_eq in E. injection L' as ->. subst. now left.
      - right. now apply IH. }
    apply in_entries in H. congruence.
Qed.
End EntriesLookup.

Lemma field_entries (p : list (string * value)) (k : string) :
  field (VObj (Obj.entries p)) k = field (VObj p) k.
Proof.
  now rewrite !field_object, lookup_entries.
Qed.

Lemma body_open_table (c : context) :
  exists a, Template.body_open c = a ++ "    <table>" ++ nl.
Proof.
  unfold Template.body_open.
  exists ("    </style>" ++ nl ++ "</head>" ++ nl ++ "<body>" ++ nl ++ "<main>" ++ nl
          ++ "    <h1>Node.js " ++ Hb.escapeExpression (Hb.prop (process c) "version")
          ++ "</h1>" ++ nl).
  cbn [cat]. now rewrite !append_assoc, append_nil_r.
Qed.

Lemma os_section_heading (c : context) :
  exists b, Template.os_section c = Template.heading "h2" "OS" ++ b.
Proof.
  unfold Template.os_section. cbv zeta. cbn [cat]. eexists. reflexivity.
Qed.

(** The package section stands between the opening of the table and the
    heading of the OS section. *)
Lemma render_around_package (c : context) :
  exists a b,
    Template.render c
    = a ++ ("    <table>" ++ nl) ++ Template.package_section c
      ++ Template.heading "h2" "OS" ++ b.
Proof.
  unfold Template.render, Template.before_request.
  destruct (body_open_table c) as [x ->].
  destruct (os_section_heading c) as [y ->].
  generalize (Template.package_section c) (Template.versions_section c)
    (Template.env_section c) (Template.request_section c)
    (Template.style_line c) Template.prologue Template.epilogue
    (Template.heading "h2" "OS") ("    <table>" ++ nl).
  intros k v e r s p z h t.
  exists (p ++ s ++ x), (y ++ v ++ e ++ r ++ z).
  cbn [cat]. now rewrite !append_assoc, append_nil_l.
Qed.

(** Lines 130-133 and 44-54.  The block of the package in a page:
    - without a [package.json] the table starts with the heading of the
      OS section;
    - with one, the table starts with the heading [Package], the row of
      the name, the row of the description if it is truthy, the row of the
      version, and the row of the dependencies, followed by the heading
      of the OS section.  The dependencies shown are the names of the
      dependencies in enumeration order joined by [", "], and their row is
      there only if that text is not empty: a [package.json] with an empty
      dependencies object gets no row. *)
Theorem page_shows_package
        (prettysize humanizeDuration : number -> string)
        (h : host) (options : value) (s s' : store) (html : string) :
  nodeinfo prettysize humanizeDuration h options s = (Ok html, s') ->
  match packageJson h with
  | None => contains ("    <table>" ++ nl ++ Template.heading "h2" "OS") html
  | Some p =>
      let dependencies :=
        if truthy (field (VObj p) "dependencies")
        then VStr (join ", " (Object_keys (field (VObj p) "dependencies")))
        else field (VObj p) "dependencies" in
      contains
        ("    <table>" ++ nl
         ++ Template.heading "h2" "Package"
         ++ Template.row "name" (Hb.escapeExpression (field (VObj p) "name"))
         ++ (if truthy (field (VObj p) "description")
             then Template.row "description"
                    (Hb.escapeExpression (field (VObj p) "description"))
             else EmptyString)
         ++ Template.row "version" (Hb.escapeExpression (field (VObj p) "version"))
         ++ (if truthy dependencies
             then Template.row "dependencies" (Hb.escapeExpression dependencies)
             else EmptyString)
         ++ Template.heading "h2" "OS")
        html
  end.
Proof.
  intros H. apply nodeinfo_ok in H as (offset & _ & _ & _ & ->).
  set (c := After.page_context prettysize humanizeDuration h options offset s).
  destruct (render_around_package c) as (a & b & E). rewrite E.
  assert (Ep : package c = package_context h) by reflexivity.
  unfold Template.package_section. cbv zeta. rewrite Ep. clear Ep.
  unfold package_context.
  destruct (packageJson h) as [p|].
  - cbv zeta.
    assert (P : exists q,
               (match Obj.lookup "dependencies" (Obj.entries p) with
                | Some d =>
                    if truthy d
                    then VObj (Obj.put "dependencies"
                                 (VStr (join ", " (Object_keys d))) (Obj.entries p))
                    else VObj (Obj.entries p)
                | None => VObj (Obj.entries p)
                end) = VObj q
               /\ (forall k, k <> "dependencies" -> field (VObj q) k = field (VObj p) k)
               /\ field (VObj q) "dependencies"
                  = (if truthy (field (VObj p) "dependencies")
                     then VStr (join ", " (Object_keys (field (VObj p) "dependencies")))
                     else field (VObj p) "dependencies")).
    { rewrite (field_object p "dependencies"), lookup_entries.
      destruct (Obj.lookup "dependencies" p) as [d|] eqn:L.
      - destruct (truthy d) eqn:T.
        + eexists. split; [reflexivity|]. split.
          * intros k N. rewrite field_put_other by (now apply String.eqb_neq).
            apply field_entries.
          * apply field_put_same.
        + eexists. split; [reflexivity|]. split.
          * intros k _. apply field_entries.
          * now rewrite field_entries, field_object, L.
      - eexists. split; [reflexivity|]. split.
        + intros k _. apply field_entries.
        + now rewrite field_entries, field_object, L. }
    destruct P as (q & -> & Pk & Pd).
    unfold Hb.if_ at 1. cbn [truthy].
    rewrite !prop_field_object, Pd, !Pk by discriminate. unfold Hb.if_.
    cbn [cat]. rewrite !append_nil_r.
    exists a, b. now rewrite !append_assoc.
  - unfold Hb.if_. cbn [truthy]. rewrite append_nil_l.
    exists a, b. now rewrite !append_assoc.
Qed.

Lemma page_shows_package_witness :
  contains (Template.row "version" "1.0.0"
            ++ Template.row "dependencies" "handlebars, cookie"
            ++ Template.heading "h2" "OS")
    (Template.render
       (After.page_context Sample.prettysize Sample.humanizeDuration Sample.packaged
          VUndefined "GMT+0000 (Greenwich Mean Time)"
          {| req := Sample.forwarded; proc := Sample.node_process |})).
Proof.
  eapply contains_trans;
    [|exact (page_shows_package Sample.prettysize Sample.humanizeDuration
               Sample.packaged VUndefined
               {| req := Sample.forwarded; proc := Sample.node_process |} _ _
               (nodeinfo_run Sample.prettysize Sample.humanizeDuration
                  Sample.packaged VUndefined
                  {| req := Sample.forwarded; proc := Sample.node_process |}
                  "GMT+0000 (Greenwich Mean Time)" eq_refl eq_refl))].
  apply occurs_contains. vm_compute. reflexivity.
Defined.

(** ** What the page depends on *)

Lemma request_rows_agree (r1 r2 : value) :
  truthy (field r1 "headers") = true ->
  truthy (field r2 "headers") = true ->
  (forall k, In k ["method"; "url"; "headers"; "showOriginalUrl"; "originalUrl"] ->
             field r1 k = field r2 k) ->
  field (field r1 "socket") "encrypted" = field (field r2 "socket") "encrypted" ->
  After.peer_address r1 = After.peer_address r2 ->
  Template.request_rows (After.request_object r1)
  = Template.request_rows (After.request_object r2).
Proof.
  intros H1 H2 F E P.
  assert (Fh : field r1 "headers" = field r2 "headers") by (apply F; simpl; auto).
  unfold Template.request_rows, Template.header_rows, Template.cookie_rows.
  rewrite !(prop_request_object r1), !(prop_request_object r2) by assumption.
  rewrite !(request_object_href _ H1), !(request_object_href _ H2).
  rewrite !(request_object_ip_addr _ H1), !(request_object_ip_addr _ H2).
  rewrite !(request_object_cookies _ H1), !(request_object_cookies _ H2).
  rewrite !(request_object_headers _ H1), !(request_object_headers _ H2).
  rewrite !(request_object_field r1), !(request_object_field r2) by (assumption || reflexivity).
  assert (Eh : After.href r1 = After.href r2).
  { unfold After.href, After.scheme, After.secure. rewrite Fh, E.
    now rewrite (F "url") by (simpl; auto 10). }
  assert (Ec : After.client_address r1 = After.client_address r2).
  { unfold After.client_address. now rewrite Fh, P. }
  assert (Ek : After.cookie_map r1 = After.cookie_map r2).
  { unfold After.cookie_map. now rewrite Fh. }
  assert (Es : After.shown_headers r1 = After.shown_headers r2).
  { unfold After.shown_headers. now rewrite Fh. }
  rewrite Eh, Ec, Ek, Es.
  rewrite (F "method"), (F "showOriginalUrl"), (F "originalUrl") by (simpl; auto 10).
  reflexivity.
Qed.

(** What a page depends on.  Two calls on one host that both return a
    page return the same page when the style options print alike, the
    [process] objects agree on [version], [versions] and [env], and the
    requests agree on the method, the URL, the headers, the two
    properties of the original URL, [socket.encrypted] and the remote
    address.  Nothing else of the request, of [process] or of the options
    reaches the page. *)
Theorem page_depends_only_on
        (prettysize humanizeDuration : number -> string)
        (h : host) (o1 o2 : value) (s1 s2 s1' s2' : store) (html1 html2 : string) :
  nodeinfo prettysize humanizeDuration h o1 s1 = (Ok html1, s1') ->
  nodeinfo prettysize humanizeDuration h o2 s2 = (Ok html2, s2') ->
  Hb.raw (style_option o1) = Hb.raw (style_option o2) ->
  (forall k, In k ["version"; "versions"; "env"] ->
             field (VObj (proc s1)) k = field (VObj (proc s2)) k) ->
  (forall k, In k ["method"; "url"; "headers"; "showOriginalUrl"; "originalUrl"] ->
             field (req s1) k = field (req s2) k) ->
  field (field (req s1) "socket") "encrypted"
  = field (field (req s2) "socket") "encrypted" ->
  After.peer_address (req s1) = After.peer_address (req s2) ->
  html1 = html2.
Proof.
  intros R1 R2 Es Fp Fr Ee Ea.
  apply nodeinfo_ok in R1 as (off & Ho & _ & _ & ->).
  apply nodeinfo_ok in R2 as (off2 & Ho2 & _ & _ & ->).
  rewrite Ho in Ho2. injection Ho2 as <-.
  destruct (process_props_field prettysize h (proc s1)) as (A1 & A2 & A3 & A4).
  destruct (process_props_field prettysize h (proc s2)) as (B1 & B2 & B3 & B4).
  set (c1 := After.page_context prettysize humanizeDuration h o1 off s1).
  set (c2 := After.page_context prettysize humanizeDuration h o2 off s2).
  assert (E1 : Template.style_line c1 = Template.style_line c2).
  { unfold Template.style_line. simpl styleOverride. now rewrite Es. }
  assert (E2 : Template.body_open c1 = Template.body_open c2).
  { unfold Template.body_open. simpl process.
    rewrite !prop_field_object, A4, B4 by discriminate.
    now rewrite (Fp "version") by (simpl; auto). }
  assert (E3 : Template.package_section c1 = Template.package_section c2)
    by reflexivity.
  assert (E4 : Template.os_section c1 = Template.os_section c2).
  { unfold Template.os_section. cbv zeta. simpl process. simpl os.
    simpl intlTimezone. simpl dateTzOffset.
    now rewrite !prop_field_object, A1, A2, A3, B1, B2, B3. }
  assert (E5 : Template.versions_section c1 = Template.versions_section c2).
  { unfold Template.versions_section. simpl process.
    rewrite !prop_field_object, A4, B4 by discriminate.
    now rewrite (Fp "versions") by (simpl; auto). }
  assert (E6 : Template.env_section c1 = Template.env_section c2).
  { unfold Template.env_section. cbv zeta. simpl process.
    rewrite !prop_field_object, A4, B4 by discriminate.
    now rewrite (Fp "env") by (simpl; auto). }
  assert (E7 : Template.request_section c1 = Template.request_section c2).
  { unfold Template.request_section. simpl request.
    unfold After.context_request.
    rewrite <- (Fr "headers") by (simpl; auto).
    destruct (truthy (field (req s1) "headers")) eqn:Hh; [|reflexivity].
    assert (Hh2 : truthy (field (req s2) "headers") = true)
      by (now rewrite <- (Fr "headers") by (simpl; auto)).
    unfold Hb.if_.
    rewrite (truthy_request_object _ Hh), (truthy_request_object _ Hh2).
    now apply request_rows_agree. }
  unfold Template.render, Template.before_request.
  now rewrite E1, E2, E3, E4, E5, E6, E7.
Qed.

Lemma page_depends_only_on_witness :
  Template.render
    (After.page_context Sample.prettysize Sample.humanizeDuration Sample.machine
       (VObj [("colour", VStr "red")]) "GMT+0000 (Greenwich Mean Time)"
       {| req := Sample.get [("host", VStr "localhost:8080")];
          proc := Sample.node_process |})
  = Template.render
      (After.page_context Sample.prettysize Sample.humanizeDuration Sample.machine
         VUndefined "GMT+0000 (Greenwich Mean Time)"
         {| req := VObj [("body", VStr "secret");
                         ("method", VStr "GET");
                         ("url", VStr "/");
                         ("headers", VObj [("host", VStr "localhost:8080")]);
                         ("socket", Sample.transport);
                         ("connection", Sample.transport)];
            proc := ("title", VStr "node") :: Sample.node_process |}).
Proof.
  refine (page_depends_only_on Sample.prettysize Sample.humanizeDuration
            Sample.machine (VObj [("colour", VStr "red")]) VUndefined
            {| req := Sample.get [("host", VStr "localhost:8080")];
               proc := Sample.node_process |}
            {| req := VObj [("body", VStr "secret");
                            ("method", VStr "GET");
                            ("url", VStr "/");
                            ("headers", VObj [("host", VStr "localhost:8080")]);
                            ("socket", Sample.transport);
                            ("connection", Sample.transport)];
               proc := ("title", VStr "node") :: Sample.node_process |}
            _ _ _ _
            (nodeinfo_run Sample.prettysize Sample.humanizeDuration Sample.machine
               (VObj [("colour", VStr "red")])
               {| req := Sample.get [("host", VStr "localhost:8080")];
                  proc := Sample.node_process |}
               "GMT+0000 (Greenwich Mean Time)" eq_refl eq_refl)
            (nodeinfo_run Sample.prettysize Sample.humanizeDuration Sample.machine
               VUndefined
               {| req := VObj [("body", VStr "secret");
                               ("method", VStr "GET");
                               ("url", VStr "/");
                               ("headers", VObj [("host", VStr "localhost:8080")]);
                               ("socket", Sample.transport);
                               ("connection", Sample.transport)];
                  proc := ("title", VStr "node") :: Sample.node_process |}
               "GMT+0000 (Greenwich Mean Time)" eq_refl eq_refl)
            eq_refl _ _ eq_refl eq_refl).
  - intros k [<-|[<-|[<-|[]]]]; reflexivity.
  - intros k [<-|[<-|[<-|[<-|[<-|[]]]]]]; reflexivity.
Defined.

(** ** What a call that throws leaves behind *)














(** ** The test server *)

(** README.md, line 63.  A request for [/favicon.ico] is answered with
    status 404 and no body, and [nodeinfo] is not called: the request and
    [process] stay as they were, whatever the host reports. *)
Theorem favicon_is_not_found
        (prettysize humanizeDuration : number -> string)
        (h : host) (s : store) (res : Server.response) :
  field (req s) "url" = VStr "/favicon.ico" ->
  Server.handler prettysize humanizeDuration h s res
  = (Ok tt, s,
     {| Server.statusCode := Some 404%N;
        Server.headers := Server.headers res;
        Server.body := None;
        Server.finished := true |}).
Proof.
  intros E. unfold Server.handler.
  assert (R : After.can_read (req s) = true)
    by (destruct (req s); try discriminate E; reflexivity).
  rewrite getprop_can_read, R, E. simpl Server.is_favicon.
  unfold Server.end_, Server.writeHead. simpl. now rewrite app_nil_r.
Qed.

Lemma favicon_is_not_found_witness :
  Server.handler Sample.prettysize Sample.humanizeDuration Sample.clockless
    {| req := Sample.favicon; proc := Sample.node_process |} Server.fresh
  = (Ok tt, {| req := Sample.favicon; proc := Sample.node_process |},
     {| Server.statusCode := Some 404%N; Server.headers := [];
        Server.body := None; Server.finished := true |}).
Proof.
  exact (favicon_is_not_found Sample.prettysize Sample.humanizeDuration
           Sample.clockless {| req := Sample.favicon; proc := Sample.node_process |}
           Server.fresh eq_refl).
Defined.

(** README.md, lines 64-65.  For every other request the handler writes
    the head, status 200 and the content type [text/html], before it calls
    [nodeinfo].  When [nodeinfo] returns, the page is the body and the
    response is ended; when [nodeinfo] throws, the handler throws with the
    head written and the response not ended. *)
Theorem page_is_served
        (prettysize humanizeDuration : number -> string)
        (h : host) (s : store) (res : Server.response) :
  After.can_read (req s) = true ->
  Server.is_favicon (field (req s) "url") = false ->
  let head := {| Server.statusCode := Some 200%N;
                 Server.headers
                 := (Server.headers res ++ [("Content-Type", "text/html")])%list;
                 Server.body := Server.body res;
                 Server.finished := Server.finished res |} in
  match nodeinfo prettysize humanizeDuration h VUndefined s with
  | (Ok html, s') =>
      Server.handler prettysize humanizeDuration h s res
      = (Ok tt, s',
         {| Server.statusCode := Some 200%N;
            Server.headers
            := (Server.headers res ++ [("Content-Type", "text/html")])%list;
            Server.body := Some html;
            Server.finished := true |})
  | (Throw e, s') =>
      Server.handler prettysize humanizeDuration h s res = (Throw e, s', head)
  end
  /\ (forall offset,
        TzOffset.group1 (Date_now h) = Some offset ->
        After.servable (req s) = true ->
        Server.handler prettysize humanizeDuration h s res
        = (Ok tt, After.store_of_call prettysize h s,
           {| Server.statusCode := Some 200%N;
              Server.headers
              := (Server.headers res ++ [("Content-Type", "text/html")])%list;
              Server.body
              := Some (Template.render
                         (After.page_context prettysize humanizeDuration h
                            VUndefined offset s));
              Server.finished := true |}))
  /\ (TzOffset.group1 (Date_now h) = None \/ After.servable (req s) = false ->
      exists s',
        Server.handler prettysize humanizeDuration h s res
        = (Throw TypeError, s', head)).
Proof.
  intros R F head.
  assert (E : Server.handler prettysize humanizeDuration h s res
              = match nodeinfo prettysize humanizeDuration h VUndefined s with
                | (Ok html, s') =>
                    (Ok tt, s', Server.end_ (Some html)
                                  (Server.writeHead 200 [("Content-Type", "text/html")] res))
                | (Throw e, s') =>
                    (Throw e, s',
                     Server.writeHead 200 [("Content-Type", "text/html")] res)
                end).
  { unfold Server.handler. now rewrite getprop_can_read, R, F. }
  refine (conj _ (conj _ _)).
  - rewrite E. now destruct (nodeinfo prettysize humanizeDuration h VUndefined s) as [[html|e] s'].
  - intros offset Ho Hs. rewrite E, (nodeinfo_run _ _ _ _ _ offset Ho Hs). reflexivity.
  - intros Hn. rewrite E.
    destruct (nodeinfo prettysize humanizeDuration h VUndefined s) as [[html|e] s'] eqn:X.
    + exfalso. apply nodeinfo_ok in X as (offset & Ho & Hs & _).
      destruct Hn as [Hn|Hn]; congruence.
    + destruct e. now exists s'.
Qed.

Lemma page_is_served_witness :
  exists html s',
    Server.handler Sample.prettysize Sample.humanizeDuration Sample.machine
      {| req := Sample.forwarded; proc := Sample.node_process |} Server.fresh
    = (Ok tt, s',
       {| Server.statusCode := Some 200%N;
          Server.headers := [("Content-Type", "text/html")];
          Server.body := Some html;
          Server.finished := true |})
    /\ contains "<h1>Node.js v12.18.0</h1>" html.
Proof.
  eexists. eexists. split.
  - exact (proj1 (proj2 (page_is_served Sample.prettysize Sample.humanizeDuration
                    Sample.machine
                    {| req := Sample.forwarded; proc := Sample.node_process |}
                    Server.fresh eq_refl eq_refl))
             "GMT+0000 (Greenwich Mean Time)" eq_refl eq_refl).
  - apply occurs_contains. vm_compute. reflexivity.
Defined.

(** ** The version of 2018 *)

Lemma address_put (k : string) (v : value) (p : list (string * value)) :
  String.eqb "connection" k = false -> String.eqb "socket" k = false ->
  String.eqb "headers" k = false ->
  V2018.address (VObj (Obj.put k v p)) = V2018.address (VObj p).
Proof.
  intros N1 N2 N3. unfold V2018.address.
  now rewrite peer_address_put, field_put_other by assumption.
Qed.

Lemma ip_ok (s s' : store) (x : value) :
  V2018.ip s = (Ok x, s') ->
  s' = s /\ x = V2018.address (req s)
  /\ (truthy (field (field (req s) "headers") "x-forwarded-for")
      || (After.can_read (field (req s) "connection")
          && (truthy (field (field (req s) "connection") "remoteAddress")
              || truthy (field (field (req s) "socket") "remoteAddress")
              || After.can_read (field (field (req s) "connection") "socket"))))%bool
     = true.
Proof.
  unfold V2018.ip, V2018.address. intros H.
  apply bind_ok in H as (f & s1 & H1 & H).
  apply request_path_ok in H1 as (-> & -> & _ & _).
  destruct (truthy (field (field (req s) "headers") "x-forwarded-for")) eqn:Tf.
  - injection H as <- <-. auto.
  - fold remote_address in H.
    apply remote_address_ok in H as (-> & -> & Hc & Ha).
    now rewrite Hc, Ha.
Qed.

Lemma ip_run (s : store) :
  truthy (field (req s) "headers") = true ->
  After.can_read (field (req s) "socket") = true ->
  (truthy (field (field (req s) "headers") "x-forwarded-for")
   || (After.can_read (field (req s) "connection")
       && (truthy (field (field (req s) "connection") "remoteAddress")
           || truthy (field (field (req s) "socket") "remoteAddress")
           || After.can_read (field (field (req s) "connection") "socket"))))%bool
  = true ->
  V2018.ip s = (Ok (V2018.address (req s)), s).
Proof.
  intros Hh Hs H. unfold V2018.ip, V2018.address.
  assert (Hr : After.can_read (req s) = true)
    by (destruct (truthy_field_object _ _ Hh) as [p ->]; reflexivity).
  rewrite (bind_run _ _ _ _ _
             (request_path_run "headers" "x-forwarded-for" s Hr (truthy_can_read _ Hh))).
  destruct (truthy (field (field (req s) "headers") "x-forwarded-for")) eqn:Tf;
    [reflexivity|].
  simpl in H. apply andb_true_iff in H as [Hc Ha].
  fold remote_address. now apply remote_address_run.
Qed.

Lemma request_facts_2018_ok (s s' : store) (u : unit) :
  truthy (field (req s) "headers") = true ->
  V2018.request_facts s = (Ok u, s') ->
  s' = {| req := V2018.request_object (req s); proc := proc s |}
  /\ V2018.servable (req s) = true.
Proof.
  intros Hh H.
  destruct (truthy_field_object _ _ Hh) as [p Ep].
  destruct s as [r q]. simpl req in *. simpl proc in *. subst r.
  unfold V2018.request_facts in H.
  apply bind_ok in H as (sch & s1 & H1 & H).
  apply (protocol_ok {| req := VObj p; proc := q |} _ _ Hh) in H1 as (-> & -> & Hsock).
  apply bind_ok in H as (hh & s1 & H1 & H).
  apply request_path_ok in H1 as (-> & -> & _ & _).
  apply bind_ok in H as (url & s1 & H1 & H).
  apply request_prop_ok in H1 as (-> & ->).
  simpl req in *. simpl proc in *.
  apply bind_ok in H as (u1 & s1 & H1 & H).
  rewrite set_request_prop_object in H1. injection H1 as <- <-.
  fold (After.href (VObj p)) in H.
  apply bind_ok in H as (a & s1 & H1 & H).
  apply ip_ok in H1 as (-> & -> & Ha).
  simpl req in *; simpl proc in *.
  rewrite address_put in H by reflexivity.
  rewrite !(field_put_other "href") in Ha by reflexivity.
  apply bind_ok in H as (u2 & s1 & H1 & H).
  rewrite set_request_prop_object in H1. injection H1 as <- <-.
  apply bind_ok in H as (ck & s1 & H1 & H).
  apply cookies_ok in H1 as (-> & -> & Hck). simpl req in *; simpl proc in *.
  rewrite !cookie_map_put in H by reflexivity.
  rewrite !(field_put_other "ip" "headers"), !(field_put_other "href" "headers")
    in Hck by reflexivity.
  apply bind_ok in H as (u3 & s1 & H1 & H).
  rewrite set_request_prop_object in H1. injection H1 as <- <-.
  rewrite delete_header_object in H
    by (now rewrite !field_put_other by reflexivity).
  injection H as _ <-.
  split.
  - unfold V2018.request_object. f_equal. f_equal. f_equal.
    unfold After.shown_headers.
    now rewrite !field_put_other by reflexivity.
  - unfold V2018.servable. simpl After.can_read. simpl After.is_object.
    now rewrite Hh, Hsock, Ha, Hck.
Qed.

Lemma request_facts_2018_run (s : store) :
  truthy (field (req s) "headers") = true ->
  V2018.servable (req s) = true ->
  V2018.request_facts s
  = (Ok tt, {| req := V2018.request_object (req s); proc := proc s |}).
Proof.
  intros Hh Hs.
  destruct (truthy_field_object _ _ Hh) as [p Ep].
  destruct s as [r q]. simpl req in *. simpl proc. subst r.
  unfold V2018.servable in Hs. rewrite Hh in Hs. simpl in Hs.
  apply andb_true_iff in Hs as [Hs Hck].
  apply andb_true_iff in Hs as [Hsock Ha].
  set (s0 := {| req := VObj p; proc := q |}).
  unfold V2018.request_facts.
  rewrite (bind_run _ _ _ _ _ (protocol_run s0 Hh Hsock)).
  rewrite (bind_run _ _ _ _ _
             (request_path_run "headers" "host" s0 eq_refl (truthy_can_read _ Hh))).
  rewrite (bind_run _ _ _ _ _ (request_prop_run "url" s0 eq_refl)).
  unfold s0 at 4. rewrite (bind_run _ _ _ _ _ (set_request_prop_object _ _ _ _)).
  fold (After.href (req s0)).
  match goal with |- bind _ _ ?s = _ => set (s1 := s) end.
  assert (R1 : V2018.ip s1 = (Ok (V2018.address (VObj p)), s1)).
  { rewrite <- (address_put "href" (VStr (After.href (req s0))) p) by reflexivity.
    apply ip_run; simpl req; rewrite ?field_put_other by reflexivity; auto. }
  rewrite (bind_run _ _ _ _ _ R1).
  unfold s1 at 1. rewrite (bind_run _ _ _ _ _ (set_request_prop_object _ _ _ _)).
  match goal with |- bind _ _ ?s = _ => set (s2 := s) end.
  assert (Hh2 : truthy (field (req s2) "headers") = true)
    by (simpl req; now rewrite !field_put_other by reflexivity).
  assert (Hck2 : (negb (truthy (field (field (req s2) "headers") "cookie"))
                  || After.is_string (field (field (req s2) "headers") "cookie"))%bool
                 = true)
    by (simpl req; now rewrite !field_put_other by reflexivity).
  rewrite (bind_run _ _ _ _ _ (cookies_run s2 Hh2 Hck2)).
  unfold s2 at 2. rewrite (bind_run _ _ _ _ _ (set_request_prop_object _ _ _ _)).
  rewrite delete_header_object
    by (now rewrite !field_put_other by reflexivity).
  unfold V2018.request_object.
  simpl req. rewrite !cookie_map_put by reflexivity.
  f_equal. f_equal. f_equal. f_equal.
  unfold After.shown_headers. now rewrite !field_put_other by reflexivity.
Qed.

Section Calls2018.
Variable prettysize : number -> string.
Variable humanizeDuration : number -> string.

Lemma request_context_2018_ok (s s' : store) (x : value) :
  V2018.request_context s = (Ok x, s') ->
  V2018.servable (req s) = true
  /\ if truthy (field (req s) "headers")
     then x = V2018.request_object (req s)
          /\ s' = {| req := V2018.request_object (req s); proc := proc s |}
     else x = VUndefined /\ s' = s.
Proof.
  unfold V2018.request_context. intros H.
  apply bind_ok in H as (hs & s1 & H1 & H).
  unfold request_prop in H1. rewrite getprop_can_read in H1.
  destruct (After.can_read (req s)) eqn:Hr; [|discriminate].
  injection H1 as <- <-.
  destruct (truthy (field (req s) "headers")) eqn:Hh.
  - apply bind_ok in H as (u & s1 & H1 & H).
    apply (request_facts_2018_ok _ _ _ Hh) in H1 as (-> & Hs).
    unfold the_request in H. injection H as <- <-. auto.
  - injection H as <- <-. unfold V2018.servable. rewrite Hr, Hh. auto.
Qed.

Lemma request_context_2018_run (s : store) :
  V2018.servable (req s) = true ->
  V2018.request_context s
  = if truthy (field (req s) "headers")
    then (Ok (V2018.request_object (req s)),
          {| req := V2018.request_object (req s); proc := proc s |})
    else (Ok VUndefined, s).
Proof.
  intros Hs. unfold V2018.request_context.
  assert (Hr : After.can_read (req s) = true).
  { unfold V2018.servable in Hs. now apply andb_true_iff in Hs as [Hr _]. }
  rewrite (bind_run _ _ _ _ _ (request_prop_run "headers" s Hr)).
  destruct (truthy (field (req s) "headers")) eqn:Hh; [|reflexivity].
  now rewrite (bind_run _ _ _ _ _ (request_facts_2018_run s Hh Hs)).
Qed.

Lemma build_context_2018 (h : host) (options : value) (s : store) :
  V2018.build_context prettysize humanizeDuration h options s
  = match TzOffset.group1 (Date_now h) with
    | Some offset =>
        if V2018.servable (req s)
        then
          (Ok {| styleOverride := style_option options;
                 package := package_context h;
                 os := os_facts prettysize humanizeDuration h;
                 process := VObj (After.process_props prettysize h (proc s));
                 intlTimezone := timeZone h;
                 dateTzOffset := offset;
                 request := if truthy (field (req s) "headers")
                            then V2018.request_object (req s) else VUndefined |},
           {| req := if truthy (field (req s) "headers")
                     then V2018.request_object (req s) else req s;
              proc := After.process_props prettysize h (proc s) |})
        else (Throw TypeError,
              snd (V2018.build_context prettysize humanizeDuration h options s))
    | None => (Throw TypeError,
               {| req := req s; proc := After.process_props prettysize h (proc s) |})
    end.
Proof.
  unfold V2018.build_context.
  rewrite (bind_run _ _ _ _ _ (process_facts_run prettysize h s)).
  set (s1 := {| req := req s; proc := After.process_props prettysize h (proc s) |}).
  unfold tz_offset.
  destruct (TzOffset.group1 (Date_now h)) as [offset|]; [|reflexivity].
  rewrite bind_ret.
  destruct (V2018.servable (req s)) eqn:Hs.
  - unfold bind at 1.
    rewrite (request_context_2018_run s1 Hs). change (req s1) with (req s).
    destruct (truthy (field (req s) "headers")); reflexivity.
  - unfold bind.
    destruct (V2018.request_context s1) as [[x|e] s2] eqn:E.
    + apply request_context_2018_ok in E as [E _].
      change (req s1) with (req s) in E. congruence.
    + destruct e. reflexivity.
Qed.

(** A call of the earlier version: it returns exactly when [Date()]
    shows an offset and the request can be served by it. *)
Lemma nodeinfo_2018 (h : host) (options : value) (s : store) :
  V2018.nodeinfo prettysize humanizeDuration h options s
  = match TzOffset.group1 (Date_now h) with
    | Some offset =>
        if V2018.servable (req s)
        then
          (Ok (V2018.Template.render
                 {| styleOverride := style_option options;
                    package := package_context h;
                    os := os_facts prettysize humanizeDuration h;
                    process := VObj (After.process_props prettysize h (proc s));
                    intlTimezone := timeZone h;
                    dateTzOffset := offset;
                    request := if truthy (field (req s) "headers")
                               then V2018.request_object (req s) else VUndefined |}),
           {| req := if truthy (field (req s) "headers")
                     then V2018.request_object (req s) else req s;
              proc := After.process_props prettysize h (proc s) |})
        else (Throw TypeError,
              snd (V2018.nodeinfo prettysize humanizeDuration h options s))
    | None => (Throw TypeError,
               {| req := req s; proc := After.process_props prettysize h (proc s) |})
    end.
Proof.
  unfold V2018.nodeinfo, bind. rewrite build_context_2018.
  destruct (TzOffset.group1 (Date_now h)) as [offset|]; [|reflexivity].
  destruct (V2018.servable (req s)); reflexivity.
Qed.
End Calls2018.

Lemma truthy_request_object_2018 (r : value) :
  truthy (field r "headers") = true -> truthy (V2018.request_object r) = true.
Proof.
  intros H. now destruct (truthy_field_object _ _ H) as [p ->].
Qed.

Lemma request_object_2018_ip (r : value) :
  truthy (field r "headers") = true ->
  field (V2018.request_object r) "ip" = V2018.address r.
Proof.
  intros H. destruct (truthy_field_object _ _ H) as [p ->].
  unfold V2018.request_object. now fields_past_puts.
Qed.

Lemma request_object_2018_field (r : value) (k : string) :
  truthy (field r "headers") = true ->
  String.eqb k "ip" = false ->
  field (V2018.request_object r) k
  = if String.eqb k "ip_addr" then field r k
    else field (After.request_object r) k.
Proof.
  intros H N. destruct (truthy_field_object _ _ H) as [p ->].
  unfold V2018.request_object, After.request_object.
  destruct (String.eqb k "headers") eqn:E1.
  { apply String.eqb_eq in E1. subst k. simpl String.eqb. now fields_past_puts. }
  destruct (String.eqb k "cookies") eqn:E2.
  { apply String.eqb_eq in E2. subst k. simpl String.eqb. now fields_past_puts. }
  destruct (String.eqb k "href") eqn:E3.
  { apply String.eqb_eq in E3. subst k. simpl String.eqb. now fields_past_puts. }
  destruct (String.eqb k "ip_addr") eqn:E4;
    now rewrite !field_put_other by assumption.
Qed.

(** The earlier version serves every request the later one serves. *)
Lemma servable_2018 (r : value) :
  After.servable r = true -> V2018.servable r = true.
Proof.
  unfold After.servable, V2018.servable.
  destruct (After.can_read r); [|discriminate]. simpl.
  destruct (truthy (field r "headers")); [|reflexivity]. simpl.
  destruct (After.is_object r); [|discriminate]. simpl.
  destruct (After.can_read (field r "socket")); [|discriminate]. simpl.
  destruct (After.can_read (field r "connection")); [|discriminate]. simpl.
  intros H. apply andb_true_iff in H as [-> ->].
  now rewrite orb_true_r.
Qed.



(** unnamed/part_001, lines 172-175.  In the earlier version the address
    shown is the first truthy one of the [x-forwarded-for] header, the
    remote address of the connection, the remote address of the socket
    and the remote address of the socket of the connection (the last one
    when none is truthy).  It is written to [req.ip] and shown in the row
    [ip]. *)
Theorem earlier_version_address
        (prettysize humanizeDuration : number -> string)
        (h : host) (options : value) (s s' : store) (html : string) :
  V2018.nodeinfo prettysize humanizeDuration h options s = (Ok html, s') ->
  truthy (field (req s) "headers") = true ->
  field (req s') "ip"
  = (if truthy (field (field (req s) "headers") "x-forwarded-for")
     then field (field (req s) "headers") "x-forwarded-for"
     else if truthy (field (field (req s) "connection") "remoteAddress")
     then field (field (req s) "connection") "remoteAddress"
     else if truthy (field (field (req s) "socket") "remoteAddress")
     then field (field (req s) "socket") "remoteAddress"
     else field (field (field (req s) "connection") "socket") "remoteAddress")
  /\ contains
       (V2018.Template.row "ip" (Hb.escapeExpression (field (req s') "ip"))) html.
Proof.
  intros H Hh. rewrite nodeinfo_2018 in H.
  destruct (TzOffset.group1 (Date_now h)) as [offset|]; [|discriminate H].
  destruct (V2018.servable (req s)); [|discriminate H].
  rewrite Hh in H. injection H as <- <-. simpl req.
  rewrite (request_object_2018_ip _ Hh).
  split; [reflexivity|].
  unfold V2018.Template.render. apply contains_append_r, contains_append_l.
  unfold V2018.Template.request_section, Hb.if_. simpl request.
  rewrite (truthy_request_object_2018 _ Hh).
  unfold V2018.Template.request_rows.
  apply (contains_cat _ (V2018.Template.row "ip"
                           (Hb.escapeExpression (V2018.address (req s)))));
    [|apply contains_refl].
  assert (E : Hb.prop (V2018.request_object (req s)) "ip" = V2018.address (req s)).
  { rewrite <- (request_object_2018_ip _ Hh).
    destruct (truthy_field_object _ _ Hh) as [p ->]. apply prop_field_object. }
  rewrite E. simpl. auto 10.
Qed.

Lemma earlier_version_address_witness :
  field (req (snd (V2018.nodeinfo Sample.prettysize Sample.humanizeDuration
                     Sample.machine VUndefined
                     {| req := Sample.forwarded; proc := Sample.node_process |})))
    "ip"
  = VStr "192.0.2.7".
Proof.
  exact (proj1 (earlier_version_address Sample.prettysize Sample.humanizeDuration
                  Sample.machine VUndefined
                  {| req := Sample.forwarded; proc := Sample.node_process |}
                  (snd (V2018.nodeinfo Sample.prettysize Sample.humanizeDuration
                          Sample.machine VUndefined
                          {| req := Sample.forwarded; proc := Sample.node_process |}))
                  _
                  (nodeinfo_2018 Sample.prettysize Sample.humanizeDuration
                     Sample.machine VUndefined
                     {| req := Sample.forwarded; proc := Sample.node_process |})
                  eq_refl)).
Defined.

(** Both versions on one request.  Whenever the later version returns a
    page the earlier one returns one too; both leave [process] alike and
    leave the same request but for the address: the earlier version
    writes it to [ip] and leaves [ip_addr] alone, the later one writes it
    to [ip_addr] and leaves [ip] alone.  Without a truthy [x-forwarded-for]
    header the two addresses are the same; with one, the earlier address
    is the header and the later address is the header, [ via ] and the
    remote address. *)
Theorem versions_compared
        (prettysize humanizeDuration : number -> string)
        (h : host) (options : value) (s s' : store) (html : string) :
  nodeinfo prettysize humanizeDuration h options s = (Ok html, s') ->
  exists html0 s0,
    V2018.nodeinfo prettysize humanizeDuration h options s = (Ok html0, s0)
    /\ proc s0 = proc s'
    /\ (forall k, k <> "ip" -> k <> "ip_addr" -> field (req s0) k = field (req s') k)
    /\ field (req s0) "ip_addr" = field (req s) "ip_addr"
    /\ field (req s') "ip" = field (req s) "ip"
    /\ (truthy (field (req s) "headers") = true ->
        field (req s') "ip_addr"
        = (if truthy (field (field (req s) "headers") "x-forwarded-for")
           then VStr (ToString (field (req s0) "ip") ++ " via "
                      ++ ToString (After.peer_address (req s)))
           else field (req s0) "ip")).
Proof.
  intros H. apply nodeinfo_ok in H as (offset & Ho & Hs & -> & _).
  rewrite nodeinfo_2018, Ho, (servable_2018 _ Hs).
  eexists. eexists. split; [reflexivity|].
  unfold After.store_of_call, After.request_of_call. simpl req. simpl proc.
  split; [reflexivity|].
  destruct (truthy (field (req s) "headers")) eqn:Hh.
  - refine (conj _ (conj _ (conj _ _))).
    + intros k N1 N2. rewrite request_object_2018_field; try assumption;
        [|now apply String.eqb_neq].
      apply String.eqb_neq in N2. now rewrite N2.
    + now rewrite request_object_2018_field by (assumption || reflexivity).
    + now rewrite request_object_field by (assumption || reflexivity).
    + intros _. rewrite (request_object_ip_addr _ Hh), (request_object_2018_ip _ Hh).
      unfold After.client_address, V2018.address.
      now destruct (truthy (field (field (req s) "headers") "x-forwarded-for")).
  - repeat split; try reflexivity. discriminate.
Qed.

Lemma versions_compared_witness :
  exists html0 s0,
    V2018.nodeinfo Sample.prettysize Sample.humanizeDuration Sample.machine VUndefined
      {| req := Sample.forwarded; proc := Sample.node_process |}
    = (Ok html0, s0)
    /\ proc s0 = After.process_props Sample.prettysize Sample.machine Sample.node_process.
Proof.
  destruct (versions_compared Sample.prettysize Sample.humanizeDuration
              Sample.machine VUndefined
              {| req := Sample.forwarded; proc := Sample.node_process |} _ _
              (nodeinfo_run Sample.prettysize Sample.humanizeDuration
                 Sample.machine VUndefined
                 {| req := Sample.forwarded; proc := Sample.node_process |}
                 "GMT+0000 (Greenwich Mean Time)" eq_refl eq_refl))
    as (html0 & s0 & E & Hp & _).
  exists html0, s0. exact (conj E Hp).
Defined.

(** ** Binary64 arithmetic: how far a rounded result is from the exact one *)

Section Binary64Error.
Local Open Scope Z_scope.

Ltac zfold :=
  change IntDef.Z.sub with Z.sub in *;
  change IntDef.Z.add with Z.add in *;
  change IntDef.Z.mul with Z.mul in *;
  change IntDef.Z.max with Z.max in *;
  change IntDef.Z.min with Z.min in *;
  change IntDef.Z.leb with Z.leb in *;
  change IntDef.Z.div_eucl with Z.div_eucl in *;
  change IntDef.Z.shiftl with Z.shiftl in *;
  change IntDef.Z.even with Z.even in *.

(** The mantissa [shr_fexp] leaves is the quotient by the power of two it
    has raised the exponent by. *)
Lemma shr_fexp_m (m e : Z) (l : location) :
  0 <= m ->
  shr_m (fst (shr_fexp prec emax m e l))
  = m / 2 ^ (snd (shr_fexp prec emax m e l) - e).
Proof.
  intros Hm. unfold shr_fexp, shr. zfold.
  destruct (fexp prec emax (Zdigits2 m + e) - e) as [|p|p]; simpl fst; simpl snd.
  - rewrite shr_record_of_loc_m, Z.sub_diag. simpl. now rewrite Z.div_1_r.
  - rewrite iter_shr_m by (rewrite shr_record_of_loc_m; assumption).
    rewrite shr_record_of_loc_m. zfold. f_equal. f_equal. lia.
  - rewrite shr_record_of_loc_m, Z.sub_diag. simpl. now rewrite Z.div_1_r.
Qed.

(** A number with exactly [d] digits. *)
Lemma Zdigits2_eq (m d : Z) :
  0 < d -> 2 ^ (d - 1) <= m < 2 ^ d -> Zdigits2 m = d.
Proof.
  intros Hd [H1 H2].
  assert (Hm : 0 < m).
  { apply Z.lt_le_trans with (2 := H1). apply Z.pow_pos_nonneg; lia. }
  pose proof (Zdigits2_le m d ltac:(lia) ltac:(lia) H2) as U.
  pose proof (Zdigits2_gt m ltac:(lia)) as G.
  pose proof (Zdigits2_nonneg m) as N.
  destruct (Z_lt_le_dec (Zdigits2 m) d) as [L|L]; [|lia].
  exfalso.
  assert (2 ^ Zdigits2 m <= 2 ^ (d - 1)) by (apply Z.pow_le_mono_r; lia).
  lia.
Qed.

Lemma Zdigits2_bounds (m : Z) :
  0 < m -> 2 ^ (Zdigits2 m - 1) <= m < 2 ^ Zdigits2 m.
Proof.
  intros Hm. split; [|apply Zdigits2_gt; lia].
  destruct m as [|p|p]; try lia. apply Zdigits2_le_pos.
Qed.

(** Rounding a mantissa of at least 53 digits: the result is a normal
    double within one unit in the last place of what was rounded, whatever
    the location says about the digits that were cut off before. *)
Lemma binary_round_aux_faithful (s : bool) (m e : Z) (l : location) :
  0 < m -> 53 <= Zdigits2 m -> -1074 <= e -> e + Zdigits2 m - 53 < 971 ->
  exists m' e',
    binary_round_aux prec emax s m e l = S754_finite s m' e'
    /\ e + Zdigits2 m - 53 <= e' <= e + Zdigits2 m - 52
    /\ 2 ^ 52 <= Z.pos m' < 2 ^ 53
    /\ (Z.pos m' - 1) * 2 ^ (e' - e) <= m
    /\ m + 1 <= (Z.pos m' + 1) * 2 ^ (e' - e).
Proof.
  intros Hm Hd He Hx.
  set (d := Zdigits2 m) in *.
  set (n := d - 53).
  assert (Hn : 0 <= n) by (unfold n; lia).
  destruct (Zdigits2_bounds m Hm) as [B1 B2]. fold d in B1, B2.
  assert (E2n : 2 ^ (d - 1) = 2 ^ 52 * 2 ^ n)
    by (rewrite <- Z.pow_add_r by lia; f_equal; unfold n; lia).
  assert (E2d : 2 ^ d = 2 ^ 53 * 2 ^ n)
    by (rewrite <- Z.pow_add_r by lia; f_equal; unfold n; lia).
  assert (P2n : 0 < 2 ^ n) by (apply Z.pow_pos_nonneg; lia).
  unfold binary_round_aux.
  pose proof (shr_fexp_m m e l ltac:(lia)) as M1.
  destruct (shr_fexp_shape m e l ltac:(lia)) as (_ & _ & _ & A4).
  destruct (shr_fexp prec emax m e l) as [mrs1 e1]. simpl fst in *. simpl snd in *.
  fold d in A4.
  assert (Ee1 : e1 = e + n)
    by (rewrite A4; unfold fexp, prec, emin, emax, n; lia).
  replace (e1 - e) with n in M1 by lia.
  set (m1 := shr_m mrs1) in *.
  assert (Hm1 : 2 ^ 52 <= m1 < 2 ^ 53).
  { rewrite M1. split.
    - apply Z.div_le_lower_bound; lia.
    - apply Z.div_lt_upper_bound; lia. }
  assert (Hm1l : m1 * 2 ^ n <= m).
  { rewrite M1. rewrite Z.mul_comm. apply Z.mul_div_le. lia. }
  assert (Hm1u : m + 1 <= (m1 + 1) * 2 ^ n).
  { rewrite M1.
    pose proof (Z.mod_pos_bound m (2 ^ n) P2n).
    pose proof (Z.div_mod m (2 ^ n) ltac:(lia)). nia. }
  pose proof (round_nearest_even_shape m1 (loc_of_shr_record mrs1)) as R.
  set (m2 := round_nearest_even m1 (loc_of_shr_record mrs1)) in *.
  destruct (Z_lt_le_dec m2 (2 ^ 53)) as [Lt|Ge].
  - (* no carry *)
    assert (D2 : Zdigits2 m2 = 53) by (apply Zdigits2_eq; simpl; lia).
    unfold shr_fexp. zfold. rewrite D2.
    assert (Ef : fexp prec emax (53 + e1) - e1 = 0)
      by (unfold fexp, prec, emin, emax; lia).
    rewrite Ef. cbn [shr shr_record_of_loc shr_m].
    destruct m2 as [|p2|p2]; try lia.
    destruct (e1 <=? emax - prec) eqn:Ee;
      [|apply Z.leb_gt in Ee; unfold emax, prec in Ee; lia].
    exists p2, e1. split; [reflexivity|].
    replace (e1 - e) with n by lia.
    repeat split; try lia; nia.
  - (* the mantissa was rounded up to [2^53] *)
    assert (E53 : m2 = 2 ^ 53) by lia.
    unfold shr_fexp. zfold. rewrite E53.
    change (Zdigits2 (2 ^ 53)) with 54.
    assert (Ef : fexp prec emax (54 + e1) - e1 = 1)
      by (unfold fexp, prec, emin, emax; lia).
    rewrite Ef. cbn [shr shr_record_of_loc shr_m iter_pos shr_1 Z.pow Z.pow_pos Pos.iter Z.mul Pos.mul].
    zfold.
    destruct (e1 + 1 <=? emax - prec) eqn:Ee;
      [|apply Z.leb_gt in Ee; unfold emax, prec in Ee; lia].
    exists 4503599627370496%positive, (e1 + 1). split; [reflexivity|].
    replace (e1 + 1 - e) with (n + 1) by lia.
    rewrite Z.pow_add_r by lia.
    change (Z.pos 4503599627370496) with (2 ^ 52).
    assert (2 ^ 53 = 2 * 2 ^ 52) by reflexivity.
    repeat split; try lia; try nia.
Qed.

Lemma iter_xO_value (p k : positive) :
  Z.pos (Pos.iter xO p k) = Z.pos p * 2 ^ Z.pos k.
Proof.
  apply (Pos.iter_ind _ xO p (fun k r => Z.pos r = Z.pos p * 2 ^ Z.pos k)).
  - rewrite Z.pow_1_r. lia.
  - intros k' r IH. rewrite Pos2Z.inj_xO, IH, Pos2Z.inj_succ, Z.pow_succ_r by lia. lia.
Qed.

(** The double of an integer between 1 and [2^53 - 1], with its value. *)
Lemma of_Z_value (z : Z) :
  0 < z < 2 ^ 53 ->
  exists m e,
    of_Z z = S754_finite false m e
    /\ Z.pos (digits2_pos m) = 53
    /\ e = Zdigits2 z - 53 /\ -52 <= e <= 0
    /\ Z.pos m = z * 2 ^ (- e).
Proof.
  intros Hz. destruct z as [|p|p]; try lia.
  unfold of_Z, binary_normalize, binary_round, shl_align. zfold.
  assert (Hd : 1 <= Z.pos (digits2_pos p) <= 53).
  { split; [lia|]. apply (Zdigits2_le (Z.pos p) 53); lia. }
  assert (Ef : fexp prec emax (Z.pos (digits2_pos p) + 0)
               = Z.pos (digits2_pos p) - 53)
    by (unfold fexp, prec, emin, emax; lia).
  rewrite Ef. rewrite Z.sub_0_r. simpl Zdigits2.
  destruct (Z.pos (digits2_pos p) - 53) as [|k|k] eqn:E; try lia.
  - exists p, 0. rewrite binary_round_aux_exact by lia.
    repeat split; try lia; simpl; lia.
  - exists (Pos.iter xO p k), (Z.neg k).
    assert (Hk : Z.pos (digits2_pos (Pos.iter xO p k)) = 53)
      by (rewrite iter_xO_digits; lia).
    rewrite binary_round_aux_exact by lia.
    repeat split; try lia; apply iter_xO_value.
Qed.

Lemma Zdigits2_mono (a b : Z) : 0 < a <= b -> Zdigits2 a <= Zdigits2 b.
Proof.
  intros H. apply Zdigits2_le; try lia.
  - apply Zdigits2_nonneg.
  - pose proof (Zdigits2_gt b ltac:(lia)). lia.
Qed.

(** The quotient of two integers as doubles, the numerator not above the
    denominator: a normal double within one unit in the last place of the
    exact quotient. *)
Lemma div_faithful (f t : Z) :
  0 < f <= t -> t < 2 ^ 53 ->
  exists my ey,
    div (of_Z f) (of_Z t) = S754_finite false my ey
    /\ -105 <= ey <= -51
    /\ 2 ^ 52 <= Z.pos my < 2 ^ 53
    /\ (Z.pos my - 1) * t <= f * 2 ^ (- ey)
    /\ f * 2 ^ (- ey) <= (Z.pos my + 1) * t.
Proof.
  intros Hf Ht.
  destruct (of_Z_value f ltac:(lia)) as (mf & ef & Ef & Hdf & Eef & Hef & Vf).
  destruct (of_Z_value t ltac:(lia)) as (mt & et & Et & Hdt & Eet & Het & Vt).
  assert (Hab : ef <= et).
  { pose proof (Zdigits2_mono f t ltac:(lia)). lia. }
  rewrite Ef, Et. unfold div, SFdiv, SFdiv_core_binary. zfold.
  simpl Zdigits2. rewrite Hdf, Hdt.
  assert (Ee : Z.min (fexp prec emax (53 + ef - (53 + et))) (ef - et) = ef - et - 53)
    by (unfold fexp, prec, emin, emax; lia).
  rewrite Ee.
  replace (ef - et - (ef - et - 53)) with 53 by lia.
  pose proof (Z.div_eucl_eq (Z.shiftl (Z.pos mf) 53) (Z.pos mt) ltac:(lia)) as Hq.
  pose proof (Z.mod_pos_bound (Z.shiftl (Z.pos mf) 53) (Z.pos mt) ltac:(lia)) as Hr.
  unfold Z.modulo in Hr.
  destruct (Z.div_eucl (Z.shiftl (Z.pos mf) 53) (Z.pos mt)) as [q r].
  rewrite Z.shiftl_mul_pow2 in Hq by lia.
  pose proof (Zdigits2_gt (Z.pos mf) ltac:(lia)) as Gf. simpl Zdigits2 in Gf.
  rewrite Hdf in Gf.
  pose proof (Zdigits2_le_pos mf) as Lf. simpl Zdigits2 in Lf. rewrite Hdf in Lf.
  pose proof (Zdigits2_gt (Z.pos mt) ltac:(lia)) as Gt. simpl Zdigits2 in Gt.
  rewrite Hdt in Gt.
  pose proof (Zdigits2_le_pos mt) as Lt. simpl Zdigits2 in Lt. rewrite Hdt in Lt.
  replace (53 - 1) with 52 in Lf, Lt by lia.
  assert (P52 : 2 ^ 53 = 2 * 2 ^ 52) by reflexivity.
  assert (P54 : 2 ^ 54 = 4 * 2 ^ 52) by reflexivity.
  assert (Hq0 : 2 ^ 52 <= q) by nia.
  assert (Hq1 : q < 2 ^ 54) by nia.
  assert (Hdq : 53 <= Zdigits2 q <= 54).
  { split.
    - pose proof (Zdigits2_gt q ltac:(lia)) as G.
      destruct (Z_lt_le_dec (Zdigits2 q) 53) as [L|L]; [|lia]. exfalso.
      pose proof (Zdigits2_nonneg q).
      assert (2 ^ Zdigits2 q <= 2 ^ 52) by (apply Z.pow_le_mono_r; lia). lia.
    - apply Zdigits2_le; lia. }
  destruct (binary_round_aux_faithful (xorb false false) q (ef - et - 53)
              (new_location (Z.pos mt) r) ltac:(lia) ltac:(lia) ltac:(lia) ltac:(lia))
    as (my & ey & E & Hey & Hmy & Lo & Hi).
  exists my, ey. split; [exact E|].
  split; [lia|]. split; [exact Hmy|].
  set (c := 2 ^ (ey - (ef - et - 53))) in *.
  set (L := 2 ^ (- ey)).
  set (A := 2 ^ (- ef)) in *. set (B := 2 ^ (- et)) in *.
  assert (Pc : 0 < c) by (apply Z.pow_pos_nonneg; lia).
  assert (PL : 0 < L) by (apply Z.pow_pos_nonneg; lia).
  assert (PA : 0 < A) by (apply Z.pow_pos_nonneg; lia).
  assert (PB : 0 < B) by (apply Z.pow_pos_nonneg; lia).
  assert (G : c * B * L = A * 2 ^ 53).
  { unfold c, B, L, A. rewrite <- !Z.pow_add_r by lia. f_equal. lia. }
  assert (I1 : (Z.pos my - 1) * c * (t * B) <= f * A * 2 ^ 53).
  { rewrite <- Vt, <- Vf, Hq.
    assert (X : (Z.pos my - 1) * c * Z.pos mt <= q * Z.pos mt)
      by (apply Z.mul_le_mono_nonneg_r; lia).
    lia. }
  assert (I2 : f * A * 2 ^ 53 < (Z.pos my + 1) * c * (t * B)).
  { rewrite <- Vt, <- Vf, Hq.
    assert (X : (q + 1) * Z.pos mt <= (Z.pos my + 1) * c * Z.pos mt)
      by (apply Z.mul_le_mono_nonneg_r; lia).
    lia. }
  assert (PG : 0 < A * 2 ^ 53) by lia.
  split.
  - apply Z.mul_le_mono_pos_r with (p := A * 2 ^ 53); [exact PG|].
    rewrite <- G at 1.
    replace ((Z.pos my - 1) * t * (c * B * L))
      with ((Z.pos my - 1) * c * (t * B) * L) by ring.
    replace (f * L * (A * 2 ^ 53)) with (f * A * 2 ^ 53 * L) by ring.
    apply Z.mul_le_mono_nonneg_r; lia.
  - apply Z.mul_le_mono_pos_r with (p := A * 2 ^ 53); [exact PG|].
    rewrite <- G at 2.
    replace ((Z.pos my + 1) * t * (c * B * L))
      with ((Z.pos my + 1) * c * (t * B) * L) by ring.
    replace (f * L * (A * 2 ^ 53)) with (f * A * 2 ^ 53 * L) by ring.
    apply Z.mul_le_mono_nonneg_r; lia.
Qed.

(** A normal double of at most 2, times one hundred: a normal double
    within one unit in the last place of the exact product. *)
Lemma mul_100_faithful (my : positive) (ey : Z) :
  2 ^ 52 <= Z.pos my < 2 ^ 53 -> -105 <= ey <= -51 ->
  exists mw ew,
    mul (S754_finite false my ey) (of_Z 100) = S754_finite false mw ew
    /\ ew <= -43
    /\ 2 ^ 52 <= Z.pos mw < 2 ^ 53
    /\ (Z.pos mw - 1) * 2 ^ (- ey) <= 100 * Z.pos my * 2 ^ (- ew)
    /\ 100 * Z.pos my * 2 ^ (- ew) <= (Z.pos mw + 1) * 2 ^ (- ey).
Proof.
  intros Hmy Hey. rewrite of_Z_100. unfold mul, SFmul. zfold.
  set (P := Z.pos (my * 7036874417766400)).
  assert (EP : P = Z.pos my * (100 * 2 ^ 46)) by (unfold P; rewrite Pos2Z.inj_mul; reflexivity).
  assert (P52 : 2 ^ 53 = 2 * 2 ^ 52) by reflexivity.
  assert (HP0 : 2 ^ 52 * (100 * 2 ^ 46) <= P) by nia.
  assert (HP1 : P < 2 ^ 106).
  { replace (2 ^ 106) with (2 ^ 53 * 2 ^ 53) by reflexivity.
    assert (100 * 2 ^ 46 < 2 ^ 53) by reflexivity. nia. }
  assert (HdP : 53 <= Zdigits2 P <= 106).
  { split.
    - pose proof (Zdigits2_gt P ltac:(lia)) as G.
      destruct (Z_lt_le_dec (Zdigits2 P) 53) as [L|L]; [|lia]. exfalso.
      pose proof (Zdigits2_nonneg P).
      assert (2 ^ Zdigits2 P <= 2 ^ 52) by (apply Z.pow_le_mono_r; lia).
      assert (2 ^ 52 <= 2 ^ 52 * (100 * 2 ^ 46)) by (simpl; lia). lia.
    - apply Zdigits2_le; lia. }
  destruct (binary_round_aux_faithful (xorb false false) P (ey + -46) loc_Exact
              ltac:(lia) ltac:(lia) ltac:(lia) ltac:(lia))
    as (mw & ew & E & Hew & Hmw & Lo & Hi).
  exists mw, ew. split; [exact E|].
  split; [lia|]. split; [exact Hmw|].
  set (c := 2 ^ (ew - (ey + -46))) in *.
  set (L := 2 ^ (- ey)). set (L' := 2 ^ (- ew)).
  assert (Pc : 0 < c) by (apply Z.pow_pos_nonneg; lia).
  assert (PL : 0 < L) by (apply Z.pow_pos_nonneg; lia).
  assert (PL' : 0 < L') by (apply Z.pow_pos_nonneg; lia).
  assert (G : c * L' = 2 ^ 46 * L).
  { unfold c, L, L'. rewrite <- !Z.pow_add_r by lia. f_equal. lia. }
  assert (P46 : 0 < 2 ^ 46) by reflexivity.
  rewrite EP in Lo, Hi.
  split.
  - apply Z.mul_le_mono_pos_r with (p := 2 ^ 46); [exact P46|].
    replace ((Z.pos mw - 1) * L * 2 ^ 46) with ((Z.pos mw - 1) * (2 ^ 46 * L)) by ring.
    rewrite <- G.
    replace ((Z.pos mw - 1) * (c * L')) with ((Z.pos mw - 1) * c * L') by ring.
    replace (100 * Z.pos my * L' * 2 ^ 46) with (Z.pos my * (100 * 2 ^ 46) * L') by ring.
    apply Z.mul_le_mono_nonneg_r; lia.
  - apply Z.mul_le_mono_pos_r with (p := 2 ^ 46); [exact P46|].
    replace ((Z.pos mw + 1) * L * 2 ^ 46) with ((Z.pos mw + 1) * (2 ^ 46 * L)) by ring.
    rewrite <- G.
    replace ((Z.pos mw + 1) * (c * L')) with ((Z.pos mw + 1) * c * L') by ring.
    replace (100 * Z.pos my * L' * 2 ^ 46) with (Z.pos my * (100 * 2 ^ 46) * L') by ring.
    apply Z.mul_le_mono_nonneg_r; lia.
Qed.

(** [Math.round] of a positive double with a negative exponent: the
    integer within one half of it, the larger one at a tie. *)
Lemma Math_round_half (mw : positive) (ew : Z) :
  ew < 0 ->
  exists z,
    Math_round (S754_finite false mw ew) = IInt z
    /\ 2 * z * 2 ^ (- ew) <= 2 * Z.pos mw + 2 ^ (- ew)
    /\ 2 * Z.pos mw + 2 ^ (- ew) < 2 * (z + 1) * 2 ^ (- ew).
Proof.
  intros He. destruct ew as [|p|k]; try lia.
  unfold Math_round, signed. eexists. split; [reflexivity|].
  change (- Z.neg k) with (Z.pos k).
  assert (H1 : 0 < 2 ^ Z.pos k) by (apply Z.pow_pos_nonneg; lia).
  assert (H2 : 2 ^ (Z.pos k + 1) = 2 * 2 ^ Z.pos k)
    by (rewrite Z.pow_add_r by lia; lia).
  rewrite H2.
  pose proof (Z.div_mod (2 * Z.pos mw + 2 ^ Z.pos k) (2 * 2 ^ Z.pos k) ltac:(lia)) as D.
  pose proof (Z.mod_pos_bound (2 * Z.pos mw + 2 ^ Z.pos k) (2 * 2 ^ Z.pos k) ltac:(lia)) as M.
  nia.
Qed.

(** The arithmetic of the three roundings: from the three bounds, how far
    the rounded percentage is from the exact one. *)
Lemma percent_error (f t my mw L L' z : Z) :
  0 < f <= t ->
  2 ^ 52 <= my -> 2 ^ 52 <= mw -> 0 < L -> 0 < L' ->
  (my - 1) * t <= f * L -> f * L <= (my + 1) * t ->
  (mw - 1) * L <= 100 * my * L' -> 100 * my * L' <= (mw + 1) * L ->
  2 * z * L' <= 2 * mw + L' -> 2 * mw + L' < 2 * (z + 1) * L' ->
  2 ^ 43 * (2 * z * t - 200 * f - t) <= t
  /\ 2 ^ 43 * (200 * f - 2 * z * t - t) <= t.
Proof.
  intros Hf Hmy Hmw HL HL' A1 A2 B1 B2 C1 C2.
  assert (P52 : 2 ^ 52 = 4503599627370496) by reflexivity.
  assert (P43 : 2 ^ 43 = 8796093022208) by reflexivity.
  rewrite P52 in *. rewrite P43. clear P52 P43.
  assert (HLl : my - 1 <= L).
  { apply Z.mul_le_mono_pos_r with (p := t); [lia|].
    apply Z.le_trans with (1 := A1). rewrite (Z.mul_comm L t).
    apply Z.mul_le_mono_nonneg_r; lia. }
  assert (HL0 : 4503599627370495 <= L) by lia.
  assert (HL'0 : 35184372088832 <= L').
  { destruct (Z_lt_le_dec L' 35184372088832) as [Lt|Ge]; [|exact Ge]. exfalso.
    assert (X1 : 4503599627370495 * L <= (mw - 1) * L)
      by (apply Z.mul_le_mono_nonneg_r; lia).
    assert (X2 : 100 * my * L' <= 100 * (L + 1) * L')
      by (apply Z.mul_le_mono_nonneg_r; lia).
    assert (X3 : 100 * (L + 1) * L' <= 100 * (L + 1) * 35184372088831)
      by (apply Z.mul_le_mono_nonneg_l; lia).
    lia. }
  assert (K : 8796093022208 * (200 * L' + 2 * L) <= L * L').
  { assert (X : 2744381022928895 * 17592186044416
                <= (L - 1759218604441600) * (L' - 17592186044416))
      by (apply Z.mul_le_mono_nonneg; lia).
    replace (L * L')
      with ((L - 1759218604441600) * (L' - 17592186044416)
            + 1759218604441600 * L' + 17592186044416 * L
            - 1759218604441600 * 17592186044416) by ring.
    lia. }
  assert (PLL : 0 < L * L') by (apply Z.mul_pos_pos; lia).
  assert (Pt : 0 < t) by lia.
  assert (Kt : t * (8796093022208 * (200 * L' + 2 * L)) <= t * (L * L'))
    by (apply Z.mul_le_mono_nonneg_l; lia).
  split.
  - assert (U1 : 2 * z * L' * (t * L) <= (2 * mw + L') * (t * L))
      by (apply Z.mul_le_mono_nonneg_r; [apply Z.mul_nonneg_nonneg; lia | exact C1]).
    assert (U2 : (mw - 1) * L * (2 * t) <= 100 * my * L' * (2 * t))
      by (apply Z.mul_le_mono_nonneg_r; lia).
    assert (U3 : (my - 1) * t * (200 * L') <= f * L * (200 * L'))
      by (apply Z.mul_le_mono_nonneg_r; lia).
    apply Z.mul_le_mono_pos_r with (p := L * L'); [exact PLL|].
    apply Z.le_trans with (2 := Kt).
    ring_simplify. ring_simplify in U1. ring_simplify in U2. ring_simplify in U3.
    lia.
  - assert (C2' : 2 * mw + L' + 1 <= 2 * (z + 1) * L') by lia.
    assert (U1 : (2 * mw + L' + 1) * (t * L) <= 2 * (z + 1) * L' * (t * L))
      by (apply Z.mul_le_mono_nonneg_r; [apply Z.mul_nonneg_nonneg; lia | exact C2']).
    assert (U2 : 100 * my * L' * (2 * t) <= (mw + 1) * L * (2 * t))
      by (apply Z.mul_le_mono_nonneg_r; lia).
    assert (U3 : f * L * (200 * L') <= (my + 1) * t * (200 * L'))
      by (apply Z.mul_le_mono_nonneg_r; lia).
    assert (PtL : 0 <= t * L) by (apply Z.mul_nonneg_nonneg; lia).
    apply Z.mul_le_mono_pos_r with (p := L * L'); [exact PLL|].
    apply Z.le_trans with (2 := Kt).
    ring_simplify. ring_simplify in U1. ring_simplify in U2. ring_simplify in U3.
    lia.
Qed.

(** Line 143 on integer counters, free memory not above total memory:
    the percentage is an integer [z] with [2 z t] within [t + t / 2^43] of
    [200 f]. *)
Lemma free_percent_error (f t : Z) :
  0 <= f <= t -> 0 < t < 2 ^ 53 ->
  exists z,
    free_percent (of_Z f) (of_Z t) = IInt z
    /\ 2 ^ 43 * (2 * z * t - 200 * f - t) <= t
    /\ 2 ^ 43 * (200 * f - 2 * z * t - t) <= t.
Proof.
  intros Hf Ht. unfold free_percent.
  destruct (Z.eq_dec f 0) as [->|Nf].
  - exists 0. destruct (of_Z_value t Ht) as (mt & et & -> & _).
    split; [reflexivity|]. lia.
  - destruct (div_faithful f t ltac:(lia) ltac:(lia))
      as (my & ey & -> & Hey & Hmy & A1 & A2).
    destruct (mul_100_faithful my ey Hmy Hey) as (mw & ew & -> & Hew & Hmw & B1 & B2).
    destruct (Math_round_half mw ew ltac:(lia)) as (z & -> & C1 & C2).
    exists z. split; [reflexivity|].
    apply (percent_error f t (Z.pos my) (Z.pos mw) (2 ^ (- ey)) (2 ^ (- ew)) z);
      try lia; try (apply Z.pow_pos_nonneg; lia).
Qed.
End Binary64Error.

(** Line 143: how exact the free-memory percentage is.  On every host
    whose memory counters are integers below [2^53], the free memory not
    above the total and the total positive, the percentage shown is an
    integer from 0 to 100; it is 0 when no memory is free and 100 when all
    of it is; and it is within one half (and [2^-44]) of the exact
    percentage.  Up to [2^43] bytes of total memory it is within one half
    of the exact percentage: the exact percentage rounded to the nearest
    integer, but for an exact tie, which may go either way. *)
Theorem free_percent_accuracy
        (prettysize humanizeDuration : number -> string)
        (h : host) (free total : Z) :
  os_freemem h = of_Z free ->
  os_totalmem h = of_Z total ->
  (0 <= free <= total)%Z ->
  (0 < total < 2 ^ 53)%Z ->
  exists z : Z,
    freemempercent (os_facts prettysize humanizeDuration h) = IInt z
    /\ (0 <= z <= 100)%Z
    /\ (free = 0 -> z = 0)%Z
    /\ (free = total -> z = 100)%Z
    /\ (2 ^ 43 * Z.abs (2 * z * total - 200 * free) <= (2 ^ 43 + 1) * total)%Z
    /\ (total <= 2 ^ 43 ->
        200 * free - total <= 2 * z * total <= 200 * free + total)%Z.
Proof.
  intros Ef Et Hf Ht. simpl freemempercent. rewrite Ef, Et.
  destruct (free_percent_error free total Hf Ht) as (z & -> & E1 & E2).
  exists z. split; [reflexivity|].
  assert (P43 : (2 ^ 43 = 8796093022208)%Z) by reflexivity.
  rewrite P43 in *.
  assert (Z0 : (0 <= z)%Z).
  { destruct (Z_lt_le_dec z 0) as [L|L]; [|exact L]. exfalso.
    assert (z * total <= -1 * total)%Z by (apply Z.mul_le_mono_nonneg_r; lia).
    lia. }
  assert (Z100 : (z <= 100)%Z).
  { destruct (Z_lt_le_dec 100 z) as [L|L]; [|exact L]. exfalso.
    assert (101 * total <= z * total)%Z by (apply Z.mul_le_mono_nonneg_r; lia).
    lia. }
  refine (conj (conj Z0 Z100) (conj _ (conj _ (conj _ _)))).
  - intros ->.
    destruct (Z_lt_le_dec 0 z) as [L|L]; [|lia]. exfalso.
    assert (1 * total <= z * total)%Z by (apply Z.mul_le_mono_nonneg_r; lia).
    lia.
  - intros ->.
    destruct (Z_lt_le_dec z 100) as [L|L]; [|lia]. exfalso.
    assert (z * total <= 99 * total)%Z by (apply Z.mul_le_mono_nonneg_r; lia).
    lia.
  - lia.
  - intros Hs. lia.
Qed.

Lemma free_percent_accuracy_witness :
  exists z : Z,
    freemempercent
      (os_facts Sample.prettysize Sample.humanizeDuration Sample.machine)
    = IInt z
    /\ (0 <= z <= 100)%Z
    /\ (200 * 250 - 1000 <= 2 * z * 1000 <= 200 * 250 + 1000)%Z.
Proof.
  destruct (free_percent_accuracy Sample.prettysize Sample.humanizeDuration
              Sample.machine 250 1000 eq_refl eq_refl)
    as (z & E & B & _ & _ & _ & H).
  - split; discriminate.
  - split; reflexivity.
  - exists z. refine (conj E (conj B (H _))). discriminate.
Defined.

(** ** The request block of the page *)

(** Lines 85-92 and 169-179.  For a request with truthy headers the
    request block of the page starts with these rows, in this order: the
    heading, the method as the request has it, the absolute URL, the
    client address, the heading of the headers, and the row of the
    original URL when [req.showOriginalUrl] is truthy.  [nodeinfo] sets
    neither [showOriginalUrl] nor [originalUrl]: the row is there only
    if the caller has set the flag on the request. *)
Theorem page_shows_request
        (prettysize humanizeDuration : number -> string)
        (h : host) (options : value) (s s' : store) (html : string) :
  nodeinfo prettysize humanizeDuration h options s = (Ok html, s') ->
  truthy (field (req s) "headers") = true ->
  contains
    (Template.heading "h2" "Request"
     ++ Template.row "method" (Hb.escapeExpression (field (req s) "method"))
     ++ Template.row "href" (Hb.escape (After.href (req s)))
     ++ Template.row "remote ip" (Hb.escapeExpression (After.client_address (req s)))
     ++ Template.heading "h3" "headers"
     ++ (if truthy (field (req s) "showOriginalUrl")
         then Template.row "original url"
                (Hb.escapeExpression (field (req s) "originalUrl"))
         else EmptyString)
     ++ Template.header_rows (req s'))
    html
  /\ field (req s') "showOriginalUrl" = field (req s) "showOriginalUrl"
  /\ field (req s') "originalUrl" = field (req s) "originalUrl"
  /\ field (req s') "method" = field (req s) "method".
Proof.
  intros H Hh.
  destruct (nodeinfo_request _ _ _ _ _ _ _ H Hh) as (E & Hrows).
  rewrite E.
  rewrite !(request_object_field (req s)) by (assumption || reflexivity).
  split; [|auto].
  apply Hrows. unfold Template.request_rows.
  rewrite !(prop_request_object (req s)) by assumption.
  rewrite (request_object_href _ Hh), (request_object_ip_addr _ Hh).
  rewrite !(request_object_field (req s)) by (assumption || reflexivity).
  unfold Hb.if_.
  generalize (Template.header_rows (After.request_object (req s)))
    (Template.cookie_rows (After.request_object (req s))).
  intros hr cr. cbn [cat].
  change (Hb.escapeExpression (VStr (After.href (req s))))
    with (Hb.escape (After.href (req s))).
  exists EmptyString. eexists.
  rewrite append_nil_l, !append_assoc. reflexivity.
Qed.

Lemma page_shows_request_witness :
  contains
    (Template.row "method" "GET"
     ++ Template.row "href" "https://example.org/"
     ++ Template.row "remote ip" "192.0.2.7 via 10.0.0.1")
    (Template.render
       (After.page_context Sample.prettysize Sample.humanizeDuration Sample.machine
          VUndefined "GMT+0000 (Greenwich Mean Time)"
          {| req := Sample.forwarded; proc := Sample.node_process |})).
Proof.
  eapply contains_trans;
    [|exact (proj1 (page_shows_request Sample.prettysize Sample.humanizeDuration
                      Sample.machine VUndefined
                      {| req := Sample.forwarded; proc := Sample.node_process |} _ _
                      (nodeinfo_run Sample.prettysize Sample.humanizeDuration
                         Sample.machine VUndefined
                         {| req := Sample.forwarded; proc := Sample.node_process |}
                         "GMT+0000 (Greenwich Mean Time)" eq_refl eq_refl)
                      eq_refl))].
  apply contains_append_r.
  exists EmptyString. eexists. rewrite append_nil_l, !append_assoc.
  reflexivity.
Defined.

(** ** Load averages (lines 141-142) *)

Lemma length_append (a b : string) :
  String.length (a ++ b) = (String.length a + String.length b)%nat.
Proof.
  induction a as [|c a IH]; [reflexivity|].
  rewrite append_cons. simpl. now rewrite IH.
Qed.

Lemma substring_all (d : string) : substring 0 (String.length d) d = d.
Proof.
  induction d as [|c d IH]; [reflexivity|]. simpl. now rewrite IH.
Qed.

Lemma substring_split (k : nat) (d : string) :
  (k <= String.length d)%nat ->
  substring 0 k d ++ substring k (String.length d - k) d = d.
Proof.
  revert d. induction k as [|k IH]; intros d H.
  - rewrite Nat.sub_0_r, substring_all. now destruct d.
  - destruct d as [|c d]; [simpl in H; lia|].
    simpl in H. simpl substring. simpl String.length. simpl Nat.sub.
    rewrite append_cons, IH by lia. reflexivity.
Qed.

Lemma length_substring (k n : nat) (d : string) :
  (k + n <= String.length d)%nat -> String.length (substring k n d) = n.
Proof.
  revert d n. induction k as [|k IH]; intros d n H.
  - revert d H. induction n as [|n IHn]; intros d H; [now destruct d|].
    destruct d as [|c d]; [simpl in H; lia|].
    simpl. rewrite IHn; [reflexivity | simpl in H; lia].
  - destruct d as [|c d]; [simpl in H; lia|].
    simpl. apply IH. simpl in H. lia.
Qed.

Lemma length_zeros (n : nat) : String.length (zeros n) = n.
Proof.
  induction n as [|n IH]; [reflexivity|].
  simpl zeros. rewrite append_cons, append_nil_l. simpl. now rewrite IH.
Qed.

Lemma parse_decimal_zeros (j : nat) (n : N) :
  parse_decimal (zeros j ++ decimal n) = Some n.
Proof.
  induction j as [|j IH].
  - rewrite append_nil_l. apply parse_decimal_decimal.
  - simpl zeros. rewrite append_cons, append_nil_l, append_cons.
    unfold parse_decimal in *.
    pose proof (decimal_not_empty n) as Hn.
    destruct (zeros j ++ decimal n) as [|c r] eqn:E.
    + destruct j; [rewrite append_nil_l in E; now contradiction Hn|].
      simpl zeros in E. rewrite !append_cons in E. discriminate E.
    + rewrite <- E in *. simpl NilEmpty.uint_of_string.
      destruct (NilEmpty.uint_of_string (zeros j ++ decimal n)) as [u|];
        [|discriminate IH].
      simpl in *. exact IH.
Qed.

(** A numeral of hundredths: digits, a point, two digits; read without
    the point it is the number of hundredths. *)
Lemma hundredths_shape (n : Z) :
  (0 <= n)%Z ->
  exists a b,
    hundredths n = a ++ "." ++ b
    /\ a <> EmptyString
    /\ String.length b = 2%nat
    /\ parse_decimal (a ++ b) = Some (Z.to_N n).
Proof.
  intros Hn. unfold hundredths, digits_of.
  set (d := decimal (Z.to_N n)).
  set (d' := zeros (3 - String.length d) ++ d).
  assert (Hl : (3 <= String.length d')%nat).
  { unfold d'. rewrite length_append, length_zeros. lia. }
  exists (substring 0 (String.length d' - 2) d'),
         (substring (String.length d' - 2) 2 d').
  refine (conj eq_refl (conj _ (conj _ _))).
  - intros E. apply (f_equal String.length) in E.
    rewrite length_substring in E by lia. simpl in E. lia.
  - apply length_substring. lia.
  - assert (E : substring (String.length d' - 2) 2 d'
                = substring (String.length d' - 2)
                    (String.length d' - (String.length d' - 2)) d')
      by (f_equal; lia).
    rewrite E, substring_split by lia.
    apply parse_decimal_zeros.
Qed.

(** [toFixed(2)] of a load average that is zero or a positive double
    below [10^21]. *)
Lemma toFixed2_shape (x : number) :
  match x with
  | S754_zero _ => True
  | S754_finite false m e => (Z.pos m * 2 ^ e < 10 ^ 21)%Z
  | _ => False
  end ->
  exists a b n,
    toFixed2 x = a ++ "." ++ b
    /\ a <> EmptyString
    /\ String.length b = 2%nat
    /\ parse_decimal (a ++ b) = Some n
    /\ match x with
       | S754_finite _ m (Z.neg k) =>
           (2 * Z.of_N n * 2 ^ Z.pos k <= 200 * Z.pos m + 2 ^ Z.pos k
            < 2 * (Z.of_N n + 1) * 2 ^ Z.pos k)%Z
       | S754_finite _ m e => Z.of_N n = (100 * (Z.pos m * 2 ^ e))%Z
       | _ => n = 0%N
       end.
Proof.
  destruct x as [s|s| |[|] m e]; try contradiction; intros H.
  - exists "0", "00", 0%N. repeat split. discriminate.
  - assert (P : forall k, (0 < 2 ^ Z.pos k)%Z) by (intros k; apply Z.pow_pos_nonneg; lia).
    destruct e as [|p|k].
    + unfold toFixed2. apply Z.ltb_lt in H as H'. rewrite H', append_nil_l.
      destruct (hundredths_shape (100 * (Z.pos m * 2 ^ 0))%Z ltac:(lia))
        as (a & b & E & Na & Lb & Pn).
      exists a, b, (Z.to_N (100 * (Z.pos m * 2 ^ 0))).
      refine (conj E (conj Na (conj Lb (conj Pn _)))). rewrite Z2N.id; lia.
    + unfold toFixed2. apply Z.ltb_lt in H as H'. rewrite H', append_nil_l.
      assert (0 <= 100 * (Z.pos m * 2 ^ Z.pos p))%Z by (specialize (P p); nia).
      destruct (hundredths_shape (100 * (Z.pos m * 2 ^ Z.pos p))%Z ltac:(lia))
        as (a & b & E & Na & Lb & Pn).
      exists a, b, (Z.to_N (100 * (Z.pos m * 2 ^ Z.pos p))).
      refine (conj E (conj Na (conj Lb (conj Pn _)))). rewrite Z2N.id; lia.
    + unfold toFixed2. rewrite append_nil_l.
      assert (H2 : (2 ^ (Z.pos k + 1) = 2 * 2 ^ Z.pos k)%Z)
        by (rewrite Z.pow_add_r by lia; lia).
      specialize (P k).
      set (q := ((200 * Z.pos m + 2 ^ Z.pos k) / 2 ^ (Z.pos k + 1))%Z).
      assert (Hq : (0 <= q)%Z) by (apply Z.div_pos; lia).
      destruct (hundredths_shape q Hq) as (a & b & E & Na & Lb & Pn).
      exists a, b, (Z.to_N q).
      refine (conj E (conj Na (conj Lb (conj Pn _)))). rewrite Z2N.id by lia.
      unfold q. rewrite H2.
      pose proof (Z.div_mod (200 * Z.pos m + 2 ^ Z.pos k) (2 * 2 ^ Z.pos k) ltac:(lia)) as D.
      pose proof (Z.mod_pos_bound (200 * Z.pos m + 2 ^ Z.pos k) (2 * 2 ^ Z.pos k)
                    ltac:(lia)) as M.
      set (qq := ((200 * Z.pos m + 2 ^ Z.pos k) / (2 * 2 ^ Z.pos k))%Z) in *.
      set (rr := ((200 * Z.pos m + 2 ^ Z.pos k) mod (2 * 2 ^ Z.pos k))%Z) in *.
      replace (2 * qq * 2 ^ Z.pos k)%Z with (2 * 2 ^ Z.pos k * qq)%Z by ring.
      replace (2 * (qq + 1) * 2 ^ Z.pos k)%Z
        with (2 * 2 ^ Z.pos k * qq + 2 * 2 ^ Z.pos k)%Z by ring.
      lia.
Qed.

(** Lines 141-142.  The load averages in the page.  When every load
    average the host reports is zero or a positive double below [10^21],
    the cell holds one numeral for each of them, in their order, joined
    by single spaces; each numeral is digits, a point and two digits, and
    read without the point it is the load average in hundredths, rounded
    to the nearest integer (upwards at a tie). *)
Theorem load_averages_two_decimals
        (prettysize humanizeDuration : number -> string) (h : host) :
  (forall x, In x (os_loadavg h) ->
             match x with
             | S754_zero _ => True
             | S754_finite false m e => (Z.pos m * 2 ^ e < 10 ^ 21)%Z
             | _ => False
             end) ->
  exists cells,
    loadavg (os_facts prettysize humanizeDuration h) = join " " cells
    /\ Forall2
         (fun x cell =>
            exists a b n,
              cell = a ++ "." ++ b
              /\ a <> EmptyString
              /\ String.length b = 2%nat
              /\ parse_decimal (a ++ b) = Some n
              /\ match x with
                 | S754_finite _ m (Z.neg k) =>
                     (2 * Z.of_N n * 2 ^ Z.pos k <= 200 * Z.pos m + 2 ^ Z.pos k
                      < 2 * (Z.of_N n + 1) * 2 ^ Z.pos k)%Z
                 | S754_finite _ m e => Z.of_N n = (100 * (Z.pos m * 2 ^ e))%Z
                 | _ => n = 0%N
                 end)
         (os_loadavg h) cells.
Proof.
  intros H. exists (map toFixed2 (os_loadavg h)). split; [reflexivity|].
  induction (os_loadavg h) as [|x l IH]; [constructor|].
  simpl map. constructor.
  - apply toFixed2_shape. apply H. now left.
  - apply IH. intros y Hy. apply H. now right.
Qed.

Lemma load_averages_two_decimals_witness :
  exists cells,
    loadavg (os_facts Sample.prettysize Sample.humanizeDuration Sample.machine)
    = join " " cells
    /\ List.length cells = 3%nat.
Proof.
  destruct (load_averages_two_decimals Sample.prettysize Sample.humanizeDuration
              Sample.machine) as (cells & E & F).
  - intros x [<-|[<-|[<-|[]]]]; vm_compute; reflexivity.
  - exists cells. split; [exact E|].
    apply Forall2_length in F. now rewrite <- F.
Defined.
